(** * Wall bouncer: the status resolver of [main.py] and [real_wall_bouncer.py]

    A shallow embedding of the two program variants' interrupt handler
    ([toggle_pause], [toggle_pause_irq]) and per-cycle status function
    ([check_battery_and_get_speed], [check_status]), and the properties of the
    specification checked against them; then the main blocks of the two
    programs with the motor driver of [dual_motor_driers.py] and the
    distance sensor, and further properties of the code.

    Layout: the MicroPython clock, the machine the programs run on (clock,
    button pin, interrupt, output trace), the two programs, the statements
    of the specification, the main blocks, then the lemmas and theorems. *)

From Stdlib Require Import String ZArith List Bool Lia QArith.
Import ListNotations.
Local Open Scope Z_scope.

(* ===================================================================== *)
(** ** The millisecond clock of MicroPython *)
(* ===================================================================== *)

(** [time.ticks_ms()] counts milliseconds modulo a power of two and
    [time.ticks_diff(a, b)] is the signed difference of two readings, folded
    into the half-open window of one period centred on zero. Both programs
    import them from [time]; the period is the one of the 31-bit small
    integers of the board's port. *)
Module Ticks.

Definition TICKS_PERIOD : Z := 1073741824.
Definition TICKS_HALF : Z := 536870912.

Definition ticks_of (t : Z) : Z := t mod TICKS_PERIOD.

Definition ticks_diff (a b : Z) : Z :=
  (a - b + TICKS_HALF) mod TICKS_PERIOD - TICKS_HALF.

End Ticks.
Export Ticks.

(* ===================================================================== *)
(** ** Output events *)
(* ===================================================================== *)

(** Everything the status function does to the outside world, in program
    order.  [dmd.stop()] stops the left motor and then the right one
    ([dual_motor_driers.py]); [dmd.disable()] switches the standby pin off;
    [set_leds(r, g_pwm, b)] writes the red pin, the blue pin and the green
    PWM duty, in that order. *)
Inductive event : Type :=
| Console (s : string)
| LeftStop
| RightStop
| Standby (on : bool)
| Red (v : Z)
| Blue (v : Z)
| Green (duty : Z)
| Sleep (ms : nat).

(** How a call ends: it returns a value, the process exits ([sys.exit()]),
    or a [while] loop is still running when the fuel is used up.  The fuel
    of a status function bounds the passes of each of its [while] loops. *)
Inductive result (A : Type) : Type :=
| Val (a : A)
| Exited
| Starved.
Arguments Val {A} a.
Arguments Exited {A}.
Arguments Starved {A}.

(** The three battery bands, as the [if]/[elif]/[else] chain on the work
    time selects them in both programs:
    [if t > 55000: ... elif t > 45000: ... else: ...]. *)
Inductive band : Type := NORMAL | DEGRADED | CRITICAL.

Definition band_of (t : Z) : band :=
  if t >? 55000 then CRITICAL
  else if t >? 45000 then DEGRADED
  else NORMAL.

(** [range(start, stop, step)] of Python for a non-zero step. *)
Definition py_range (start stop step : Z) : list Z :=
  let n :=
    if 0 <? step then (stop - start + step - 1) / step
    else (start - stop - step - 1) / (- step) in
  map (fun i => start + Z.of_nat i * step) (seq 0 (Z.to_nat n)).

(* ===================================================================== *)
(** ** The machine *)
(* ===================================================================== *)

(** Timing model: the clock advances only inside [sleep], one millisecond
    at a time; every other statement is instantaneous.  The button pin is a
    function of time; its rising edges fire the interrupt handler, which
    therefore runs only while the main program sleeps. *)
Section Machine.

Variable G : Type.                 (* the module-level variables *)
Variable button : Z -> bool.       (* raw pin level at each millisecond *)
Variable irq : Z -> G -> G.        (* the handler, given its ticks_ms() reading *)

Record world : Type := World {
  clock : Z;
  vars : G;
  out : list event
}.

Definition M (A : Type) : Type := world -> result A * world.

Definition ret {A} (a : A) : M A := fun w => (Val a, w).

Definition bind {A B} (m : M A) (f : A -> M B) : M B :=
  fun w =>
    match m w with
    | (Val a, w') => f a w'
    | (Exited, w') => (Exited, w')
    | (Starved, w') => (Starved, w')
    end.

Definition sys_exit {A} : M A := fun w => (Exited, w).
Definition starve {A} : M A := fun w => (Starved, w).

Definition emit (e : event) : M unit :=
  fun w => (Val tt, World (clock w) (vars w) (out w ++ [e])).

Definition gets {A} (f : G -> A) : M A := fun w => (Val (f (vars w)), w).

Definition modify (f : G -> G) : M unit :=
  fun w => (Val tt, World (clock w) (f (vars w)) (out w)).

Definition ticks_ms : M Z := fun w => (Val (ticks_of (clock w)), w).

Definition button_value : M bool := fun w => (Val (button (clock w)), w).

Definition rising (t : Z) : bool := negb (button (t - 1)) && button t.

(** One millisecond passes; a rising edge at the new instant runs the
    handler. *)
Definition tick (w : world) : world :=
  let t := clock w + 1 in
  World t (if rising t then irq (ticks_of t) (vars w) else vars w) (out w).

Definition sleep (ms : nat) : M unit :=
  fun w =>
    (Val tt, Nat.iter ms tick (World (clock w) (vars w) (out w ++ [Sleep ms]))).

Definition print (s : string) : M unit := emit (Console s).

Definition dmd_stop : M unit :=
  bind (emit LeftStop) (fun _ => emit RightStop).

Definition dmd_disable : M unit := emit (Standby false).

Definition set_leds (r g_pwm b : Z) : M unit :=
  bind (emit (Red r)) (fun _ => bind (emit (Blue b)) (fun _ => emit (Green g_pwm))).

End Machine.

Arguments World {G} clock vars out.
Arguments clock {G} w.
Arguments vars {G} w.
Arguments out {G} w.
Arguments ret {G A} a.
Arguments bind {G A B} m f.
Arguments sys_exit {G A}.
Arguments starve {G A}.
Arguments emit {G} e.
Arguments gets {G A} f.
Arguments modify {G} f.
Arguments ticks_ms {G}.
Arguments button_value {G} button.
Arguments tick {G} button irq w.
Arguments sleep {G} button irq ms.
Arguments print {G} s.
Arguments dmd_stop {G}.
Arguments dmd_disable {G}.
Arguments set_leds {G} r g_pwm b.

Declare Scope machine_scope.
Delimit Scope machine_scope with machine.
Notation "x <- c1 ;; c2" := (bind c1 (fun x => c2))
  (at level 61, c1 at next level, right associativity) : machine_scope.
Notation "c1 ;; c2" := (bind c1 (fun _ => c2))
  (at level 61, right associativity) : machine_scope.
Local Open Scope machine_scope.

(* ===================================================================== *)
(** ** real_wall_bouncer.py *)
(* ===================================================================== *)

Module Bouncer.

(** The global state variables (lines 22-26). *)
Record globals : Type := Globals {
  paused : bool;
  work_accumulated_time : Z;
  session_start_time : Z;
  last_button_time : Z;
  button_press_start : Z
}.

Definition DUTY_MAX : Z := 65535.
Definition FADE_STEP : Z := 2000.

(** The module-level initial values, with [session_start_time = ticks_ms()]
    as the main block sets it before the first cycle. *)
Definition boot (t0 : Z) : globals := Globals false 0 (ticks_of t0) 0 0.

Definition set_button_press_start (v : Z) (g : globals) : globals :=
  Globals (paused g) (work_accumulated_time g) (session_start_time g)
          (last_button_time g) v.

(** [toggle_pause_irq(pin)], with [current] the handler's own
    [ticks_ms()] reading. *)
Definition toggle_pause_irq (current : Z) (g : globals) : globals :=
  if ticks_diff current (last_button_time g) >? 300 then
    if negb (paused g) then
      Globals true
              (work_accumulated_time g + ticks_diff current (session_start_time g))
              (session_start_time g) current (button_press_start g)
    else
      Globals false (work_accumulated_time g) current current
              (button_press_start g)
  else g.

(** Line 116: [work_accumulated_time + ticks_diff(ticks_ms(), session_start_time)]. *)
Definition total_work_ms (now : Z) (g : globals) : Z :=
  work_accumulated_time g + ticks_diff now (session_start_time g).

Section Program.

Variable button : Z -> bool.

(** Lines 77-89: the hold check. *)
Definition termination_check : M globals unit :=
  b <- button_value button ;;
  if b then
    ps <- gets button_press_start ;;
    if ps =? 0 then
      t <- ticks_ms ;;
      modify (set_button_press_start t)
    else
      t <- ticks_ms ;;
      if ticks_diff t ps >? 3000 then
        print "System Terminated by User (Hold)." ;;
        dmd_stop ;;
        dmd_disable ;;
        set_leds 0 0 0 ;;
        sys_exit
      else ret tt
  else modify (set_button_press_start 0).

(** One [for duty in range(...)] loop of the breathing animation, with its
    [if not paused: break]. *)
Fixpoint fade (duties : list Z) : M globals unit :=
  match duties with
  | [] => ret tt
  | duty :: rest =>
      p <- gets paused ;;
      if negb p then ret tt
      else
        emit (Green duty) ;;
        sleep button toggle_pause_irq 10 ;;
        fade rest
  end.

(** Lines 98-108: [while paused:] fade in, fade out. *)
Fixpoint breathing (fuel : nat) : M globals unit :=
  match fuel with
  | O => starve
  | S fuel' =>
      p <- gets paused ;;
      if p then
        fade (py_range 0 DUTY_MAX FADE_STEP) ;;
        fade (py_range DUTY_MAX 0 (- FADE_STEP)) ;;
        breathing fuel'
      else ret tt
  end.

(** Lines 91-112. *)
Definition pause_handling (fuel : nat) : M globals unit :=
  p <- gets paused ;;
  if p then
    print ">>> PAUSED" ;;
    dmd_stop ;;
    set_leds 0 0 0 ;;
    breathing fuel ;;
    print ">>> RESUMING" ;;
    emit (Green 65535)
  else ret tt.

(** Lines 126-130: [while ticks_ms() < end_time:] red on, red off. *)
Fixpoint blink (fuel : nat) (end_time : Z) : M globals unit :=
  match fuel with
  | O => starve
  | S fuel' =>
      t <- ticks_ms ;;
      if t <? end_time then
        emit (Red 1) ;;
        sleep button toggle_pause_irq 50 ;;
        emit (Red 0) ;;
        sleep button toggle_pause_irq 50 ;;
        blink fuel' end_time
      else ret tt
  end.

(** Lines 119-131: the battery shutdown. *)
Definition shutdown (fuel : nat) : M globals (Q * bool) :=
  print "CRITICAL BATTERY: Shutdown" ;;
  dmd_stop ;;
  set_leds 0 0 0 ;;
  t <- ticks_ms ;;
  blink fuel (t + 5000) ;;
  sys_exit.

(** Lines 114-141. *)
Definition battery_logic (fuel : nat) : M globals (Q * bool) :=
  t <- ticks_ms ;;
  g <- gets (fun g => g) ;;
  match band_of (total_work_ms t g) with
  | CRITICAL => shutdown fuel
  | DEGRADED => ret (0.25%Q, true)
  | NORMAL => ret (0.5%Q, false)
  end.

(** [check_status()]: hold check, pause handling, battery logic. *)
Definition check_status (fuel : nat) : M globals (Q * bool) :=
  termination_check ;;
  pause_handling fuel ;;
  battery_logic fuel.

End Program.

End Bouncer.

(* ===================================================================== *)
(** ** main.py *)
(* ===================================================================== *)

Module Main.

(** The global state variables (lines 22-27). *)
Record globals : Type := Globals {
  paused : bool;
  last_button_time : Z;
  total_paused_time : Z;
  pause_start_timestamp : Z;
  button_hold_start : Z;
  start_time : Z
}.

(** The module-level initial values; [start_time = ticks_ms()]. *)
Definition boot (t0 : Z) : globals := Globals false 0 0 0 0 (ticks_of t0).

Definition set_button_hold_start (v : Z) (g : globals) : globals :=
  Globals (paused g) (last_button_time g) (total_paused_time g)
          (pause_start_timestamp g) v (start_time g).

(** [toggle_pause(pin)], with [current] the handler's own [ticks_ms()]
    reading. *)
Definition toggle_pause (current : Z) (g : globals) : globals :=
  if ticks_diff current (last_button_time g) >? 300 then
    if negb (paused g) then
      (* paused becomes True *)
      Globals true current (total_paused_time g) current
              (button_hold_start g) (start_time g)
    else if negb (pause_start_timestamp g =? 0) then
      Globals false current
              (total_paused_time g + ticks_diff current (pause_start_timestamp g))
              (pause_start_timestamp g) (button_hold_start g) (start_time g)
    else
      Globals false current (total_paused_time g) (pause_start_timestamp g)
              (button_hold_start g) (start_time g)
  else g.

(** Line 111: [ticks_diff(current_time, start_time) - total_paused_time]. *)
Definition elapsed (now : Z) (g : globals) : Z :=
  ticks_diff now (start_time g) - total_paused_time g.

Section Program.

Variable button : Z -> bool.

(** Lines 80-90: [while paused:] one step of the green ramp per pass. *)
Fixpoint breathing (fuel : nat) (duty direction : Z) : M globals unit :=
  match fuel with
  | O => starve
  | S fuel' =>
      p <- gets paused ;;
      if p then
        let duty1 := duty + 2000 * direction in
        let duty2 :=
          if duty1 >=? 65535 then 65535 else if duty1 <=? 0 then 0 else duty1 in
        let direction2 :=
          if duty1 >=? 65535 then -1 else if duty1 <=? 0 then 1 else direction in
        emit (Green duty2) ;;
        sleep button toggle_pause 10 ;;
        breathing fuel' duty2 direction2
      else ret tt
  end.

(** Lines 68-93. *)
Definition pause_handling (fuel : nat) : M globals unit :=
  p <- gets paused ;;
  if p then
    print ">>> PAUSED" ;;
    dmd_stop ;;
    set_leds 0 0 0 ;;
    breathing fuel 0 1 ;;
    print ">>> RESUMING" ;;
    emit (Green 0)
  else ret tt.

(** Lines 95-106: the hold check. *)
Definition termination_check : M globals unit :=
  b <- button_value button ;;
  if b then
    hs <- gets button_hold_start ;;
    if hs =? 0 then
      t <- ticks_ms ;;
      modify (set_button_hold_start t)
    else
      t <- ticks_ms ;;
      if ticks_diff t hs >? 3000 then
        print "System Terminated by User (Hold)." ;;
        dmd_stop ;;
        dmd_disable ;;
        set_leds 0 0 0 ;;
        sys_exit
      else ret tt
  else modify (set_button_hold_start 0).

(** Lines 119-124: [while ticks_ms() < end:] with two [set_leds] calls. *)
Fixpoint blink (fuel : nat) (end_time : Z) : M globals unit :=
  match fuel with
  | O => starve
  | S fuel' =>
      t <- ticks_ms ;;
      if t <? end_time then
        set_leds 0 0 1 ;;
        sleep button toggle_pause 50 ;;
        set_leds 0 0 0 ;;
        sleep button toggle_pause 50 ;;
        blink fuel' end_time
      else ret tt
  end.

(** Lines 114-125: the battery shutdown. *)
Definition shutdown (fuel : nat) : M globals (Q * bool) :=
  print "CRITICAL BATTERY: Shutdown" ;;
  dmd_stop ;;
  set_leds 1 0 0 ;;
  t <- ticks_ms ;;
  blink fuel (t + 5000) ;;
  sys_exit.

(** Lines 108-133. *)
Definition battery_logic (fuel : nat) : M globals (Q * bool) :=
  current_time <- ticks_ms ;;
  g <- gets (fun g => g) ;;
  match band_of (elapsed current_time g) with
  | CRITICAL => shutdown fuel
  | DEGRADED => ret (0.25%Q, true)
  | NORMAL => ret (0.5%Q, false)
  end.

(** [check_battery_and_get_speed()]: pause handling, hold check, battery
    logic. *)
Definition check_battery_and_get_speed (fuel : nat) : M globals (Q * bool) :=
  pause_handling fuel ;;
  termination_check ;;
  battery_logic fuel.

End Program.

End Main.

(* ===================================================================== *)
(** ** Statements of the specification *)
(* ===================================================================== *)

(** The band thresholds as the specification words them: NORMAL below
    45000 ms, DEGRADED from 45000 ms up to but excluding 55000 ms, CRITICAL
    from 55000 ms on. *)
Definition band_as_specified (t : Z) : Prop :=
  (band_of t = NORMAL <-> t < 45000) /\
  (band_of t = DEGRADED <-> 45000 <= t < 55000) /\
  (band_of t = CRITICAL <-> 55000 <= t).

(** The decision the specification attaches to a non-terminal band. *)
Definition decision_of (b : band) : Q * bool :=
  match b with
  | DEGRADED => (0.25%Q, true)
  | _ => (0.5%Q, false)
  end.

(** The edges the debounce window lets through, in the specification's
    words: an edge is accepted when it comes more than 300 ms after the last
    accepted one, the time being measured as the programs measure it. *)
Fixpoint accepted (last : Z) (edges : list Z) : list Z :=
  match edges with
  | [] => []
  | e :: es =>
      if ticks_diff e last >? 300 then e :: accepted e es else accepted last es
  end.

(** The handler run on a sequence of rising edges, each with the clock
    reading it takes on entry. *)
Definition Bouncer_edges (edges : list Z) (g : Bouncer.globals) : Bouncer.globals :=
  fold_left (fun g e => Bouncer.toggle_pause_irq e g) edges g.

Definition Main_edges (edges : list Z) (g : Main.globals) : Main.globals :=
  fold_left (fun g e => Main.toggle_pause e g) edges g.

(** Presses more than 300 ms apart in time, the first more than 300 ms
    after [t]. *)
Fixpoint spaced (t : Z) (presses : list Z) : bool :=
  match presses with
  | [] => true
  | p :: ps => (p - t >? 300) && spaced p ps
  end.

(** [n] presses, one a second, the first a second after [t0]. *)
Definition presses_every_second (t0 : Z) (n : nat) : list Z :=
  map (fun i => t0 + 1000 * Z.of_nat i) (seq 1 n).

(** C5 as stated, read on the two handlers: a program started at [t0]
    whose button is pressed at instants more than 300 ms apart toggles at
    each press, so that it is PAUSED exactly after an odd number of them.
    The handler is given the reading of the tick counter at each press. *)
Definition spaced_presses_alternate : Prop :=
  forall (t0 : Z) (presses : list Z),
    0 <= t0 ->
    spaced t0 presses = true ->
    Bouncer.paused (Bouncer_edges (map ticks_of presses) (Bouncer.boot t0))
    = Nat.odd (List.length presses) /\
    Main.paused (Main_edges (map ticks_of presses) (Main.boot t0))
    = Nat.odd (List.length presses).

(** Seven days on the tick counter: more than half its period. *)
Definition seven_days : Z := 604800000.

(** What the hold check emits before [sys.exit()] (both programs). *)
Definition termination_trace : list event :=
  [Console "System Terminated by User (Hold)."; LeftStop; RightStop;
   Standby false; Red 0; Blue 0; Green 0].

(** What the pause block emits before its breathing loop (both programs). *)
Definition pause_entry : list event :=
  [Console ">>> PAUSED"; LeftStop; RightStop; Red 0; Blue 0; Green 0].

(** C2 as stated, read on [main.py]: a button held past the threshold on
    entry of a cycle that finds the program PAUSED makes that cycle exit. *)
Definition hold_overrides_pause_in_main : Prop :=
  forall (button : Z -> bool) (w : world Main.globals),
    Main.paused (vars w) = true ->
    button (clock w) = true ->
    Main.button_hold_start (vars w) <> 0 ->
    3000 < ticks_diff (ticks_of (clock w)) (Main.button_hold_start (vars w)) ->
    exists fuel w',
      Main.check_battery_and_get_speed button fuel w = (Exited, w').

(** One 100 ms period of the red blink of [real_wall_bouncer.py]. *)
Definition red_period : list event := [Red 1; Sleep 50; Red 0; Sleep 50].

(** The battery shutdown as the specification words it: motors stopped,
    indicator blanked, then the red LED blinking at 10 Hz for 5000 ms. *)
Definition critical_sequence : list event :=
  [LeftStop; RightStop; Red 0; Blue 0; Green 0] ++ concat (repeat red_period 50).

(** One pass of the blink loop of [main.py]: two [set_leds] calls, each
    followed by a 50 ms sleep. *)
Definition main_period : list event :=
  [Red 0; Blue 1; Green 0; Sleep 50; Red 0; Blue 0; Green 0; Sleep 50].

(** C3 as stated, read on [main.py]. *)
Definition shutdown_as_specified_in_main : Prop :=
  forall (button : Z -> bool) (fuel : nat) (w w' : world Main.globals),
    band_of (Main.elapsed (ticks_of (clock w)) (vars w)) = CRITICAL ->
    Main.battery_logic button fuel w = (Exited, w') ->
    out w' = out w ++ Console "CRITICAL BATTERY: Shutdown" :: critical_sequence.

(** C8 as stated: a negative clock delta counts as a zero-length
    duration, so the decision is the one of the banked time alone. *)
Definition clamped_total (now : Z) (g : Bouncer.globals) : Z :=
  Bouncer.work_accumulated_time g
  + Z.max 0 (ticks_diff now (Bouncer.session_start_time g)).

Definition negative_delta_is_zero : Prop :=
  forall (button : Z -> bool) (fuel : nat) (w w' : world Bouncer.globals) d,
    Bouncer.check_status button fuel w = (Val d, w') ->
    d = decision_of (band_of (clamped_total (ticks_of (clock w')) (vars w'))).

(** The motion sequencer as far as the status function is concerned: it
    calls the status function, then sleeps until the next call
    ([sleep(0.05)] in the movement loops); [gaps] are the sleeps in
    milliseconds. *)
Fixpoint Bouncer_cycles (button : Z -> bool) (fuel : nat) (gaps : list nat)
  : M Bouncer.globals unit :=
  match gaps with
  | [] => ret tt
  | gap :: rest =>
      Bouncer.check_status button fuel ;;
      sleep button Bouncer.toggle_pause_irq gap ;;
      Bouncer_cycles button fuel rest
  end.

Fixpoint Main_cycles (button : Z -> bool) (fuel : nat) (gaps : list nat)
  : M Main.globals unit :=
  match gaps with
  | [] => ret tt
  | gap :: rest =>
      Main.check_battery_and_get_speed button fuel ;;
      sleep button Main.toggle_pause gap ;;
      Main_cycles button fuel rest
  end.

(** The hold check of successive cycles, run at the given clock instants;
    the variables travel from one poll to the next. *)
Fixpoint Bouncer_polls (button : Z -> bool) (clocks : list Z) (g : Bouncer.globals)
  : result unit * Bouncer.globals :=
  match clocks with
  | [] => (Val tt, g)
  | c :: cs =>
      match Bouncer.termination_check button (World c g []) with
      | (Val _, w) => Bouncer_polls button cs (vars w)
      | (Exited, w) => (Exited, vars w)
      | (Starved, w) => (Starved, vars w)
      end
  end.

Fixpoint Main_polls (button : Z -> bool) (clocks : list Z) (g : Main.globals)
  : result unit * Main.globals :=
  match clocks with
  | [] => (Val tt, g)
  | c :: cs =>
      match Main.termination_check button (World c g []) with
      | (Val _, w) => Main_polls button cs (vars w)
      | (Exited, w) => (Exited, vars w)
      | (Starved, w) => (Starved, vars w)
      end
  end.

(** C10 as stated: a press first seen at clock reading 0 and held on can
    never end the process, however long the polling goes on. *)
Definition sentinel_blocks_termination : Prop :=
  forall (fuel : nat) (gaps : list nat),
    fst (Bouncer_cycles (fun _ => true) fuel gaps (World 0 (Bouncer.boot 0) []))
    <> Exited.



(** Instants in order: [t], then the edges, then [t']. *)
Fixpoint timeline (t : Z) (edges : list Z) (t' : Z) : Prop :=
  match edges with
  | [] => t <= t'
  | e :: es => t <= e /\ timeline e es t'
  end.




(** A computation only ever appends to the output trace. *)
Definition grows {G A} (m : M G A) : Prop :=
  forall w, exists tr, out (snd (m w)) = out w ++ tr.

(** A computation that ends the process or starves, but never returns. *)
Definition never_returns {G A} (m : M G A) : Prop :=
  forall w a w', m w <> (Val a, w').

(* ===================================================================== *)
(** ** Further statements about the programs *)
(* ===================================================================== *)

(** Every event a computation appends to the trace satisfies [P]. *)
Definition emits {G A} (P : event -> bool) (m : M G A) : Prop :=
  forall w, exists tr, out (snd (m w)) = out w ++ tr /\ forallb P tr = true.

(** Values the pins accept: 0 or 1 on the red and blue pins, a 16-bit duty
    on the green PWM ([duty_u16]). *)
Definition valid_pin (e : event) : bool :=
  match e with
  | Red v | Blue v => (v =? 0) || (v =? 1)
  | Green d => (0 <=? d) && (d <=? 65535)
  | _ => true
  end.

(** The duties of one pass of the breathing loop of
    [real_wall_bouncer.py]: [range(0, DUTY_MAX, FADE_STEP)] followed by
    [range(DUTY_MAX, 0, -FADE_STEP)]. *)
Definition breathing_cycle : list Z :=
  py_range 0 Bouncer.DUTY_MAX Bouncer.FADE_STEP
  ++ py_range Bouncer.DUTY_MAX 0 (- Bouncer.FADE_STEP).

(** What one step of a breathing loop appends to the trace. *)
Definition breathing_step (d : Z) : list event := [Green d; Sleep 10].

(** One pass of the loop of [main.py] on its two variables (lines 82-88),
    the duties written by [n] passes, and the variables after them. *)
Definition Main_ramp (s : Z * Z) : Z * Z :=
  let duty1 := fst s + 2000 * snd s in
  (if duty1 >=? 65535 then 65535 else if duty1 <=? 0 then 0 else duty1,
   if duty1 >=? 65535 then -1 else if duty1 <=? 0 then 1 else snd s).

Fixpoint Main_ramp_duties (n : nat) (s : Z * Z) : list Z :=
  match n with
  | O => []
  | S n' => fst (Main_ramp s) :: Main_ramp_duties n' (Main_ramp s)
  end.

Fixpoint Main_ramp_state (n : nat) (s : Z * Z) : Z * Z :=
  match n with
  | O => s
  | S n' => Main_ramp_state n' (Main_ramp s)
  end.

(** A hold longer than 3000 ms as a sequence of polls shows it: some poll
    reads the button pressed more than 3000 ms after the first poll of its
    run of pressed polls.  [start] is that first poll, if a run is on. *)
Fixpoint long_hold (button : Z -> bool) (start : option Z) (polls : list Z) : Prop :=
  match polls with
  | [] => False
  | c :: cs =>
      if button c then
        match start with
        | None => long_hold button (Some c) cs
        | Some s => 3000 < c - s \/ long_hold button (Some s) cs
        end
      else long_hold button None cs
  end.

(** A button pressed up to 2500 ms, released for 100 ms, pressed again. *)
Definition two_taps (t : Z) : bool := (t <? 2500) || (2600 <=? t).

(** A button pressed from 1000 ms to 1100 ms, and again from 5000 ms on. *)
Definition press_twice (t : Z) : bool :=
  ((1000 <=? t) && (t <? 1100)) || (5000 <=? t).

(* ===================================================================== *)
(** ** Motors, sensor and the main blocks *)
(* ===================================================================== *)

(** [dmd.left_motor] and [dmd.right_motor]. *)
Inductive motor : Type := LeftMotor | RightMotor.

(** The argument of a motor call as the call site writes it, [speed] or
    [speed * k]; the floating-point product is left unevaluated. *)
Inductive throttle : Type :=
| Speed (speed : Q)
| Scaled (speed k : Q).

(** What a main block does to the outside world, in program order: the
    events of the status function, of the LEDs, of [print] and of [sleep],
    and the calls [forward] and [backward] of a motor. *)
Inductive action : Type :=
| Core (e : event)
| Forward (m : motor) (d : throttle)
| Backward (m : motor) (d : throttle).

(** The main block runs on the clock and the module-level variables of the
    machine and keeps one log of all it does. *)
Section Rig.

Variable G : Type.

Record rig : Type := Rig {
  now : Z;
  mem : G;
  log : list action
}.

Definition Run (A : Type) : Type := rig -> result A * rig.

Definition done {A} (a : A) : Run A := fun s => (Val a, s).

Definition next {A B} (m : Run A) (f : A -> Run B) : Run B :=
  fun s =>
    match m s with
    | (Val a, s') => f a s'
    | (Exited, s') => (Exited, s')
    | (Starved, s') => (Starved, s')
    end.

Definition stall {A} : Run A := fun s => (Starved, s).

(** A computation of the machine called from the main block: it starts on
    the clock and the variables of the rig, and what it emits is appended
    to the log. *)
Definition core {A} (m : M G A) : Run A :=
  fun s =>
    let rw := m (World (now s) (mem s) []) in
    (fst rw,
     Rig (clock (snd rw)) (vars (snd rw)) (log s ++ map Core (out (snd rw)))).

Definition act (a : action) : Run unit :=
  fun s => (Val tt, Rig (now s) (mem s) (log s ++ [a])).

(** [sensor.distance]: the reading at this instant, [None] when the sensor
    has none. *)
Definition sense {reading : Type} (distance : Z -> option reading)
  : Run (option reading) :=
  fun s => (Val (distance (now s)), s).

End Rig.

Arguments Rig {G} now mem log.
Arguments now {G} r.
Arguments mem {G} r.
Arguments log {G} r.
Arguments done {G A} a.
Arguments next {G A B} m f.
Arguments stall {G A}.
Arguments core {G A} m.
Arguments act {G} a.
Arguments sense {G reading} distance.

Declare Scope run_scope.
Delimit Scope run_scope with run.
Notation "x <- c1 ;; c2" := (next c1 (fun x => c2))
  (at level 61, c1 at next level, right associativity) : run_scope.
Notation "c1 ;; c2" := (next c1 (fun _ => c2))
  (at level 61, right associativity) : run_scope.

(** [KeyboardInterrupt] is raised by Ctrl-C, at an instant the program does
    not choose.  Time passes in [sleep] only, so the exception is raised in
    the sleep that is under way when that instant [stop] comes, be it a
    sleep of the main block or of the status function: of what the [try]
    body logs from instant [c] on, the part up to the entry of that sleep
    happens and the rest does not.  [None] when the body ends, or the fuel
    runs out, before the instant comes. *)
Fixpoint until_ctrl_c (stop c : Z) (tr : list action) : option (list action) :=
  match tr with
  | [] => None
  | Core (Sleep ms) :: rest =>
      if stop <? c + Z.of_nat ms then Some [Core (Sleep ms)]
      else option_map (cons (Core (Sleep ms)))
             (until_ctrl_c stop (c + Z.of_nat ms) rest)
  | a :: rest => option_map (cons a) (until_ctrl_c stop c rest)
  end.

(** How a program ends, and all it has done by then. *)
Definition outcome : Type := (result unit * list action)%type.

(** [try: body except KeyboardInterrupt: handler], with Ctrl-C at the
    instant [ctrl_c] if there is one.  [sys.exit()] is not caught by the
    clause.  The handler is run after the part of the body that happened;
    it has no access to the variables. *)
Definition try_except_KeyboardInterrupt {G : Type} (ctrl_c : option Z)
    (body : Run G unit) (handler : Run unit unit) (s : rig G) : outcome :=
  let r := body (Rig (now s) (mem s) []) in
  match ctrl_c with
  | None => (fst r, log s ++ log (snd r))
  | Some stop =>
      match until_ctrl_c stop (now s) (log (snd r)) with
      | None => (fst r, log s ++ log (snd r))
      | Some entered =>
          let h := handler (Rig stop tt (log s ++ entered)) in
          (fst h, log (snd h))
      end
  end.

(* ===================================================================== *)
(** ** dual_motor_driers.py *)
(* ===================================================================== *)

(** [DualMotorDriver]: two motors and a standby pin, as far as the main
    blocks use it.  [MotorDriver] is not part of the sources; its calls
    [forward], [backward] and [stop] are logged as they are made. *)
Module Dmd.

Section Driver.

Context {G : Type}.

Local Open Scope run_scope.

Definition disable : Run G unit := core dmd_disable.

Definition enable : Run G unit := core (emit (Standby true)).

(** [__init__] builds the motors and the pin and ends with
    [self.disable()]. *)
Definition init : Run G unit := disable.

Definition stop : Run G unit := core dmd_stop.

End Driver.

End Dmd.

(* ===================================================================== *)
(** ** The main block of real_wall_bouncer.py *)
(* ===================================================================== *)

(** Lines 145-238.  The sensor is a function of time giving the reading or
    [None]; [within lo hi d] is the test [lo <= d <= hi] on a reading. *)
Module BouncerBlock.

Section Block.

Variable reading : Type.
Variable distance : Z -> option reading.
Variable within : Q -> Q -> reading -> bool.
Variable button : Z -> bool.

Local Open Scope run_scope.

(** The variables as the module leaves them (lines 22-26). *)
Definition initial : Bouncer.globals := Bouncer.Globals false 0 0 0 0.

Definition set_session_start_time (t : Z) (g : Bouncer.globals) : Bouncer.globals :=
  Bouncer.Globals (Bouncer.paused g) (Bouncer.work_accumulated_time g) t
                  (Bouncer.last_button_time g) (Bouncer.button_press_start g).

Definition check_status (fuel : nat) : Run Bouncer.globals (Q * bool) :=
  core (Bouncer.check_status button fuel).

Definition sleep_ms (ms : nat) : Run Bouncer.globals unit :=
  core (sleep button Bouncer.toggle_pause_irq ms).

Definition leds (r g_pwm b : Z) : Run Bouncer.globals unit :=
  core (set_leds r g_pwm b).

Definition say (s : string) : Run Bouncer.globals unit := core (print s).

(** Lines 154-158: [for _ in range(5)]. *)
Fixpoint blinks (n : nat) : Run Bouncer.globals unit :=
  match n with
  | O => done tt
  | S n' =>
      leds 1 65535 1 ;;
      sleep_ms 100 ;;
      leds 0 0 0 ;;
      sleep_ms 100 ;;
      blinks n'
  end.

(** Lines 153-158. *)
Definition system_check : Run Bouncer.globals unit :=
  d <- sense distance ;;
  match d with
  | Some _ => blinks 5
  | None => done tt
  end.

(** Lines 165-184 (Move 1) and 214-228 (Move 3), the same loop; [sb] is
    the pair [speed, force_blue]. *)
Fixpoint forward_leg (fuel : nat) : Run Bouncer.globals unit :=
  match fuel with
  | O => stall
  | S fuel' =>
      sb <- check_status fuel ;;
      (if snd sb then leds 0 0 1 else leds 0 65535 0) ;;
      act (Forward LeftMotor (Scaled (fst sb) 0.9)) ;;
      act (Forward RightMotor (Speed (fst sb))) ;;
      d <- sense distance ;;
      if match d with
         | Some r => within 0.15 0.35 r
         | None => false
         end
      then done tt
      else
        sleep_ms 50 ;;
        forward_leg fuel'
  end.

(** Lines 193-206 (Move 2). *)
Fixpoint backward_leg (fuel : nat) : Run Bouncer.globals unit :=
  match fuel with
  | O => stall
  | S fuel' =>
      sb <- check_status fuel ;;
      leds 0 0 1 ;;
      act (Backward LeftMotor (Scaled (fst sb) 0.9)) ;;
      act (Backward RightMotor (Speed (fst sb))) ;;
      d <- sense distance ;;
      if match d with
         | Some r => within 0.9 1.1 r
         | None => false
         end
      then done tt
      else
        sleep_ms 50 ;;
        backward_leg fuel'
  end.

(** Lines 187-189, 208-210 and 230-232. *)
Definition stop_and_wait : Run Bouncer.globals unit :=
  Dmd.stop ;;
  leds 1 0 0 ;;
  sleep_ms 1000.

(** Lines 161-232: [while True:] over the three moves. *)
Fixpoint movement_loop (fuel : nat) : Run Bouncer.globals unit :=
  match fuel with
  | O => stall
  | S fuel' =>
      say "Forward until 0.25m" ;;
      forward_leg fuel ;;
      stop_and_wait ;;
      say "Backward until 1.0m" ;;
      backward_leg fuel ;;
      stop_and_wait ;;
      say "Forward until 0.25m" ;;
      forward_leg fuel ;;
      stop_and_wait ;;
      movement_loop fuel'
  end.

(** Lines 147-232: the body of the [try] statement. *)
Definition main_try (fuel : nat) : Run Bouncer.globals unit :=
  say "Wall Sensing Started" ;;
  core (t <- ticks_ms ;; modify (set_session_start_time t))%machine ;;
  system_check ;;
  movement_loop fuel.

(** Lines 234-238: the [except KeyboardInterrupt] clause. *)
Definition keyboard_interrupt : Run unit unit :=
  Dmd.stop ;;
  Dmd.disable ;;
  core (set_leds 0 0 0) ;;
  core (print "Stopped by user").

(** Lines 146-238. *)
Definition main_block (ctrl_c : option Z) (fuel : nat)
  : rig Bouncer.globals -> outcome :=
  try_except_KeyboardInterrupt ctrl_c (main_try fuel) keyboard_interrupt.

(** Lines 18-19, then the main block. *)
Definition program (ctrl_c : option Z) (fuel : nat)
  : rig Bouncer.globals -> outcome :=
  fun s =>
    match (Dmd.init ;; Dmd.enable) s with
    | (Val _, s1) => main_block ctrl_c fuel s1
    | (Exited, s1) => (Exited, log s1)
    | (Starved, s1) => (Starved, log s1)
    end.

End Block.

End BouncerBlock.

(* ===================================================================== *)
(** ** The main block of main.py *)
(* ===================================================================== *)

(** Lines 137-269.  [fixed2 d] is the text of [f"{d:.2f}"]. *)
Module MainBlock.

Section Block.

Variable reading : Type.
Variable distance : Z -> option reading.
Variable within : Q -> Q -> reading -> bool.
Variable fixed2 : reading -> string.
Variable button : Z -> bool.

Local Open Scope run_scope.

Definition check_battery_and_get_speed (fuel : nat) : Run Main.globals (Q * bool) :=
  core (Main.check_battery_and_get_speed button fuel).

Definition sleep_ms (ms : nat) : Run Main.globals unit :=
  core (sleep button Main.toggle_pause ms).

Definition leds (r g_pwm b : Z) : Run Main.globals unit :=
  core (set_leds r g_pwm b).

Definition say (s : string) : Run Main.globals unit := core (print s).

(** Lines 143-147: [for _ in range(5)]. *)
Fixpoint blinks (n : nat) : Run Main.globals unit :=
  match n with
  | O => done tt
  | S n' =>
      leds 1 65535 1 ;;
      sleep_ms 100 ;;
      leds 0 0 0 ;;
      sleep_ms 100 ;;
      blinks n'
  end.

(** Lines 142-147. *)
Definition system_check : Run Main.globals unit :=
  d <- sense distance ;;
  match d with
  | Some _ => blinks 5
  | None => done tt
  end.

(** The four movement loops (lines 153-171, 180-192, 222-238 and 246-258)
    are one loop up to the direction, the LEDs and the window; [sb] is the
    pair [speed, force_blue]. *)
Fixpoint leg (reverse : bool) (show : bool -> Run Main.globals unit)
    (lo hi : Q) (fuel : nat) : Run Main.globals unit :=
  match fuel with
  | O => stall
  | S fuel' =>
      sb <- check_battery_and_get_speed fuel ;;
      show (snd sb) ;;
      (if reverse then
         act (Backward LeftMotor (Scaled (fst sb) 0.9)) ;;
         act (Backward RightMotor (Scaled (fst sb) 0.95))
       else
         act (Forward LeftMotor (Scaled (fst sb) 0.9)) ;;
         act (Forward RightMotor (Scaled (fst sb) 0.95))) ;;
      d <- sense distance ;;
      match d with
      | Some r =>
          say (String.append "Distance: " (String.append (fixed2 r) " m")) ;;
          if within lo hi r then done tt
          else
            sleep_ms 50 ;;
            leg reverse show lo hi fuel'
      | None =>
          sleep_ms 50 ;;
          leg reverse show lo hi fuel'
      end
  end.

(** Lines 153-171: with [force_blue] the call is [set_leds(1, 0, 0)]. *)
Definition move_1 : nat -> Run Main.globals unit :=
  leg false (fun force_blue => if force_blue then leds 1 0 0 else leds 0 65535 0)
      0.15 0.4.

(** Lines 180-192. *)
Definition move_2 : nat -> Run Main.globals unit :=
  leg true (fun _ => leds 0 65535 0) 0.9 1.1.

(** Lines 222-238. *)
Definition move_3 : nat -> Run Main.globals unit :=
  leg false (fun force_blue => if force_blue then leds 0 0 1 else leds 0 65535 0)
      0.15 0.35.

(** Lines 246-258. *)
Definition move_4 : nat -> Run Main.globals unit :=
  leg true (fun _ => leds 0 0 1) 0.3 0.5.

(** Lines 203-212: [while ticks_diff(ticks_ms(), turn_start) < 500:]. *)
Fixpoint turn (turn_start : Z) (fuel : nat) : Run Main.globals unit :=
  match fuel with
  | O => stall
  | S fuel' =>
      t <- core ticks_ms ;;
      if ticks_diff t turn_start <? 500 then
        sb <- check_battery_and_get_speed fuel ;;
        act (Backward LeftMotor (Speed (fst sb))) ;;
        act (Forward RightMotor (Speed (fst sb))) ;;
        leds 0 65535 0 ;;
        sleep_ms 50 ;;
        turn turn_start fuel'
      else done tt
  end.

(** Lines 200-212. *)
Definition turning (fuel : nat) : Run Main.globals unit :=
  turn_start <- core ticks_ms ;;
  turn turn_start fuel.

(** Lines 149-263: [while True:] over the moves and the turn. *)
Fixpoint movement_loop (fuel : nat) : Run Main.globals unit :=
  match fuel with
  | O => stall
  | S fuel' =>
      say "--- Moving Forward ---" ;;
      move_1 fuel ;;
      Dmd.stop ;;
      leds 0 65535 0 ;;
      sleep_ms 500 ;;
      say "--- Moving Backward ---" ;;
      move_2 fuel ;;
      Dmd.stop ;;
      leds 0 65535 0 ;;
      sleep_ms 1000 ;;
      turning fuel ;;
      Dmd.stop ;;
      leds 0 65535 0 ;;
      sleep_ms 500 ;;
      say "--- Moving Forward ---" ;;
      move_3 fuel ;;
      Dmd.stop ;;
      leds 0 65535 0 ;;
      sleep_ms 1000 ;;
      say "--- Moving Backward ---" ;;
      move_4 fuel ;;
      Dmd.stop ;;
      leds 0 0 1 ;;
      say "Finished sequence." ;;
      sleep_ms 1000 ;;
      movement_loop fuel'
  end.

(** Lines 139-263: the body of the [try] statement. *)
Definition main_try (fuel : nat) : Run Main.globals unit :=
  say "Wall Sensing Started" ;;
  system_check ;;
  movement_loop fuel.

(** Lines 265-269: the [except KeyboardInterrupt] clause. *)
Definition keyboard_interrupt : Run unit unit :=
  Dmd.stop ;;
  Dmd.disable ;;
  core (set_leds 0 0 0) ;;
  core (print "Stopped by user").

(** Lines 138-269. *)
Definition main_block (ctrl_c : option Z) (fuel : nat)
  : rig Main.globals -> outcome :=
  try_except_KeyboardInterrupt ctrl_c (main_try fuel) keyboard_interrupt.

(** Lines 18-19, then the main block. *)
Definition program (ctrl_c : option Z) (fuel : nat)
  : rig Main.globals -> outcome :=
  fun s =>
    match (Dmd.init ;; Dmd.enable) s with
    | (Val _, s1) => main_block ctrl_c fuel s1
    | (Exited, s1) => (Exited, log s1)
    | (Starved, s1) => (Starved, log s1)
    end.

End Block.

End MainBlock.

(** A run only ever appends to the log; what it appends satisfies [P], and
    a value it returns satisfies [R]. *)
Definition runs {G A} (P : action -> Prop) (R : A -> Prop) (m : Run G A) : Prop :=
  forall s, exists tr,
    log (snd (m s)) = log s ++ tr /\ Forall P tr /\
    forall a, fst (m s) = Val a -> R a.

(** The speed a motor call is made with. *)
Definition speed_of (d : throttle) : Q :=
  match d with
  | Speed speed => speed
  | Scaled speed _ => speed
  end.

(** A motor call made with one of the two speeds of the battery logic. *)
Definition battery_speed (a : action) : Prop :=
  match a with
  | Core _ => True
  | Forward _ d | Backward _ d => speed_of d = 0.5%Q \/ speed_of d = 0.25%Q
  end.

(** An entry of the log other than a sleep. *)
Definition no_sleep (a : action) : bool :=
  match a with
  | Core (Sleep _) => false
  | _ => true
  end.

(** What the [except KeyboardInterrupt] clause of either program logs. *)
Definition keyboard_interrupt_log : list action :=
  map Core [LeftStop; RightStop; Standby false; Red 0; Blue 0; Green 0;
            Console "Stopped by user"].

(** The first thing the battery shutdown does is to print its message. *)
Definition shutdown_message (e : event) : bool :=
  match e with
  | Console s => String.eqb s "CRITICAL BATTERY: Shutdown"
  | _ => false
  end.

Definition unmarked (e : event) : bool := negb (shutdown_message e).

Definition shutdown_begins (a : action) : bool :=
  match a with
  | Core e => shutdown_message e
  | _ => false
  end.

Definition is_core (a : action) : bool :=
  match a with
  | Core _ => true
  | _ => false
  end.

(** No motor is driven once the battery shutdown has begun: whatever
    follows its message in the log is no [forward] or [backward] call. *)
Definition no_drive_after_critical (tr : list action) : Prop :=
  forall pre post,
    tr = pre ++ Core (Console "CRITICAL BATTERY: Shutdown") :: post ->
    forallb is_core post = true.

(** The same, by recursion on the log. *)
Fixpoint calm (tr : list action) : Prop :=
  match tr with
  | [] => True
  | a :: rest => (shutdown_begins a = true -> forallb is_core rest = true) /\ calm rest
  end.

(** A run whose log is calm, and which does not return once the shutdown
    has begun. *)
Definition settles {G A} (m : Run G A) : Prop :=
  forall s, exists tr,
    log (snd (m s)) = log s ++ tr /\ calm tr /\
    forall a, fst (m s) = Val a ->
              forallb (fun x => negb (shutdown_begins x)) tr = true.

(** The test [d is not None and lo <= d <= hi] on what the sensor gave. *)
Definition in_window {reading : Type} (within : Q -> Q -> reading -> bool)
    (lo hi : Q) (d : option reading) : bool :=
  match d with
  | Some r => within lo hi r
  | None => false
  end.

(** What [set_leds(r, g_pwm, b)] logs. *)
Definition leds_log (r g_pwm b : Z) : list action :=
  [Core (Red r); Core (Blue b); Core (Green g_pwm)].

(** What one pass of a forward leg of [real_wall_bouncer.py] logs before
    it reads the sensor, given the pair the status function returned. *)
Definition Bouncer_forward_pass (sb : Q * bool) : list action :=
  (if snd sb then leds_log 0 0 1 else leds_log 0 65535 0)
  ++ [Forward LeftMotor (Scaled (fst sb) 0.9);
      Forward RightMotor (Speed (fst sb))].

(** The log of a forward leg that starts RUNNING at instant [c] with the
    variables [g] and reads the sensor [n + 1] times, 50 ms apart. *)
Fixpoint Bouncer_forward_passes (g : Bouncer.globals) (c : Z) (n : nat)
  : list action :=
  Bouncer_forward_pass
    (decision_of (band_of (Bouncer.total_work_ms (ticks_of c) g)))
  ++ match n with
     | O => []
     | S n' => Core (Sleep 50) :: Bouncer_forward_passes g (c + 50) n'
     end.

(** The same for a movement loop of [main.py]: [shown] is what its LED
    call logs, and a reading is printed when there is one. *)
Definition Main_pass {reading : Type} (fixed2 : reading -> string)
    (reverse : bool) (shown : bool -> list action) (sb : Q * bool)
    (d : option reading) : list action :=
  shown (snd sb)
  ++ (if reverse then
        [Backward LeftMotor (Scaled (fst sb) 0.9);
         Backward RightMotor (Scaled (fst sb) 0.95)]
      else
        [Forward LeftMotor (Scaled (fst sb) 0.9);
         Forward RightMotor (Scaled (fst sb) 0.95)])
  ++ match d with
     | Some r =>
         [Core (Console (String.append "Distance: "
                           (String.append (fixed2 r) " m")))]
     | None => []
     end.

Fixpoint Main_passes {reading : Type} (distance : Z -> option reading)
    (fixed2 : reading -> string) (reverse : bool) (shown : bool -> list action)
    (g : Main.globals) (c : Z) (n : nat) : list action :=
  Main_pass fixed2 reverse shown
    (decision_of (band_of (Main.elapsed (ticks_of c) g))) (distance c)
  ++ match n with
     | O => []
     | S n' =>
         Core (Sleep 50)
         :: Main_passes distance fixed2 reverse shown g (c + 50) n'
     end.

(** The log of [n] passes of the turn of [main.py] from instant [c]. *)
Fixpoint Main_turn_passes (g : Main.globals) (c : Z) (n : nat) : list action :=
  match n with
  | O => []
  | S n' =>
      let speed := fst (decision_of (band_of (Main.elapsed (ticks_of c) g))) in
      [Backward LeftMotor (Speed speed); Forward RightMotor (Speed speed)]
      ++ leds_log 0 65535 0
      ++ [Core (Sleep 50)]
      ++ Main_turn_passes g (c + 50) n'
  end.

(** A sensor with readings in metres: none at first, 0.5 m from 50 ms on
    and 0.3 m from 100 ms on; and [lo <= d <= hi] on such readings. *)
Definition approach (t : Z) : option Q :=
  if t <? 50 then None else if t <? 100 then Some 0.5%Q else Some 0.3%Q.

Definition between (lo hi d : Q) : bool := Qle_bool lo d && Qle_bool d hi.

(** An event other than a write to the standby pin of the motor driver. *)
Definition leaves_standby (e : event) : bool :=
  match e with
  | Standby _ => false
  | _ => true
  end.

Definition keeps_standby (a : action) : Prop :=
  match a with
  | Core e => leaves_standby e = true
  | _ => True
  end.

(** A computation that writes the standby pin only in the hold
    termination, which is then the last thing it does. *)
Definition disables_on_hold_only {G A} (m : M G A) : Prop :=
  forall w, exists pre post,
    out (snd (m w)) = out w ++ pre ++ post /\
    forallb leaves_standby pre = true /\
    (post = [] \/ (post = termination_trace /\ fst (m w) = Exited)).

(** The same for a run of a main block. *)
Definition run_disables_on_hold_only {G A} (m : Run G A) : Prop :=
  forall s, exists pre post,
    log (snd (m s)) = log s ++ pre ++ post /\
    Forall keeps_standby pre /\
    (post = [] \/ (post = map Core termination_trace /\ fst (m s) = Exited)).

(* ===================================================================== *)
(** ** The clock *)
(* ===================================================================== *)


Lemma ticks_diff_range (a b : Z) :
  - TICKS_HALF <= ticks_diff a b < TICKS_HALF.
Proof.
  unfold ticks_diff, TICKS_PERIOD, TICKS_HALF.
  pose proof (Z.mod_pos_bound (a - b + 536870912) 1073741824 ltac:(lia)).
  lia.
Qed.


Lemma ticks_of_range (t : Z) : 0 <= ticks_of t < TICKS_PERIOD.
Proof. unfold ticks_of, TICKS_PERIOD. apply Z.mod_pos_bound. lia. Qed.

(** Two readings of a clock that moved by less than half a period differ
    by the time that passed. *)
Lemma ticks_diff_of (a b : Z) :
  - TICKS_HALF <= a - b < TICKS_HALF ->
  ticks_diff (ticks_of a) (ticks_of b) = a - b.
Proof.
  intros H. unfold ticks_diff, ticks_of, TICKS_PERIOD, TICKS_HALF in *.
  rewrite <- Zplus_mod_idemp_l, <- Zminus_mod, Zplus_mod_idemp_l.
  rewrite Z.mod_small by lia. lia.
Qed.

Lemma ticks_of_add (c d : Z) :
  0 <= d -> ticks_of c + d < TICKS_PERIOD -> ticks_of (c + d) = ticks_of c + d.
Proof.
  intros Hd H. pose proof (ticks_of_range c) as R.
  unfold ticks_of, TICKS_PERIOD in *.
  rewrite <- Zplus_mod_idemp_l. apply Z.mod_small. lia.
Qed.

(* ===================================================================== *)
(** ** The battery bands (C1) *)
(* ===================================================================== *)

Lemma band_of_cases (t : Z) :
  (t <= 45000 /\ band_of t = NORMAL) \/
  (45000 < t <= 55000 /\ band_of t = DEGRADED) \/
  (55000 < t /\ band_of t = CRITICAL).
Proof.
  unfold band_of.
  destruct (Z.gtb_spec t 55000); [right; right; split; [lia | reflexivity] |].
  destruct (Z.gtb_spec t 45000); [right; left | left]; split; lia || reflexivity.
Qed.

(** C1 (amended): the band is NORMAL exactly when t <= 45000 ms, DEGRADED
    exactly when 45000 < t <= 55000 ms and CRITICAL exactly when
    t > 55000 ms: both programs compare with [>]. *)
Theorem band_thresholds (t : Z) :
  (band_of t = NORMAL <-> t <= 45000) /\
  (band_of t = DEGRADED <-> 45000 < t <= 55000) /\
  (band_of t = CRITICAL <-> 55000 < t).
Proof.
  destruct (band_of_cases t) as [[H E] | [[H E] | [H E]]]; rewrite E;
    repeat split; intros; try discriminate; try lia; try reflexivity.
Qed.

(** C1 as stated fails at both boundaries: at exactly 45000 ms the programs
    are still in the NORMAL band and at exactly 55000 ms still in the
    DEGRADED one. *)
Lemma band_boundaries_counterexample :
  band_of 45000 = NORMAL /\ band_of 55000 = DEGRADED /\
  ~ band_as_specified 45000 /\ ~ band_as_specified 55000.
Proof.
  split; [reflexivity | split; [reflexivity | split]].
  - intros (_ & H & _). destruct H as [_ H].
    assert (E : band_of 45000 = DEGRADED) by (apply H; lia). discriminate E.
  - intros (_ & _ & H). destruct H as [_ H].
    assert (E : band_of 55000 = CRITICAL) by (apply H; lia). discriminate E.
Qed.

(* ===================================================================== *)
(** ** The machine: running a program *)
(* ===================================================================== *)

Section MachineFacts.

Context {G : Type}.
Variable button : Z -> bool.
Variable irq : Z -> G -> G.

Lemma bind_val {A B} (m : M G A) (f : A -> M G B) w a w1 :
  m w = (Val a, w1) -> bind m f w = f a w1.
Proof. intros E. unfold bind. rewrite E. reflexivity. Qed.

Lemma bind_exited {A B} (m : M G A) (f : A -> M G B) w w1 :
  m w = (Exited, w1) -> bind m f w = (Exited, w1).
Proof. intros E. unfold bind. rewrite E. reflexivity. Qed.

Lemma bind_starved {A B} (m : M G A) (f : A -> M G B) w w1 :
  m w = (Starved, w1) -> bind m f w = (Starved, w1).
Proof. intros E. unfold bind. rewrite E. reflexivity. Qed.

(** A sequence returns only if both of its parts do. *)
Lemma bind_inv {A B} (m : M G A) (f : A -> M G B) w b w2 :
  bind m f w = (Val b, w2) ->
  exists a w1, m w = (Val a, w1) /\ f a w1 = (Val b, w2).
Proof.
  unfold bind. destruct (m w) as [[a | | ] w1]; intros E; try discriminate E.
  exists a, w1. split; [reflexivity | exact E].
Qed.

(** Nothing returns past [sys.exit()]. *)
Lemma exit_never_returns {A B} (m : M G A) w (b : B) w2 :
  bind m (fun _ => sys_exit) w <> (Val b, w2).
Proof.
  unfold bind, sys_exit. destruct (m w) as [[a | | ] w1]; discriminate.
Qed.

Lemma iter_tick_clock (n : nat) (w : world G) :
  clock (Nat.iter n (tick button irq) w) = clock w + Z.of_nat n.
Proof.
  induction n as [| n IH].
  - simpl. lia.
  - rewrite Nat.iter_succ. unfold tick at 1. cbn [clock]. rewrite IH. lia.
Qed.

Lemma iter_tick_out (n : nat) (w : world G) :
  out (Nat.iter n (tick button irq) w) = out w.
Proof.
  induction n as [| n IH]; [reflexivity |].
  rewrite Nat.iter_succ. unfold tick at 1. cbn [out]. exact IH.
Qed.

(** While the pin shows no rising edge the variables are left alone. *)
Lemma iter_tick_quiet (n : nat) (w : world G) :
  (forall t, clock w < t <= clock w + Z.of_nat n -> rising button t = false) ->
  vars (Nat.iter n (tick button irq) w) = vars w.
Proof.
  induction n as [| n IH]; intros Q; [reflexivity |].
  rewrite Nat.iter_succ. unfold tick at 1. cbn [vars].
  rewrite iter_tick_clock, Q by lia.
  apply IH. intros t Ht. apply Q. lia.
Qed.

(** [sleep] lets exactly its duration pass and logs itself; what the
    interrupt did meanwhile shows in the variables only. *)
Lemma sleep_spec (ms : nat) (w : world G) :
  exists g',
    sleep button irq ms w
    = (Val tt, World (clock w + Z.of_nat ms) g' (out w ++ [Sleep ms])).
Proof.
  unfold sleep.
  set (w1 := Nat.iter ms (tick button irq) _).
  exists (vars w1). f_equal.
  pose proof (iter_tick_clock ms (World (clock w) (vars w) (out w ++ [Sleep ms]))) as C.
  pose proof (iter_tick_out ms (World (clock w) (vars w) (out w ++ [Sleep ms]))) as O.
  fold w1 in C, O. cbn [clock out] in C, O.
  destruct w1 as [c g o]. cbn [clock out vars] in *. subst. reflexivity.
Qed.

Lemma sleep_quiet (ms : nat) (w : world G) :
  (forall t, rising button t = false) ->
  sleep button irq ms w
  = (Val tt, World (clock w + Z.of_nat ms) (vars w) (out w ++ [Sleep ms])).
Proof.
  intros Q. unfold sleep.
  set (w0 := World (clock w) (vars w) (out w ++ [Sleep ms])).
  pose proof (iter_tick_clock ms w0) as C.
  pose proof (iter_tick_out ms w0) as O.
  pose proof (iter_tick_quiet ms w0 (fun t _ => Q t)) as V.
  destruct (Nat.iter ms (tick button irq) w0) as [c g o].
  cbn [clock out vars] in *. subst. reflexivity.
Qed.

(** *** The trace only grows *)

Lemma grows_ret {A} (a : A) : @grows G _ (@ret G A a).
Proof. intros w. exists []. cbn. now rewrite app_nil_r. Qed.

Lemma grows_exit {A} : @grows G _ (@sys_exit G A).
Proof. intros w. exists []. cbn. now rewrite app_nil_r. Qed.

Lemma grows_starve {A} : @grows G _ (@starve G A).
Proof. intros w. exists []. cbn. now rewrite app_nil_r. Qed.

Lemma grows_gets {A} (f : G -> A) : @grows G _ (gets f).
Proof. intros w. exists []. cbn. now rewrite app_nil_r. Qed.

Lemma grows_modify (f : G -> G) : @grows G _ (modify f).
Proof. intros w. exists []. cbn. now rewrite app_nil_r. Qed.

Lemma grows_ticks_ms : @grows G _ (@ticks_ms G).
Proof. intros w. exists []. cbn. now rewrite app_nil_r. Qed.

Lemma grows_button_value : @grows G _ (button_value button).
Proof. intros w. exists []. cbn. now rewrite app_nil_r. Qed.

Lemma grows_emit (e : event) : @grows G _ (@emit G e).
Proof. intros w. exists [e]. reflexivity. Qed.

Lemma grows_sleep (ms : nat) : @grows G _ (sleep button irq ms).
Proof.
  intros w. destruct (sleep_spec ms w) as [g' E]. rewrite E.
  exists [Sleep ms]. reflexivity.
Qed.

Lemma grows_bind {A B} (m : M G A) (f : A -> M G B) :
  @grows G _ m -> (forall a, @grows G _ (f a)) -> @grows G _ (bind m f).
Proof.
  intros Hm Hf w. unfold bind.
  destruct (Hm w) as [tr1 E1].
  destruct (m w) as [[a | | ] w1]; cbn [snd] in *.
  - destruct (Hf a w1) as [tr2 E2]. exists (tr1 ++ tr2).
    rewrite E2, E1. now rewrite app_assoc.
  - exists tr1. exact E1.
  - exists tr1. exact E1.
Qed.

(** *** Computations that end in [sys.exit()] *)

Lemma never_returns_exit {A} : @never_returns G A sys_exit.
Proof. intros w a w'. discriminate. Qed.

Lemma never_returns_bind {A B} (m : M G A) (f : A -> M G B) :
  (forall a, never_returns (f a)) -> never_returns (bind m f).
Proof.
  intros Hf w b w' E. apply bind_inv in E. destruct E as (a & w1 & _ & E).
  exact (Hf a w1 b w' E).
Qed.

End MachineFacts.

Create HintDb grows.
#[local] Hint Resolve grows_ret grows_exit grows_starve grows_gets
  grows_modify grows_ticks_ms grows_button_value grows_emit grows_sleep
  : grows.

(** Walks a straight-line program, one [bind] at a time. *)
Ltac grow :=
  repeat first
    [ solve [auto with grows]
    | apply grows_bind; [| intros ? ]
    | match goal with
      | |- grows (if ?c then _ else _) => destruct c
      | |- grows (match ?b with NORMAL => _ | DEGRADED => _ | CRITICAL => _ end) =>
          destruct b
      end
    | unfold print, dmd_stop, dmd_disable, set_leds ].

(* ===================================================================== *)
(** ** The decision of a cycle that returns (C7, C9) *)
(* ===================================================================== *)

Section Decisions.

Variable button : Z -> bool.

Lemma Bouncer_shutdown_never_returns (fuel : nat) :
  never_returns (Bouncer.shutdown button fuel).
Proof.
  unfold Bouncer.shutdown.
  repeat (apply never_returns_bind; intros ?). apply never_returns_exit.
Qed.

Lemma Main_shutdown_never_returns (fuel : nat) :
  never_returns (Main.shutdown button fuel).
Proof.
  unfold Main.shutdown.
  repeat (apply never_returns_bind; intros ?). apply never_returns_exit.
Qed.

(** The battery step dispatches on the band of the work time it reads. *)
Lemma Bouncer_battery_logic_eq (fuel : nat) (w : world Bouncer.globals) :
  Bouncer.battery_logic button fuel w =
  match band_of (Bouncer.total_work_ms (ticks_of (clock w)) (vars w)) with
  | CRITICAL => Bouncer.shutdown button fuel w
  | b => (Val (decision_of b), w)
  end.
Proof.
  unfold Bouncer.battery_logic, bind, ticks_ms, gets.
  destruct (band_of _); reflexivity.
Qed.

Lemma Main_battery_logic_eq (fuel : nat) (w : world Main.globals) :
  Main.battery_logic button fuel w =
  match band_of (Main.elapsed (ticks_of (clock w)) (vars w)) with
  | CRITICAL => Main.shutdown button fuel w
  | b => (Val (decision_of b), w)
  end.
Proof.
  unfold Main.battery_logic, bind, ticks_ms, gets.
  destruct (band_of _); reflexivity.
Qed.

(** A cycle that returns went through the battery step in its final
    world, outside the CRITICAL band. *)
Lemma Bouncer_returns (fuel : nat) (w w' : world Bouncer.globals) (d : Q * bool) :
  Bouncer.check_status button fuel w = (Val d, w') ->
  let b := band_of (Bouncer.total_work_ms (ticks_of (clock w')) (vars w')) in
  b <> CRITICAL /\ d = decision_of b.
Proof.
  unfold Bouncer.check_status. intros E.
  apply bind_inv in E. destruct E as (_ & w1 & _ & E).
  apply bind_inv in E. destruct E as (_ & w2 & _ & E).
  rewrite Bouncer_battery_logic_eq in E. cbv zeta.
  destruct (band_of (Bouncer.total_work_ms (ticks_of (clock w2)) (vars w2))) eqn:B.
  - injection E as <- <-. rewrite B. split; [discriminate | reflexivity].
  - injection E as <- <-. rewrite B. split; [discriminate | reflexivity].
  - exfalso. exact (Bouncer_shutdown_never_returns fuel w2 d w' E).
Qed.

Lemma Main_returns (fuel : nat) (w w' : world Main.globals) (d : Q * bool) :
  Main.check_battery_and_get_speed button fuel w = (Val d, w') ->
  let b := band_of (Main.elapsed (ticks_of (clock w')) (vars w')) in
  b <> CRITICAL /\ d = decision_of b.
Proof.
  unfold Main.check_battery_and_get_speed. intros E.
  apply bind_inv in E. destruct E as (_ & w1 & _ & E).
  apply bind_inv in E. destruct E as (_ & w2 & _ & E).
  rewrite Main_battery_logic_eq in E. cbv zeta.
  destruct (band_of (Main.elapsed (ticks_of (clock w2)) (vars w2))) eqn:B.
  - injection E as <- <-. rewrite B. split; [discriminate | reflexivity].
  - injection E as <- <-. rewrite B. split; [discriminate | reflexivity].
  - exfalso. exact (Main_shutdown_never_returns fuel w2 d w' E).
Qed.

(** The battery step outside the CRITICAL band returns the decision of the
    band it read and leaves the world as it found it. *)
Lemma Bouncer_battery_logic_decides (fuel : nat) (w : world Bouncer.globals) :
  let t := Bouncer.total_work_ms (ticks_of (clock w)) (vars w) in
  (band_of t = DEGRADED ->
   Bouncer.battery_logic button fuel w = (Val (0.25%Q, true), w)) /\
  (band_of t = NORMAL ->
   Bouncer.battery_logic button fuel w = (Val (0.5%Q, false), w)).
Proof.
  cbv zeta. rewrite Bouncer_battery_logic_eq.
  split; intros B; rewrite B; reflexivity.
Qed.

Lemma Main_battery_logic_decides (fuel : nat) (w : world Main.globals) :
  let t := Main.elapsed (ticks_of (clock w)) (vars w) in
  (band_of t = DEGRADED ->
   Main.battery_logic button fuel w = (Val (0.25%Q, true), w)) /\
  (band_of t = NORMAL ->
   Main.battery_logic button fuel w = (Val (0.5%Q, false), w)).
Proof.
  cbv zeta. rewrite Main_battery_logic_eq.
  split; intros B; rewrite B; reflexivity.
Qed.

(** A cycle that returns: the hold check and the pause handling returned,
    and the battery step, run in the world they left, returned the
    decision without changing that world. *)
Lemma Bouncer_returns_through (fuel : nat) (w w' : world Bouncer.globals)
    (d : Q * bool) :
  Bouncer.check_status button fuel w = (Val d, w') ->
  (exists w1, Bouncer.termination_check button w = (Val tt, w1) /\
              Bouncer.pause_handling button fuel w1 = (Val tt, w')) /\
  Bouncer.battery_logic button fuel w' = (Val d, w').
Proof.
  unfold Bouncer.check_status. intros E.
  apply bind_inv in E. destruct E as ([] & w1 & E1 & E).
  apply bind_inv in E. destruct E as ([] & w2 & E2 & E).
  assert (W : w2 = w').
  { rewrite Bouncer_battery_logic_eq in E.
    destruct (band_of (Bouncer.total_work_ms (ticks_of (clock w2)) (vars w2))).
    - now injection E.
    - now injection E.
    - exfalso. exact (Bouncer_shutdown_never_returns fuel w2 d w' E). }
  subst w2. split; [exists w1; now split | exact E].
Qed.

Lemma Main_returns_through (fuel : nat) (w w' : world Main.globals)
    (d : Q * bool) :
  Main.check_battery_and_get_speed button fuel w = (Val d, w') ->
  (exists w1, Main.pause_handling button fuel w = (Val tt, w1) /\
              Main.termination_check button w1 = (Val tt, w')) /\
  Main.battery_logic button fuel w' = (Val d, w').
Proof.
  unfold Main.check_battery_and_get_speed. intros E.
  apply bind_inv in E. destruct E as ([] & w1 & E1 & E).
  apply bind_inv in E. destruct E as ([] & w2 & E2 & E).
  assert (W : w2 = w').
  { rewrite Main_battery_logic_eq in E.
    destruct (band_of (Main.elapsed (ticks_of (clock w2)) (vars w2))).
    - now injection E.
    - now injection E.
    - exfalso. exact (Main_shutdown_never_returns fuel w2 d w' E). }
  subst w2. split; [exists w1; now split | exact E].
Qed.

End Decisions.

(** C9: whatever either program returns is the pair (0.5, False) or the
    pair (0.25, True); the speed lies in [0, 1] and the flag is set exactly
    when the speed is 0.25. *)
Theorem returned_pairs :
  (forall button fuel w d w',
      Bouncer.check_status button fuel w = (Val d, w') ->
      (d = (0.5%Q, false) \/ d = (0.25%Q, true)) /\
      (0 <= fst d)%Q /\ (fst d <= 1)%Q /\
      (snd d = true <-> fst d = 0.25%Q)) /\
  (forall button fuel w d w',
      Main.check_battery_and_get_speed button fuel w = (Val d, w') ->
      (d = (0.5%Q, false) \/ d = (0.25%Q, true)) /\
      (0 <= fst d)%Q /\ (fst d <= 1)%Q /\
      (snd d = true <-> fst d = 0.25%Q)).
Proof.
  assert (K : forall b, b <> CRITICAL ->
            (decision_of b = (0.5%Q, false) \/ decision_of b = (0.25%Q, true)) /\
            (0 <= fst (decision_of b))%Q /\ (fst (decision_of b) <= 1)%Q /\
            (snd (decision_of b) = true <-> fst (decision_of b) = 0.25%Q)).
  { intros [| |] Hb; [| | now destruct Hb]; cbn [decision_of fst snd].
    - split; [now left |]. repeat split; try discriminate; intros H; discriminate H.
    - split; [now right |]. repeat split; try discriminate; reflexivity. }
  split; intros button fuel w d w' E.
  - destruct (Bouncer_returns button fuel w w' d E) as [Hb ->]. now apply K.
  - destruct (Main_returns button fuel w w' d E) as [Hb ->]. now apply K.
Qed.

(** C9 on two runs, one of each program. *)
Lemma returned_pairs_witness :
  (exists d w',
      Bouncer.check_status (fun _ => false) 1 (World 50000 (Bouncer.boot 0) [])
      = (Val d, w') /\ (snd d = true <-> fst d = 0.25%Q)) /\
  (exists d w',
      Main.check_battery_and_get_speed (fun _ => false) 1
        (World 10000 (Main.boot 0) [])
      = (Val d, w') /\ (d = (0.5%Q, false) \/ d = (0.25%Q, true))).
Proof.
  split.
  - eexists. eexists. split; [reflexivity |].
    apply (proj1 returned_pairs (fun _ => false) 1%nat
             (World 50000 (Bouncer.boot 0) []) _ _ eq_refl).
  - eexists. eexists. split; [reflexivity |].
    apply (proj2 returned_pairs (fun _ => false) 1%nat
             (World 10000 (Main.boot 0) []) _ _ eq_refl).
Defined.

(* ===================================================================== *)
(** ** The debounced toggle (C5) *)
(* ===================================================================== *)

Lemma Bouncer_toggle_rejected (e : Z) (g : Bouncer.globals) :
  ticks_diff e (Bouncer.last_button_time g) <= 300 ->
  Bouncer.toggle_pause_irq e g = g.
Proof.
  intros H. unfold Bouncer.toggle_pause_irq.
  destruct (Z.gtb_spec (ticks_diff e (Bouncer.last_button_time g)) 300);
    [lia | reflexivity].
Qed.

Lemma Bouncer_toggle_accepted (e : Z) (g : Bouncer.globals) :
  300 < ticks_diff e (Bouncer.last_button_time g) ->
  Bouncer.paused (Bouncer.toggle_pause_irq e g) = negb (Bouncer.paused g) /\
  Bouncer.last_button_time (Bouncer.toggle_pause_irq e g) = e.
Proof.
  intros H. unfold Bouncer.toggle_pause_irq.
  destruct (Z.gtb_spec (ticks_diff e (Bouncer.last_button_time g)) 300);
    [| lia].
  destruct (Bouncer.paused g); split; reflexivity.
Qed.

Lemma Main_toggle_rejected (e : Z) (g : Main.globals) :
  ticks_diff e (Main.last_button_time g) <= 300 ->
  Main.toggle_pause e g = g.
Proof.
  intros H. unfold Main.toggle_pause.
  destruct (Z.gtb_spec (ticks_diff e (Main.last_button_time g)) 300);
    [lia | reflexivity].
Qed.

Lemma Main_toggle_accepted (e : Z) (g : Main.globals) :
  300 < ticks_diff e (Main.last_button_time g) ->
  Main.paused (Main.toggle_pause e g) = negb (Main.paused g) /\
  Main.last_button_time (Main.toggle_pause e g) = e.
Proof.
  intros H. unfold Main.toggle_pause.
  destruct (Z.gtb_spec (ticks_diff e (Main.last_button_time g)) 300);
    [| lia].
  destruct (Main.paused g); [| split; reflexivity].
  cbn [negb]. destruct (negb (Main.pause_start_timestamp g =? 0));
    split; reflexivity.
Qed.

Lemma xorb_negb_odd (p : bool) (n : nat) :
  xorb (negb p) (Nat.odd n) = xorb p (Nat.odd (S n)).
Proof.
  rewrite Nat.odd_succ, <- Nat.negb_odd.
  destruct p, (Nat.odd n); reflexivity.
Qed.

(** Only the accepted edges count, and each of them flips the flag. *)
Lemma Bouncer_edges_accepted (edges : list Z) (g : Bouncer.globals) :
  Bouncer_edges edges g
  = Bouncer_edges (accepted (Bouncer.last_button_time g) edges) g /\
  Bouncer.paused (Bouncer_edges edges g)
  = xorb (Bouncer.paused g)
         (Nat.odd (List.length (accepted (Bouncer.last_button_time g) edges))).
Proof.
  revert g. induction edges as [| e es IH]; intros g.
  - split; [reflexivity |]. cbn. now rewrite xorb_false_r.
  - cbn [accepted]. unfold Bouncer_edges in *. cbn [fold_left].
    destruct (Z.gtb_spec (ticks_diff e (Bouncer.last_button_time g)) 300) as [H | H].
    + destruct (Bouncer_toggle_accepted e g H) as [P L].
      destruct (IH (Bouncer.toggle_pause_irq e g)) as [IH1 IH2].
      rewrite L in IH1, IH2. cbn [fold_left List.length]. split; [exact IH1 |].
      rewrite IH2, P. apply xorb_negb_odd.
    + rewrite (Bouncer_toggle_rejected e g H). apply IH.
Qed.

Lemma Main_edges_accepted (edges : list Z) (g : Main.globals) :
  Main_edges edges g
  = Main_edges (accepted (Main.last_button_time g) edges) g /\
  Main.paused (Main_edges edges g)
  = xorb (Main.paused g)
         (Nat.odd (List.length (accepted (Main.last_button_time g) edges))).
Proof.
  revert g. induction edges as [| e es IH]; intros g.
  - split; [reflexivity |]. cbn. now rewrite xorb_false_r.
  - cbn [accepted]. unfold Main_edges in *. cbn [fold_left].
    destruct (Z.gtb_spec (ticks_diff e (Main.last_button_time g)) 300) as [H | H].
    + destruct (Main_toggle_accepted e g H) as [P L].
      destruct (IH (Main.toggle_pause e g)) as [IH1 IH2].
      rewrite L in IH1, IH2. cbn [fold_left List.length]. split; [exact IH1 |].
      rewrite IH2, P. apply xorb_negb_odd.
    + rewrite (Main_toggle_rejected e g H). apply IH.
Qed.

(** The debounce as the handlers measure it: an edge that [ticks_diff]
    puts at most 300 ms after [last_button_time] changes nothing at all;
    one that it puts more than 300 ms after it flips the pause flag and
    becomes [last_button_time]; so, over any sequence of edges starting
    from RUNNING, the flag is PAUSED exactly after an odd number of edges
    let through.  [ticks_diff] is the time that passed between two readings
    of the counter whenever that is less than half its period. *)
Theorem debounced_toggle :
  (forall e g,
      ticks_diff e (Bouncer.last_button_time g) <= 300 ->
      Bouncer.toggle_pause_irq e g = g) /\
  (forall e g,
      300 < ticks_diff e (Bouncer.last_button_time g) ->
      Bouncer.paused (Bouncer.toggle_pause_irq e g) = negb (Bouncer.paused g) /\
      Bouncer.last_button_time (Bouncer.toggle_pause_irq e g) = e) /\
  (forall edges g,
      Bouncer.paused g = false ->
      Bouncer.paused (Bouncer_edges edges g)
      = Nat.odd (List.length (accepted (Bouncer.last_button_time g) edges))) /\
  (forall e g,
      ticks_diff e (Main.last_button_time g) <= 300 ->
      Main.toggle_pause e g = g) /\
  (forall e g,
      300 < ticks_diff e (Main.last_button_time g) ->
      Main.paused (Main.toggle_pause e g) = negb (Main.paused g) /\
      Main.last_button_time (Main.toggle_pause e g) = e) /\
  (forall edges g,
      Main.paused g = false ->
      Main.paused (Main_edges edges g)
      = Nat.odd (List.length (accepted (Main.last_button_time g) edges))) /\
  (forall last e : Z,
      0 <= e - last < TICKS_HALF ->
      (300 < ticks_diff (ticks_of e) (ticks_of last) <-> 300 < e - last)).
Proof.
  repeat split.
  - apply Bouncer_toggle_rejected; assumption.
  - apply Bouncer_toggle_accepted; assumption.
  - apply Bouncer_toggle_accepted; assumption.
  - intros edges g R.
    destruct (Bouncer_edges_accepted edges g) as [_ P]. now rewrite P, R.
  - apply Main_toggle_rejected; assumption.
  - apply Main_toggle_accepted; assumption.
  - apply Main_toggle_accepted; assumption.
  - intros edges g R.
    destruct (Main_edges_accepted edges g) as [_ P]. now rewrite P, R.
  - rewrite ticks_diff_of; [trivial | unfold TICKS_HALF in *; lia].
  - rewrite ticks_diff_of; [trivial | unfold TICKS_HALF in *; lia].
Qed.

(** A bouncing button: of the edges at 1000, 1100, 1500, 1700 and
    2000 ms the second and the fourth fall inside the window; the three
    others are accepted and leave the program PAUSED. *)
Lemma debounced_toggle_witness :
  accepted 0 [1000; 1100; 1500; 1700; 2000] = [1000; 1500; 2000] /\
  Bouncer.paused
    (Bouncer_edges [1000; 1100; 1500; 1700; 2000] (Bouncer.boot 0)) = true /\
  Main.toggle_pause 1100 (Main.toggle_pause 1000 (Main.boot 0))
  = Main.toggle_pause 1000 (Main.boot 0).
Proof.
  split; [reflexivity |]. split.
  - exact (proj1 (proj2 (proj2 debounced_toggle))
             [1000; 1100; 1500; 1700; 2000] (Bouncer.boot 0) eq_refl).
  - apply (proj1 (proj2 (proj2 (proj2 debounced_toggle)))).
    vm_compute. discriminate.
Defined.

(** C5, where the code departs from it.  [last_button_time] starts at 0,
    which is not a reading taken from the counter.  In a program started
    seven days after the counter, which is past half its period, the
    handler measures every press of the next minute as long before that 0:
    of sixty presses one second apart it lets none through, and both
    programs stay RUNNING with all their variables as at the start; so the
    claim as stated does not hold of the code.  Presses at the same pace
    in a program started two seconds after the counter are all let
    through, and the first one pauses. *)
Theorem debounce_from_boot :
  spaced seven_days (presses_every_second seven_days 60) = true /\
  accepted 0 (map ticks_of (presses_every_second seven_days 60)) = [] /\
  Bouncer_edges (map ticks_of (presses_every_second seven_days 60))
    (Bouncer.boot seven_days) = Bouncer.boot seven_days /\
  Main_edges (map ticks_of (presses_every_second seven_days 60))
    (Main.boot seven_days) = Main.boot seven_days /\
  ~ spaced_presses_alternate /\
  accepted 0 (map ticks_of (presses_every_second 2000 60))
  = presses_every_second 2000 60 /\
  Bouncer.paused
    (Bouncer_edges (map ticks_of (presses_every_second 2000 1)) (Bouncer.boot 2000))
  = true /\
  Main.paused
    (Main_edges (map ticks_of (presses_every_second 2000 1)) (Main.boot 2000))
  = true.
Proof.
  split; [vm_compute; reflexivity |].
  split; [vm_compute; reflexivity |].
  split; [vm_compute; reflexivity |].
  split; [vm_compute; reflexivity |].
  split.
  { intros H.
    destruct (H seven_days (presses_every_second seven_days 1)) as [B _].
    - unfold seven_days. lia.
    - vm_compute. reflexivity.
    - vm_compute in B. discriminate B. }
  split; [vm_compute; reflexivity |].
  split; vm_compute; reflexivity.
Qed.

(* ===================================================================== *)
(** ** The order of the checks (C2) *)
(* ===================================================================== *)

Section Order.

Variable button : Z -> bool.

(** [check_status] starts with the hold check: a hold past the threshold
    ends the process before the pause flag or the work time is looked at. *)
Lemma Bouncer_hold_terminates (fuel : nat) (w : world Bouncer.globals) :
  button (clock w) = true ->
  Bouncer.button_press_start (vars w) <> 0 ->
  3000 < ticks_diff (ticks_of (clock w)) (Bouncer.button_press_start (vars w)) ->
  Bouncer.check_status button fuel w
  = (Exited, World (clock w) (vars w) (out w ++ termination_trace)).
Proof.
  intros Hb Hs Hd.
  unfold Bouncer.check_status, Bouncer.termination_check.
  unfold bind at 1. unfold bind at 1. unfold button_value at 1. rewrite Hb.
  unfold bind at 1. unfold gets at 1.
  apply Z.eqb_neq in Hs. rewrite Hs.
  unfold bind at 1. unfold ticks_ms at 1.
  destruct (Z.gtb_spec (ticks_diff (ticks_of (clock w))
                          (Bouncer.button_press_start (vars w))) 3000); [| lia].
  cbn. unfold termination_trace. repeat rewrite <- app_assoc. reflexivity.
Qed.

(** In [check_battery_and_get_speed] the hold check comes before the
    battery step, but after the pause block. *)
Lemma Main_hold_terminates (fuel : nat) (w : world Main.globals) :
  Main.paused (vars w) = false ->
  button (clock w) = true ->
  Main.button_hold_start (vars w) <> 0 ->
  3000 < ticks_diff (ticks_of (clock w)) (Main.button_hold_start (vars w)) ->
  Main.check_battery_and_get_speed button fuel w
  = (Exited, World (clock w) (vars w) (out w ++ termination_trace)).
Proof.
  intros Hp Hb Hs Hd.
  unfold Main.check_battery_and_get_speed, Main.pause_handling,
    Main.termination_check.
  unfold bind at 1. unfold bind at 1. unfold gets at 1. rewrite Hp.
  unfold ret at 1.
  unfold bind at 1. unfold bind at 1. unfold button_value at 1. rewrite Hb.
  unfold bind at 1. unfold gets at 1.
  apply Z.eqb_neq in Hs. rewrite Hs.
  unfold bind at 1. unfold ticks_ms at 1.
  destruct (Z.gtb_spec (ticks_diff (ticks_of (clock w))
                          (Main.button_hold_start (vars w))) 3000); [| lia].
  cbn. unfold termination_trace. repeat rewrite <- app_assoc. reflexivity.
Qed.

Lemma Main_breathing_grows (fuel : nat) (duty direction : Z) :
  grows (Main.breathing button fuel duty direction).
Proof.
  revert duty direction.
  induction fuel as [| fuel IH]; intros duty direction; cbn [Main.breathing].
  - grow.
  - grow; try apply IH.
Qed.

Lemma Main_termination_check_grows : grows (Main.termination_check button).
Proof. unfold Main.termination_check. grow. Qed.

Lemma Main_blink_grows (fuel : nat) (end_time : Z) :
  grows (Main.blink button fuel end_time).
Proof.
  induction fuel as [| fuel IH]; cbn [Main.blink].
  - grow.
  - grow; try apply IH.
Qed.

Lemma Main_battery_logic_grows (fuel : nat) :
  grows (Main.battery_logic button fuel).
Proof.
  unfold Main.battery_logic, Main.shutdown. grow. apply Main_blink_grows.
Qed.

#[local] Hint Resolve Main_breathing_grows Main_termination_check_grows
  Main_battery_logic_grows : grows.

(** A cycle of [main.py] that finds the program PAUSED begins with the
    pause block, whatever the button does. *)
Lemma Main_pause_first (fuel : nat) (w : world Main.globals) :
  Main.paused (vars w) = true ->
  exists rest,
    out (snd (Main.check_battery_and_get_speed button fuel w))
    = out w ++ pause_entry ++ rest.
Proof.
  intros Hp.
  set (w1 := World (clock w) (vars w) (out w ++ pause_entry)).
  assert (E : Main.check_battery_and_get_speed button fuel w
              = bind (bind (Main.breathing button fuel 0 1)
                           (fun _ => bind (print ">>> RESUMING")
                                          (fun _ => emit (Green 0))))
                     (fun _ => bind (Main.termination_check button)
                                    (fun _ => Main.battery_logic button fuel))
                     w1).
  { unfold Main.check_battery_and_get_speed, Main.pause_handling.
    unfold bind at 1. unfold bind at 1. unfold gets at 1. rewrite Hp.
    unfold bind at 1. unfold bind at 2. unfold bind at 2. unfold bind at 2.
    cbn [print emit dmd_stop set_leds bind clock vars out].
    unfold w1, pause_entry. repeat rewrite <- app_assoc. reflexivity. }
  rewrite E.
  assert (Gr : grows (bind (bind (Main.breathing button fuel 0 1)
                           (fun _ => bind (print ">>> RESUMING")
                                          (fun _ => emit (Green 0))))
                     (fun _ => bind (Main.termination_check button)
                                    (fun _ => Main.battery_logic button fuel)))).
  { grow. }
  destruct (Gr w1) as [rest R]. exists rest. rewrite R. unfold w1. cbn [out].
  now rewrite app_assoc.
Qed.

(** With no rising edge the flag never clears and the breathing loop of
    [main.py] goes on for as long as it is given fuel. *)
Lemma Main_breathing_quiet (fuel : nat) (duty direction : Z) (w : world Main.globals) :
  (forall t, rising button t = false) ->
  Main.paused (vars w) = true ->
  fst (Main.breathing button fuel duty direction w) = Starved.
Proof.
  intros Q. revert duty direction w.
  induction fuel as [| fuel IH]; intros duty direction w Hp; [reflexivity |].
  cbn [Main.breathing]. unfold bind at 1. unfold gets at 1. rewrite Hp.
  cbv zeta. unfold bind at 1. unfold emit at 1.
  unfold bind at 1. rewrite sleep_quiet by exact Q.
  apply IH. exact Hp.
Qed.

Lemma Main_paused_quiet (fuel : nat) (w : world Main.globals) :
  (forall t, rising button t = false) ->
  Main.paused (vars w) = true ->
  fst (Main.check_battery_and_get_speed button fuel w) = Starved.
Proof.
  intros Q Hp.
  unfold Main.check_battery_and_get_speed, Main.pause_handling.
  unfold bind at 1. unfold bind at 1. unfold gets at 1. rewrite Hp.
  unfold bind at 1. unfold print at 1. unfold emit at 1.
  unfold bind at 1. unfold dmd_stop at 1. unfold bind at 1. unfold emit at 1 2.
  unfold bind at 1. unfold set_leds at 1. unfold bind at 1 2. unfold emit at 1 2 3.
  unfold bind at 1.
  match goal with
  | |- context [Main.breathing button fuel 0 1 ?w0] =>
      pose proof (Main_breathing_quiet fuel 0 1 w0 Q Hp) as S;
      destruct (Main.breathing button fuel 0 1 w0) as [r w2]
  end.
  cbn [fst] in S. subst r. reflexivity.
Qed.

End Order.

Section PausedCycle.

Variable button : Z -> bool.

(** The breathing loop of [main.py], however it ends: it has written the
    duties of the ramp, each followed by a 10 ms sleep, and it returns
    only on finding the pause flag clear. *)
Lemma Main_breathing_shape (fuel : nat) :
  forall (duty direction : Z) (w : world Main.globals),
  exists (n : nat) (w1 : world Main.globals),
    out w1 = out w ++ flat_map breathing_step (Main_ramp_duties n (duty, direction)) /\
    (Main.breathing button fuel duty direction w = (Starved, w1) \/
     (Main.breathing button fuel duty direction w = (Val tt, w1) /\
      Main.paused (vars w1) = false)).
Proof.
  induction fuel as [| fuel IH]; intros duty direction w.
  - exists 0%nat, w. cbn. rewrite app_nil_r. split; [reflexivity | now left].
  - set (duty2 := if duty + 2000 * direction >=? 65535 then 65535
                  else if duty + 2000 * direction <=? 0 then 0
                       else duty + 2000 * direction).
    set (dir2 := if duty + 2000 * direction >=? 65535 then -1
                 else if duty + 2000 * direction <=? 0 then 1 else direction).
    destruct (Main.paused (vars w)) eqn:P.
    + destruct (sleep_spec button Main.toggle_pause 10
                  (World (clock w) (vars w) (out w ++ [Green duty2])))
        as [g' E].
      cbn [clock vars out] in E.
      assert (Eq : Main.breathing button (S fuel) duty direction w
                   = Main.breathing button fuel duty2 dir2
                       (World (clock w + Z.of_nat 10) g'
                              ((out w ++ [Green duty2]) ++ [Sleep 10]))).
      { cbn [Main.breathing]. unfold bind at 1. unfold gets at 1. rewrite P.
        cbv zeta. fold duty2 dir2.
        unfold bind at 1. unfold emit at 1. unfold bind at 1.
        rewrite E. reflexivity. }
      rewrite Eq.
      destruct (IH duty2 dir2
                  (World (clock w + Z.of_nat 10) g'
                         ((out w ++ [Green duty2]) ++ [Sleep 10])))
        as (n & w1 & O & D).
      exists (S n), w1. split; [| exact D].
      rewrite O. cbn [out Main_ramp_duties flat_map].
      change (Main_ramp (duty, direction)) with (duty2, dir2).
      cbn [fst]. unfold breathing_step at 2.
      rewrite <- !app_assoc. reflexivity.
    + assert (Eq : Main.breathing button (S fuel) duty direction w = (Val tt, w)).
      { cbn [Main.breathing]. unfold bind at 1. unfold gets at 1. rewrite P.
        reflexivity. }
      rewrite Eq. exists 0%nat, w. cbn [Main_ramp_duties flat_map].
      rewrite app_nil_r. split; [reflexivity | right; now split].
Qed.

(** A cycle of [main.py] entered PAUSED: the pause block first, with the
    breathing loop; the hold check is made in the world the pause block
    returns to, where the flag is clear, and not before. *)
Lemma Main_paused_cycle (fuel : nat) (w : world Main.globals) :
  Main.paused (vars w) = true ->
  exists n : nat,
    (fst (Main.check_battery_and_get_speed button fuel w) = Starved /\
     out (snd (Main.check_battery_and_get_speed button fuel w))
     = out w ++ pause_entry
             ++ flat_map breathing_step (Main_ramp_duties n (0, 1))) \/
    (exists w1 : world Main.globals,
       Main.pause_handling button fuel w = (Val tt, w1) /\
       Main.paused (vars w1) = false /\
       out w1 = out w ++ pause_entry
                      ++ flat_map breathing_step (Main_ramp_duties n (0, 1))
                      ++ [Console ">>> RESUMING"; Green 0] /\
       Main.check_battery_and_get_speed button fuel w
       = bind (Main.termination_check button)
              (fun _ => Main.battery_logic button fuel) w1).
Proof.
  intros Hp.
  set (w0 := World (clock w) (vars w) (out w ++ pause_entry)).
  assert (E : Main.pause_handling button fuel w
              = bind (Main.breathing button fuel 0 1)
                     (fun _ => bind (print ">>> RESUMING")
                                    (fun _ => emit (Green 0))) w0).
  { unfold Main.pause_handling.
    unfold bind at 1. unfold gets at 1. rewrite Hp.
    unfold bind at 1. unfold bind at 2. unfold bind at 2.
    cbn [print emit dmd_stop set_leds bind clock vars out].
    unfold w0, pause_entry. repeat rewrite <- app_assoc. reflexivity. }
  destruct (Main_breathing_shape fuel 0 1 w0) as (n & w1 & O & [S | [V P1]]);
    exists n.
  - left. unfold Main.check_battery_and_get_speed.
    rewrite (bind_starved _ _ _ w1); [| rewrite E; now apply bind_starved].
    cbn [fst snd]. split; [reflexivity |].
    rewrite O. unfold w0. cbn [out]. now rewrite app_assoc.
  - right.
    assert (Ep : Main.pause_handling button fuel w
                 = (Val tt, World (clock w1) (vars w1)
                              ((out w1 ++ [Console ">>> RESUMING"]) ++ [Green 0]))).
    { rewrite E. rewrite (bind_val _ _ _ _ _ V). reflexivity. }
    eexists. split; [exact Ep |]. cbn [vars out]. split; [exact P1 |]. split.
    + rewrite O. unfold w0. cbn [out]. rewrite <- !app_assoc. reflexivity.
    + unfold Main.check_battery_and_get_speed.
      rewrite (bind_val _ _ _ _ _ Ep). reflexivity.
Qed.

End PausedCycle.

(** C2 (amended): [check_status] of [real_wall_bouncer.py] evaluates the
    hold check first, so a button held past the threshold on cycle entry
    ends the process whatever the pause flag and the work time are;
    [check_battery_and_get_speed] of [main.py] evaluates it before the
    battery step but after the pause block.  A cycle of [main.py] that
    finds the program PAUSED starts with the pause behaviour: motors
    stopped, indicator cleared, then the breathing loop, which writes the
    duties of its ramp with 10 ms sleeps and nothing else.  Either the loop
    is still running when the fuel ends, or the pause block returns with
    the flag clear and the rest of the cycle is the hold check and the
    battery step run from there: the hold is looked at only once the pause
    loop has ended.  With no rising edge the loop never ends, however long
    the button has been held. *)
Theorem check_order :
  (forall button fuel (w : world Bouncer.globals),
      button (clock w) = true ->
      Bouncer.button_press_start (vars w) <> 0 ->
      3000 < ticks_diff (ticks_of (clock w)) (Bouncer.button_press_start (vars w)) ->
      Bouncer.check_status button fuel w
      = (Exited, World (clock w) (vars w) (out w ++ termination_trace))) /\
  (forall button fuel (w : world Main.globals),
      Main.paused (vars w) = false ->
      button (clock w) = true ->
      Main.button_hold_start (vars w) <> 0 ->
      3000 < ticks_diff (ticks_of (clock w)) (Main.button_hold_start (vars w)) ->
      Main.check_battery_and_get_speed button fuel w
      = (Exited, World (clock w) (vars w) (out w ++ termination_trace))) /\
  (forall button fuel (w : world Main.globals),
      Main.paused (vars w) = true ->
      exists n : nat,
        (fst (Main.check_battery_and_get_speed button fuel w) = Starved /\
         out (snd (Main.check_battery_and_get_speed button fuel w))
         = out w ++ pause_entry
                 ++ flat_map breathing_step (Main_ramp_duties n (0, 1))) \/
        (exists w1 : world Main.globals,
           Main.pause_handling button fuel w = (Val tt, w1) /\
           Main.paused (vars w1) = false /\
           out w1 = out w ++ pause_entry
                          ++ flat_map breathing_step (Main_ramp_duties n (0, 1))
                          ++ [Console ">>> RESUMING"; Green 0] /\
           Main.check_battery_and_get_speed button fuel w
           = bind (Main.termination_check button)
                  (fun _ => Main.battery_logic button fuel) w1)) /\
  (forall button fuel (w : world Main.globals),
      (forall t, rising button t = false) ->
      Main.paused (vars w) = true ->
      fst (Main.check_battery_and_get_speed button fuel w) = Starved).
Proof.
  split; [| split; [| split]].
  - intros button fuel w. apply Bouncer_hold_terminates.
  - intros button fuel w. apply Main_hold_terminates.
  - intros button fuel w. apply Main_paused_cycle.
  - intros button fuel w. apply Main_paused_quiet.
Qed.

(** C2 on a button held since 1000 ms, at 5000 ms: [check_status] exits
    although PAUSED and although 70 s of work are on the timer; the cycle
    of [main.py] exits when RUNNING; when PAUSED it is in the pause block
    for as long as it is run, and so it is with the fuel for seven passes
    of the breathing loop. *)
Lemma check_order_witness :
  fst (Bouncer.check_status (fun _ => true) 0
         (World 5000 (Bouncer.Globals true 70000 0 0 1000) [])) = Exited /\
  fst (Main.check_battery_and_get_speed (fun _ => true) 0
         (World 5000 (Main.Globals false 0 0 0 1000 0) [])) = Exited /\
  (exists n : nat,
     (fst (Main.check_battery_and_get_speed (fun _ => true) 7
             (World 5000 (Main.Globals true 0 0 0 1000 0) [])) = Starved /\
      out (snd (Main.check_battery_and_get_speed (fun _ => true) 7
                  (World 5000 (Main.Globals true 0 0 0 1000 0) [])))
      = [] ++ pause_entry ++ flat_map breathing_step (Main_ramp_duties n (0, 1))) \/
     (exists w1 : world Main.globals,
        Main.pause_handling (fun _ => true) 7
          (World 5000 (Main.Globals true 0 0 0 1000 0) []) = (Val tt, w1) /\
        Main.paused (vars w1) = false /\
        out w1 = [] ++ pause_entry
                    ++ flat_map breathing_step (Main_ramp_duties n (0, 1))
                    ++ [Console ">>> RESUMING"; Green 0] /\
        Main.check_battery_and_get_speed (fun _ => true) 7
          (World 5000 (Main.Globals true 0 0 0 1000 0) [])
        = bind (Main.termination_check (fun _ => true))
               (fun _ => Main.battery_logic (fun _ => true) 7) w1)) /\
  fst (Main.check_battery_and_get_speed (fun _ => true) 7
         (World 5000 (Main.Globals true 0 0 0 1000 0) [])) = Starved.
Proof.
  split; [| split; [| split]].
  - rewrite (proj1 check_order (fun _ => true) 0%nat
               (World 5000 (Bouncer.Globals true 70000 0 0 1000) [])
               eq_refl ltac:(discriminate) eq_refl).
    reflexivity.
  - rewrite (proj1 (proj2 check_order) (fun _ => true) 0%nat
               (World 5000 (Main.Globals false 0 0 0 1000 0) [])
               eq_refl eq_refl ltac:(discriminate) eq_refl).
    reflexivity.
  - exact (proj1 (proj2 (proj2 check_order)) (fun _ => true) 7%nat
             (World 5000 (Main.Globals true 0 0 0 1000 0) []) eq_refl).
  - exact (proj2 (proj2 (proj2 check_order)) (fun _ => true) 7%nat
             (World 5000 (Main.Globals true 0 0 0 1000 0) [])
             (fun t => eq_refl) eq_refl).
Defined.

(** C2 as stated fails on [main.py]: PAUSED, with the button held since
    1000 ms and still held at 5000 ms, the cycle never exits; it stays in
    the breathing loop, where the hold is not looked at. *)
Lemma hold_while_paused_counterexample :
  ~ hold_overrides_pause_in_main /\
  fst (Main.check_battery_and_get_speed (fun _ => true) 7
         (World 5000 (Main.Globals true 0 0 0 1000 0) [])) = Starved /\
  firstn 6 (out (snd (Main.check_battery_and_get_speed (fun _ => true) 7
                        (World 5000 (Main.Globals true 0 0 0 1000 0) []))))
  = pause_entry.
Proof.
  split; [| split; vm_compute; reflexivity].
  intros H.
  destruct (H (fun _ => true) (World 5000 (Main.Globals true 0 0 0 1000 0) [])
              eq_refl eq_refl ltac:(discriminate) eq_refl) as (fuel & w' & E).
  pose proof (Main_paused_quiet (fun _ => true) fuel
                (World 5000 (Main.Globals true 0 0 0 1000 0) [])
                (fun t => eq_refl) eq_refl) as S.
  rewrite E in S. discriminate S.
Qed.

(* ===================================================================== *)
(** ** The battery shutdown (C3) *)
(* ===================================================================== *)

(** One statement of a straight-line block: an output, or a sleep whose
    effect on the variables is left open. *)
Ltac step_emit :=
  unfold bind at 1; unfold emit at 1; cbv beta iota; cbn [clock vars out].

Ltac step_sleep :=
  unfold bind at 1;
  match goal with
  | |- context [sleep ?b ?i ?ms ?w] =>
      let g := fresh "g" in
      let E := fresh "E" in
      destruct (sleep_spec b i ms w) as [g E]; rewrite E; clear E
  end;
  cbv beta iota; cbn [clock vars out].

Section Shutdown.

Variable button : Z -> bool.

(** The red blink loop runs one period per 100 ms left before the
    deadline, whatever the button does meanwhile. *)
Lemma Bouncer_blink_runs (k fuel : nat) (end_time : Z) (w : world Bouncer.globals) :
  (k < fuel)%nat ->
  ticks_of (clock w) + 100 * Z.of_nat k = end_time ->
  end_time < TICKS_PERIOD ->
  exists g',
    Bouncer.blink button fuel end_time w
    = (Val tt, World (clock w + 100 * Z.of_nat k) g'
                     (out w ++ concat (repeat red_period k))).
Proof.
  revert fuel w. induction k as [| k IH]; intros fuel w Hf He Hp.
  - destruct fuel as [| fuel]; [lia |]. cbn [Bouncer.blink].
    unfold bind at 1. unfold ticks_ms at 1.
    rewrite (proj2 (Z.ltb_ge _ _)) by lia.
    exists (vars w). unfold ret. destruct w as [c g o]. cbn [clock vars out].
    cbn [repeat concat]. rewrite app_nil_r. f_equal. f_equal. lia.
  - destruct fuel as [| fuel]; [lia |]. cbn [Bouncer.blink].
    unfold bind at 1. unfold ticks_ms at 1.
    rewrite (proj2 (Z.ltb_lt _ _)) by lia.
    step_emit. step_sleep. step_emit. step_sleep.
    match goal with
    | |- context [Bouncer.blink button fuel end_time ?w4] =>
        destruct (IH fuel w4) as [g' E]
    end.
    + lia.
    + cbn [clock]. replace (clock w + Z.of_nat 50 + Z.of_nat 50) with (clock w + 100) by lia.
      rewrite ticks_of_add by lia. lia.
    + exact Hp.
    + rewrite E. exists g'. cbn [clock out]. f_equal. f_equal.
      * lia.
      * cbn [repeat concat]. unfold red_period at 2.
        repeat rewrite <- app_assoc. reflexivity.
Qed.

Lemma Main_blink_runs (k fuel : nat) (end_time : Z) (w : world Main.globals) :
  (k < fuel)%nat ->
  ticks_of (clock w) + 100 * Z.of_nat k = end_time ->
  end_time < TICKS_PERIOD ->
  exists g',
    Main.blink button fuel end_time w
    = (Val tt, World (clock w + 100 * Z.of_nat k) g'
                     (out w ++ concat (repeat main_period k))).
Proof.
  revert fuel w. induction k as [| k IH]; intros fuel w Hf He Hp.
  - destruct fuel as [| fuel]; [lia |]. cbn [Main.blink].
    unfold bind at 1. unfold ticks_ms at 1.
    rewrite (proj2 (Z.ltb_ge _ _)) by lia.
    exists (vars w). unfold ret. destruct w as [c g o]. cbn [clock vars out].
    cbn [repeat concat]. rewrite app_nil_r. f_equal. f_equal. lia.
  - destruct fuel as [| fuel]; [lia |]. cbn [Main.blink].
    unfold bind at 1. unfold ticks_ms at 1.
    rewrite (proj2 (Z.ltb_lt _ _)) by lia.
    unfold set_leds.
    unfold bind at 1. step_emit. step_emit. unfold emit at 1.
    cbv beta iota; cbn [clock vars out].
    step_sleep.
    unfold bind at 1. step_emit. step_emit. unfold emit at 1.
    cbv beta iota; cbn [clock vars out].
    step_sleep.
    match goal with
    | |- context [Main.blink button fuel end_time ?w4] =>
        destruct (IH fuel w4) as [g' E]
    end.
    + lia.
    + cbn [clock]. replace (clock w + Z.of_nat 50 + Z.of_nat 50) with (clock w + 100) by lia.
      rewrite ticks_of_add by lia. lia.
    + exact Hp.
    + rewrite E. exists g'. cbn [clock out]. f_equal. f_equal.
      * lia.
      * cbn [repeat concat]. unfold main_period at 2.
        repeat rewrite <- app_assoc. reflexivity.
Qed.

End Shutdown.

Section ShutdownTrace.

Variable button : Z -> bool.

Lemma Bouncer_shutdown_runs (fuel : nat) (w : world Bouncer.globals) :
  ticks_of (clock w) + 5000 < TICKS_PERIOD ->
  (50 < fuel)%nat ->
  exists g',
    Bouncer.shutdown button fuel w
    = (Exited, World (clock w + 5000) g'
                 (out w ++ Console "CRITICAL BATTERY: Shutdown" :: critical_sequence)).
Proof.
  intros Hp Hf. unfold Bouncer.shutdown.
  cbn [bind print dmd_stop set_leds emit ticks_ms clock vars out].
  unfold bind.
  match goal with
  | |- context [Bouncer.blink button fuel ?e ?w1] =>
      destruct (Bouncer_blink_runs button 50 fuel e w1 Hf) as [g' E];
        [cbn [clock]; lia | cbn [clock]; lia |]
  end.
  rewrite E. exists g'. cbn [clock out]. unfold sys_exit.
  f_equal; f_equal; try lia.
  unfold critical_sequence. repeat rewrite <- app_assoc. reflexivity.
Qed.

Lemma Main_shutdown_runs (fuel : nat) (w : world Main.globals) :
  ticks_of (clock w) + 5000 < TICKS_PERIOD ->
  (50 < fuel)%nat ->
  exists g',
    Main.shutdown button fuel w
    = (Exited, World (clock w + 5000) g'
                 (out w ++ Console "CRITICAL BATTERY: Shutdown"
                        :: [LeftStop; RightStop; Red 1; Blue 0; Green 0]
                        ++ concat (repeat main_period 50))).
Proof.
  intros Hp Hf. unfold Main.shutdown.
  cbn [bind print dmd_stop set_leds emit ticks_ms clock vars out].
  unfold bind.
  match goal with
  | |- context [Main.blink button fuel ?e ?w1] =>
      destruct (Main_blink_runs button 50 fuel e w1 Hf) as [g' E];
        [cbn [clock]; lia | cbn [clock]; lia |]
  end.
  rewrite E. exists g'. cbn [clock out]. unfold sys_exit.
  f_equal; f_equal; try lia.
  repeat rewrite <- app_assoc. reflexivity.
Qed.

End ShutdownTrace.

Section ShutdownAtTheWrap.

Variable button : Z -> bool.

(** [while ticks_ms() < end_time:] compares raw counter readings.  A
    deadline at or past the period of the counter is above every reading,
    so the loop goes on for as long as it is run. *)
Lemma Bouncer_blink_stuck (fuel : nat) :
  forall (end_time : Z) (w : world Bouncer.globals),
    TICKS_PERIOD <= end_time ->
    fst (Bouncer.blink button fuel end_time w) = Starved.
Proof.
  induction fuel as [| fuel IH]; intros end_time w He; [reflexivity |].
  cbn [Bouncer.blink]. unfold bind at 1. unfold ticks_ms at 1.
  pose proof (ticks_of_range (clock w)) as R.
  rewrite (proj2 (Z.ltb_lt _ _)) by lia.
  step_emit. step_sleep. step_emit. step_sleep.
  apply IH. exact He.
Qed.

Lemma Main_blink_stuck (fuel : nat) :
  forall (end_time : Z) (w : world Main.globals),
    TICKS_PERIOD <= end_time ->
    fst (Main.blink button fuel end_time w) = Starved.
Proof.
  induction fuel as [| fuel IH]; intros end_time w He; [reflexivity |].
  cbn [Main.blink]. unfold bind at 1. unfold ticks_ms at 1.
  pose proof (ticks_of_range (clock w)) as R.
  rewrite (proj2 (Z.ltb_lt _ _)) by lia.
  unfold set_leds.
  unfold bind at 1. step_emit. step_emit. unfold emit at 1.
  cbv beta iota; cbn [clock vars out].
  step_sleep.
  unfold bind at 1. step_emit. step_emit. unfold emit at 1.
  cbv beta iota; cbn [clock vars out].
  step_sleep.
  apply IH. exact He.
Qed.

(** A battery shutdown begun less than 5000 ms before the counter wraps
    never reaches [sys.exit()]. *)
Lemma Bouncer_shutdown_stuck (fuel : nat) (w : world Bouncer.globals) :
  TICKS_PERIOD <= ticks_of (clock w) + 5000 ->
  fst (Bouncer.shutdown button fuel w) = Starved.
Proof.
  intros Hp. unfold Bouncer.shutdown.
  cbn [bind print dmd_stop set_leds emit ticks_ms clock vars out].
  unfold bind.
  match goal with
  | |- context [Bouncer.blink button fuel ?e ?w1] =>
      pose proof (Bouncer_blink_stuck fuel e w1 Hp) as E;
        destruct (Bouncer.blink button fuel e w1) as [[[] | |] w2];
        cbn [fst] in E; try discriminate E
  end.
  reflexivity.
Qed.

Lemma Main_shutdown_stuck (fuel : nat) (w : world Main.globals) :
  TICKS_PERIOD <= ticks_of (clock w) + 5000 ->
  fst (Main.shutdown button fuel w) = Starved.
Proof.
  intros Hp. unfold Main.shutdown.
  cbn [bind print dmd_stop set_leds emit ticks_ms clock vars out].
  unfold bind.
  match goal with
  | |- context [Main.blink button fuel ?e ?w1] =>
      pose proof (Main_blink_stuck fuel e w1 Hp) as E;
        destruct (Main.blink button fuel e w1) as [[[] | |] w2];
        cbn [fst] in E; try discriminate E
  end.
  reflexivity.
Qed.

End ShutdownAtTheWrap.

(** C3, where the code departs from it.  A first session that has lasted
    60 s, button released: [real_wall_bouncer.py] runs the sequence of the
    claim and exits 5000 ms later.  On the same input [main.py] stops the
    motors, then switches the red pin on where the indicator is to be
    blanked, then blinks the blue pin fifty times (lines 119-124, under the
    comment that announces a red blink), and exits; so the claim does not
    hold of [main.py].  And when the shutdown begins less than 5000 ms
    before the tick counter wraps (here 2000 ms before, in a session of
    60 s), the deadline [ticks_ms() + 5000] is above every reading of the
    counter: in both programs the blink loop is still running however long
    it is run, and the process does not end. *)
Theorem shutdown_blink_defects :
  Bouncer.battery_logic (fun _ => false) 51 (World 60000 (Bouncer.boot 0) [])
  = (Exited, World 65000 (Bouncer.boot 0)
               (Console "CRITICAL BATTERY: Shutdown" :: critical_sequence)) /\
  Main.battery_logic (fun _ => false) 51 (World 60000 (Main.boot 0) [])
  = (Exited, World 65000 (Main.boot 0)
               (Console "CRITICAL BATTERY: Shutdown"
                  :: [LeftStop; RightStop; Red 1; Blue 0; Green 0]
                  ++ concat (repeat main_period 50))) /\
  ~ shutdown_as_specified_in_main /\
  band_of (Bouncer.total_work_ms (ticks_of (TICKS_PERIOD - 2000))
             (Bouncer.boot (TICKS_PERIOD - 62000))) = CRITICAL /\
  band_of (Main.elapsed (ticks_of (TICKS_PERIOD - 2000))
             (Main.boot (TICKS_PERIOD - 62000))) = CRITICAL /\
  (forall button fuel,
      fst (Bouncer.battery_logic button fuel
             (World (TICKS_PERIOD - 2000) (Bouncer.boot (TICKS_PERIOD - 62000)) []))
      = Starved) /\
  (forall button fuel,
      fst (Main.battery_logic button fuel
             (World (TICKS_PERIOD - 2000) (Main.boot (TICKS_PERIOD - 62000)) []))
      = Starved).
Proof.
  split; [vm_compute; reflexivity |].
  split; [vm_compute; reflexivity |].
  split.
  { intros H.
    pose (r := Main.battery_logic (fun _ => false) 51
                 (World 60000 (Main.boot 0) [])).
    assert (E : r = (Exited, snd r)) by (vm_compute; reflexivity).
    specialize (H (fun _ => false) 51%nat (World 60000 (Main.boot 0) []) (snd r)
                  eq_refl E).
    vm_compute in H. discriminate H. }
  split; [reflexivity |]. split; [reflexivity |].
  split; intros button fuel.
  - rewrite Bouncer_battery_logic_eq.
    change (band_of _) with CRITICAL. cbv iota.
    apply Bouncer_shutdown_stuck. vm_compute. discriminate.
  - rewrite Main_battery_logic_eq.
    change (band_of _) with CRITICAL. cbv iota.
    apply Main_shutdown_stuck. vm_compute. discriminate.
Qed.

(* ===================================================================== *)
(** ** Negative clock deltas (C8) *)
(* ===================================================================== *)

(** C8 (amended): neither program clamps.  When the delta read in a cycle
    is negative it enters the work time as it is: the work time computed is
    lower than the banked time (in [main.py]: lower than minus the paused
    time), and the decision returned is the one of that lowered value. *)
Theorem signed_delta :
  (forall button fuel (w w' : world Bouncer.globals) d,
      Bouncer.check_status button fuel w = (Val d, w') ->
      ticks_diff (ticks_of (clock w')) (Bouncer.session_start_time (vars w')) < 0 ->
      let t := Bouncer.work_accumulated_time (vars w')
               + ticks_diff (ticks_of (clock w'))
                            (Bouncer.session_start_time (vars w')) in
      t < Bouncer.work_accumulated_time (vars w') /\
      d = decision_of (band_of t)) /\
  (forall button fuel (w w' : world Main.globals) d,
      Main.check_battery_and_get_speed button fuel w = (Val d, w') ->
      ticks_diff (ticks_of (clock w')) (Main.start_time (vars w')) < 0 ->
      let t := ticks_diff (ticks_of (clock w')) (Main.start_time (vars w'))
               - Main.total_paused_time (vars w') in
      t < - Main.total_paused_time (vars w') /\
      d = decision_of (band_of t)).
Proof.
  split; intros button fuel w w' d E N t.
  - split; [unfold t; lia |].
    exact (proj2 (Bouncer_returns button fuel w w' d E)).
  - split; [unfold t; lia |].
    exact (proj2 (Main_returns button fuel w w' d E)).
Qed.

(** C8 on a clock that reads 0 with a session started at 10000 and 50 s
    banked: the delta is -10000 and the decision is the one of 40 s. *)
Lemma signed_delta_witness :
  exists d w',
    Bouncer.check_status (fun _ => false) 1
      (World 0 (Bouncer.Globals false 50000 10000 0 0) []) = (Val d, w') /\
    ticks_diff (ticks_of (clock w')) (Bouncer.session_start_time (vars w'))
    = -10000 /\
    d = decision_of (band_of 40000).
Proof.
  eexists. eexists. split; [reflexivity |]. split; [reflexivity |].
  apply (proj1 signed_delta (fun _ => false) 1%nat
           (World 0 (Bouncer.Globals false 50000 10000 0 0) []) _ _ eq_refl).
  reflexivity.
Defined.

(** C8 as stated fails: with 50 s banked and a delta of -10000 ms the
    program returns (0.5, False), the NORMAL decision of 40 s, where a
    zero-length duration would give the DEGRADED decision of 50 s. *)
Lemma negative_delta_counterexample :
  ~ negative_delta_is_zero /\
  Bouncer.check_status (fun _ => false) 1
    (World 0 (Bouncer.Globals false 50000 10000 0 0) [])
  = (Val (0.5%Q, false), World 0 (Bouncer.Globals false 50000 10000 0 0) []) /\
  decision_of (band_of (clamped_total 0 (Bouncer.Globals false 50000 10000 0 0)))
  = (0.25%Q, true).
Proof.
  split; [| split; reflexivity].
  intros H.
  specialize (H (fun _ => false) 1%nat
                (World 0 (Bouncer.Globals false 50000 10000 0 0) []) _ _ eq_refl).
  vm_compute in H. discriminate H.
Qed.

(* ===================================================================== *)
(** ** The hold check, poll by poll (C6, C10) *)
(* ===================================================================== *)

Section Hold.

Variable button : Z -> bool.

(** A poll that reads the pin released clears the press start. *)
Lemma Bouncer_poll_released (w : world Bouncer.globals) :
  button (clock w) = false ->
  Bouncer.termination_check button w
  = (Val tt, World (clock w) (Bouncer.set_button_press_start 0 (vars w)) (out w)).
Proof.
  intros Hb. unfold Bouncer.termination_check, bind, button_value.
  rewrite Hb. reflexivity.
Qed.

(** A poll that reads it pressed with no press start on record stores its
    own clock reading. *)
Lemma Bouncer_poll_first (w : world Bouncer.globals) :
  button (clock w) = true ->
  Bouncer.button_press_start (vars w) = 0 ->
  Bouncer.termination_check button w
  = (Val tt, World (clock w)
               (Bouncer.set_button_press_start (ticks_of (clock w)) (vars w))
               (out w)).
Proof.
  intros Hb Hs. unfold Bouncer.termination_check, bind, button_value, gets.
  rewrite Hb, Hs. reflexivity.
Qed.

(** A poll that reads it pressed up to 3000 ms after the recorded start
    changes nothing. *)
Lemma Bouncer_poll_waiting (w : world Bouncer.globals) :
  button (clock w) = true ->
  Bouncer.button_press_start (vars w) <> 0 ->
  ticks_diff (ticks_of (clock w)) (Bouncer.button_press_start (vars w)) <= 3000 ->
  Bouncer.termination_check button w = (Val tt, w).
Proof.
  intros Hb Hs Hd. unfold Bouncer.termination_check, bind, button_value, gets.
  rewrite Hb. apply Z.eqb_neq in Hs. rewrite Hs. unfold ticks_ms.
  destruct (Z.gtb_spec (ticks_diff (ticks_of (clock w))
                          (Bouncer.button_press_start (vars w))) 3000); [lia |].
  reflexivity.
Qed.

(** A poll that reads it pressed more than 3000 ms after the recorded start
    ends the process. *)
Lemma Bouncer_poll_exits (w : world Bouncer.globals) :
  button (clock w) = true ->
  Bouncer.button_press_start (vars w) <> 0 ->
  3000 < ticks_diff (ticks_of (clock w)) (Bouncer.button_press_start (vars w)) ->
  Bouncer.termination_check button w
  = (Exited, World (clock w) (vars w) (out w ++ termination_trace)).
Proof.
  intros Hb Hs Hd. unfold Bouncer.termination_check.
  unfold bind at 1. unfold button_value at 1. rewrite Hb.
  unfold bind at 1. unfold gets at 1.
  apply Z.eqb_neq in Hs. rewrite Hs.
  unfold bind at 1. unfold ticks_ms at 1.
  destruct (Z.gtb_spec (ticks_diff (ticks_of (clock w))
                          (Bouncer.button_press_start (vars w))) 3000); [| lia].
  cbn. unfold termination_trace. repeat rewrite <- app_assoc. reflexivity.
Qed.

Lemma Main_poll_released (w : world Main.globals) :
  button (clock w) = false ->
  Main.termination_check button w
  = (Val tt, World (clock w) (Main.set_button_hold_start 0 (vars w)) (out w)).
Proof.
  intros Hb. unfold Main.termination_check, bind, button_value.
  rewrite Hb. reflexivity.
Qed.

Lemma Main_poll_first (w : world Main.globals) :
  button (clock w) = true ->
  Main.button_hold_start (vars w) = 0 ->
  Main.termination_check button w
  = (Val tt, World (clock w)
               (Main.set_button_hold_start (ticks_of (clock w)) (vars w))
               (out w)).
Proof.
  intros Hb Hs. unfold Main.termination_check, bind, button_value, gets.
  rewrite Hb, Hs. reflexivity.
Qed.

Lemma Main_poll_waiting (w : world Main.globals) :
  button (clock w) = true ->
  Main.button_hold_start (vars w) <> 0 ->
  ticks_diff (ticks_of (clock w)) (Main.button_hold_start (vars w)) <= 3000 ->
  Main.termination_check button w = (Val tt, w).
Proof.
  intros Hb Hs Hd. unfold Main.termination_check, bind, button_value, gets.
  rewrite Hb. apply Z.eqb_neq in Hs. rewrite Hs. unfold ticks_ms.
  destruct (Z.gtb_spec (ticks_diff (ticks_of (clock w))
                          (Main.button_hold_start (vars w))) 3000); [lia |].
  reflexivity.
Qed.

Lemma Main_poll_exits (w : world Main.globals) :
  button (clock w) = true ->
  Main.button_hold_start (vars w) <> 0 ->
  3000 < ticks_diff (ticks_of (clock w)) (Main.button_hold_start (vars w)) ->
  Main.termination_check button w
  = (Exited, World (clock w) (vars w) (out w ++ termination_trace)).
Proof.
  intros Hb Hs Hd. unfold Main.termination_check.
  unfold bind at 1. unfold button_value at 1. rewrite Hb.
  unfold bind at 1. unfold gets at 1.
  apply Z.eqb_neq in Hs. rewrite Hs.
  unfold bind at 1. unfold ticks_ms at 1.
  destruct (Z.gtb_spec (ticks_diff (ticks_of (clock w))
                          (Main.button_hold_start (vars w))) 3000); [| lia].
  cbn. unfold termination_trace. repeat rewrite <- app_assoc. reflexivity.
Qed.

End Hold.

Section HoldSpan.

Variable button : Z -> bool.

(** Once a press is on record at a non-zero reading, the polls that keep
    seeing the button pressed end the process exactly when one of them
    comes more than 3000 ms after the recorded one. *)
Lemma Bouncer_hold_span (cs : list Z) (c0 : Z) (g : Bouncer.globals) :
  Bouncer.button_press_start g = ticks_of c0 ->
  ticks_of c0 <> 0 ->
  (forall c, In c cs -> button c = true /\ 0 <= c - c0 < TICKS_HALF) ->
  fst (Bouncer_polls button cs g) = Exited <->
  exists c, In c cs /\ 3000 < c - c0.
Proof.
  revert g. induction cs as [| c cs IH]; intros g E N A.
  - cbn. split; [discriminate | intros (c & [] & _)].
  - destruct (A c (or_introl eq_refl)) as [B W].
    assert (D : ticks_diff (ticks_of c) (Bouncer.button_press_start g) = c - c0).
    { rewrite E. apply ticks_diff_of. unfold TICKS_HALF in *. lia. }
    cbn [Bouncer_polls].
    destruct (Z.le_gt_cases (c - c0) 3000) as [L | L].
    + rewrite (Bouncer_poll_waiting button (World c g []) B)
        by (cbn [vars clock]; rewrite ?D, ?E; assumption).
      cbn [vars]. rewrite (IH g E N (fun c' H => A c' (or_intror H))).
      split; intros (c' & H & H').
      * exists c'. split; [now right | exact H'].
      * destruct H as [<- | H]; [lia |]. now exists c'.
    + rewrite (Bouncer_poll_exits button (World c g []) B)
        by (cbn [vars clock]; rewrite ?D, ?E; assumption).
      cbn [fst]. split; [intros _ | reflexivity].
      exists c. split; [now left | lia].
Qed.

Lemma Main_hold_span (cs : list Z) (c0 : Z) (g : Main.globals) :
  Main.button_hold_start g = ticks_of c0 ->
  ticks_of c0 <> 0 ->
  (forall c, In c cs -> button c = true /\ 0 <= c - c0 < TICKS_HALF) ->
  fst (Main_polls button cs g) = Exited <->
  exists c, In c cs /\ 3000 < c - c0.
Proof.
  revert g. induction cs as [| c cs IH]; intros g E N A.
  - cbn. split; [discriminate | intros (c & [] & _)].
  - destruct (A c (or_introl eq_refl)) as [B W].
    assert (D : ticks_diff (ticks_of c) (Main.button_hold_start g) = c - c0).
    { rewrite E. apply ticks_diff_of. unfold TICKS_HALF in *. lia. }
    cbn [Main_polls].
    destruct (Z.le_gt_cases (c - c0) 3000) as [L | L].
    + rewrite (Main_poll_waiting button (World c g []) B)
        by (cbn [vars clock]; rewrite ?D, ?E; assumption).
      cbn [vars]. rewrite (IH g E N (fun c' H => A c' (or_intror H))).
      split; intros (c' & H & H').
      * exists c'. split; [now right | exact H'].
      * destruct H as [<- | H]; [lia |]. now exists c'.
    + rewrite (Main_poll_exits button (World c g []) B)
        by (cbn [vars clock]; rewrite ?D, ?E; assumption).
      cbn [fst]. split; [intros _ | reflexivity].
      exists c. split; [now left | lia].
Qed.

(** A press first seen at a non-zero clock reading [c0] and seen pressed at
    every later poll ends the process exactly at a poll more than 3000 ms
    after [c0]; a poll that sees the button released in between clears the
    record. *)
Lemma Bouncer_hold_from (cs : list Z) (c0 : Z) (g : Bouncer.globals) :
  Bouncer.button_press_start g = 0 ->
  ticks_of c0 <> 0 ->
  button c0 = true ->
  (forall c, In c cs -> button c = true /\ 0 <= c - c0 < TICKS_HALF) ->
  fst (Bouncer_polls button (c0 :: cs) g) = Exited <->
  exists c, In c cs /\ 3000 < c - c0.
Proof.
  intros E N B A. cbn [Bouncer_polls].
  rewrite (Bouncer_poll_first button (World c0 g []) B E). cbn [vars clock].
  apply Bouncer_hold_span; [reflexivity | exact N | exact A].
Qed.

Lemma Main_hold_from (cs : list Z) (c0 : Z) (g : Main.globals) :
  Main.button_hold_start g = 0 ->
  ticks_of c0 <> 0 ->
  button c0 = true ->
  (forall c, In c cs -> button c = true /\ 0 <= c - c0 < TICKS_HALF) ->
  fst (Main_polls button (c0 :: cs) g) = Exited <->
  exists c, In c cs /\ 3000 < c - c0.
Proof.
  intros E N B A. cbn [Main_polls].
  rewrite (Main_poll_first button (World c0 g []) B E). cbn [vars clock].
  apply Main_hold_span; [reflexivity | exact N | exact A].
Qed.

End HoldSpan.

Section RunningCycle.

Variable button : Z -> bool.

(** A cycle that finds the program RUNNING and the button released goes
    straight to the battery step, whatever the fuel. *)
Lemma Bouncer_running_cycle (fuel : nat) (w : world Bouncer.globals) :
  Bouncer.paused (vars w) = false ->
  button (clock w) = false ->
  Bouncer.check_status button fuel w
  = Bouncer.battery_logic button fuel
      (World (clock w) (Bouncer.set_button_press_start 0 (vars w)) (out w)).
Proof.
  intros P B. unfold Bouncer.check_status.
  rewrite (bind_val _ _ _ _ _ (Bouncer_poll_released button w B)).
  unfold Bouncer.pause_handling. unfold bind at 1. unfold bind at 1.
  unfold gets at 1. cbn [vars Bouncer.set_button_press_start Bouncer.paused].
  rewrite P. reflexivity.
Qed.

Lemma Main_running_cycle (fuel : nat) (w : world Main.globals) :
  Main.paused (vars w) = false ->
  button (clock w) = false ->
  Main.check_battery_and_get_speed button fuel w
  = Main.battery_logic button fuel
      (World (clock w) (Main.set_button_hold_start 0 (vars w)) (out w)).
Proof.
  intros P B. unfold Main.check_battery_and_get_speed, Main.pause_handling.
  unfold bind at 1. unfold bind at 1. unfold gets at 1. rewrite P.
  unfold ret at 1.
  rewrite (bind_val _ _ _ _ _ (Main_poll_released button w B)).
  reflexivity.
Qed.

(** Such a cycle returns, and returns the decision of the band, unless the
    band is CRITICAL. *)
Lemma Bouncer_running_cycle_returns (fuel : nat) (w : world Bouncer.globals) :
  Bouncer.paused (vars w) = false ->
  button (clock w) = false ->
  band_of (Bouncer.total_work_ms (ticks_of (clock w)) (vars w)) <> CRITICAL ->
  Bouncer.check_status button fuel w
  = (Val (decision_of
            (band_of (Bouncer.total_work_ms (ticks_of (clock w)) (vars w)))),
     World (clock w) (Bouncer.set_button_press_start 0 (vars w)) (out w)).
Proof.
  intros P B N. rewrite (Bouncer_running_cycle fuel w P B).
  rewrite Bouncer_battery_logic_eq. cbn [clock vars].
  change (Bouncer.total_work_ms (ticks_of (clock w))
            (Bouncer.set_button_press_start 0 (vars w)))
    with (Bouncer.total_work_ms (ticks_of (clock w)) (vars w)).
  destruct (band_of _); [reflexivity | reflexivity | now destruct N].
Qed.

Lemma Main_running_cycle_returns (fuel : nat) (w : world Main.globals) :
  Main.paused (vars w) = false ->
  button (clock w) = false ->
  band_of (Main.elapsed (ticks_of (clock w)) (vars w)) <> CRITICAL ->
  Main.check_battery_and_get_speed button fuel w
  = (Val (decision_of
            (band_of (Main.elapsed (ticks_of (clock w)) (vars w)))),
     World (clock w) (Main.set_button_hold_start 0 (vars w)) (out w)).
Proof.
  intros P B N. rewrite (Main_running_cycle fuel w P B).
  rewrite Main_battery_logic_eq. cbn [clock vars].
  change (Main.elapsed (ticks_of (clock w))
            (Main.set_button_hold_start 0 (vars w)))
    with (Main.elapsed (ticks_of (clock w)) (vars w)).
  destruct (band_of _); [reflexivity | reflexivity | now destruct N].
Qed.

End RunningCycle.

(** C7: the decision of a cycle outside the terminal cases.  The battery
    step of either program, on a work time it reads in the DEGRADED band,
    returns exactly speed 0.25 with the blue override, and on one in the
    NORMAL band exactly speed 0.5 without override, and leaves timers and
    trace as they were.  A cycle that returns a decision has come through
    its first two steps to a world in which the battery step returns that
    decision, so that the decision is the one of the band of the work time
    read there.  A cycle that finds the program RUNNING and the button
    released returns the decision of the band of the work time on entry,
    for every fuel. *)
Theorem decision_by_band :
  (forall button fuel (w : world Bouncer.globals),
      let t := Bouncer.total_work_ms (ticks_of (clock w)) (vars w) in
      (band_of t = DEGRADED ->
       Bouncer.battery_logic button fuel w = (Val (0.25%Q, true), w)) /\
      (band_of t = NORMAL ->
       Bouncer.battery_logic button fuel w = (Val (0.5%Q, false), w))) /\
  (forall button fuel (w : world Main.globals),
      let t := Main.elapsed (ticks_of (clock w)) (vars w) in
      (band_of t = DEGRADED ->
       Main.battery_logic button fuel w = (Val (0.25%Q, true), w)) /\
      (band_of t = NORMAL ->
       Main.battery_logic button fuel w = (Val (0.5%Q, false), w))) /\
  (forall button fuel w d w',
      Bouncer.check_status button fuel w = (Val d, w') ->
      let t := Bouncer.total_work_ms (ticks_of (clock w')) (vars w') in
      (exists w1, Bouncer.termination_check button w = (Val tt, w1) /\
                  Bouncer.pause_handling button fuel w1 = (Val tt, w')) /\
      Bouncer.battery_logic button fuel w' = (Val d, w') /\
      (band_of t = DEGRADED -> d = (0.25%Q, true)) /\
      (band_of t = NORMAL -> d = (0.5%Q, false))) /\
  (forall button fuel w d w',
      Main.check_battery_and_get_speed button fuel w = (Val d, w') ->
      let t := Main.elapsed (ticks_of (clock w')) (vars w') in
      (exists w1, Main.pause_handling button fuel w = (Val tt, w1) /\
                  Main.termination_check button w1 = (Val tt, w')) /\
      Main.battery_logic button fuel w' = (Val d, w') /\
      (band_of t = DEGRADED -> d = (0.25%Q, true)) /\
      (band_of t = NORMAL -> d = (0.5%Q, false))) /\
  (forall button fuel (w : world Bouncer.globals),
      Bouncer.paused (vars w) = false ->
      button (clock w) = false ->
      let t := Bouncer.total_work_ms (ticks_of (clock w)) (vars w) in
      let w' := World (clock w) (Bouncer.set_button_press_start 0 (vars w)) (out w) in
      (band_of t = DEGRADED ->
       Bouncer.check_status button fuel w = (Val (0.25%Q, true), w')) /\
      (band_of t = NORMAL ->
       Bouncer.check_status button fuel w = (Val (0.5%Q, false), w'))) /\
  (forall button fuel (w : world Main.globals),
      Main.paused (vars w) = false ->
      button (clock w) = false ->
      let t := Main.elapsed (ticks_of (clock w)) (vars w) in
      let w' := World (clock w) (Main.set_button_hold_start 0 (vars w)) (out w) in
      (band_of t = DEGRADED ->
       Main.check_battery_and_get_speed button fuel w = (Val (0.25%Q, true), w')) /\
      (band_of t = NORMAL ->
       Main.check_battery_and_get_speed button fuel w = (Val (0.5%Q, false), w'))).
Proof.
  split; [| split; [| split; [| split; [| split]]]].
  - intros button fuel w. apply Bouncer_battery_logic_decides.
  - intros button fuel w. apply Main_battery_logic_decides.
  - intros button fuel w d w' E t.
    destruct (Bouncer_returns_through button fuel w w' d E) as [T L].
    destruct (Bouncer_returns button fuel w w' d E) as [_ D]. fold t in D.
    split; [exact T |]. split; [exact L |].
    split; intros B; rewrite B in D; exact D.
  - intros button fuel w d w' E t.
    destruct (Main_returns_through button fuel w w' d E) as [T L].
    destruct (Main_returns button fuel w w' d E) as [_ D]. fold t in D.
    split; [exact T |]. split; [exact L |].
    split; intros B; rewrite B in D; exact D.
  - intros button fuel w P R t w'. subst t w'.
    split; intros B;
      rewrite (Bouncer_running_cycle_returns button fuel w P R)
        by (rewrite B; discriminate);
      rewrite B; reflexivity.
  - intros button fuel w P R t w'. subst t w'.
    split; intros B;
      rewrite (Main_running_cycle_returns button fuel w P R)
        by (rewrite B; discriminate);
      rewrite B; reflexivity.
Qed.

(** C7 on runs of both programs started at clock 0 with the button
    released.  50 s into the first session the work time is in the
    DEGRADED band: the battery step and the whole cycle of
    [real_wall_bouncer.py] return (0.25, True), and so does the cycle of
    [main.py].  10 s into it the band is NORMAL and both cycles return
    (0.5, False). *)
Lemma decision_by_band_witness :
  Bouncer.battery_logic (fun _ => false) 1 (World 50000 (Bouncer.boot 0) [])
  = (Val (0.25%Q, true), World 50000 (Bouncer.boot 0) []) /\
  Main.battery_logic (fun _ => false) 1 (World 10000 (Main.boot 0) [])
  = (Val (0.5%Q, false), World 10000 (Main.boot 0) []) /\
  Bouncer.check_status (fun _ => false) 1 (World 50000 (Bouncer.boot 0) [])
  = (Val (0.25%Q, true), World 50000 (Bouncer.boot 0) []) /\
  Bouncer.check_status (fun _ => false) 1 (World 10000 (Bouncer.boot 0) [])
  = (Val (0.5%Q, false), World 10000 (Bouncer.boot 0) []) /\
  Main.check_battery_and_get_speed (fun _ => false) 1 (World 50000 (Main.boot 0) [])
  = (Val (0.25%Q, true), World 50000 (Main.boot 0) []) /\
  Main.check_battery_and_get_speed (fun _ => false) 1 (World 10000 (Main.boot 0) [])
  = (Val (0.5%Q, false), World 10000 (Main.boot 0) []) /\
  (exists d w',
      Bouncer.check_status (fun _ => false) 1 (World 50000 (Bouncer.boot 0) [])
      = (Val d, w') /\
      band_of (Bouncer.total_work_ms (ticks_of (clock w')) (vars w')) = DEGRADED /\
      d = (0.25%Q, true)) /\
  (exists d w',
      Main.check_battery_and_get_speed (fun _ => false) 1
        (World 10000 (Main.boot 0) [])
      = (Val d, w') /\
      band_of (Main.elapsed (ticks_of (clock w')) (vars w')) = NORMAL /\
      d = (0.5%Q, false)).
Proof.
  destruct decision_by_band as (B1 & M1 & B2 & M2 & B3 & M3).
  split; [| split; [| split; [| split; [| split; [| split; [| split]]]]]].
  - exact (proj1 (B1 (fun _ => false) 1%nat (World 50000 (Bouncer.boot 0) []))
             eq_refl).
  - exact (proj2 (M1 (fun _ => false) 1%nat (World 10000 (Main.boot 0) []))
             eq_refl).
  - exact (proj1 (B3 (fun _ => false) 1%nat (World 50000 (Bouncer.boot 0) [])
                    eq_refl eq_refl) eq_refl).
  - exact (proj2 (B3 (fun _ => false) 1%nat (World 10000 (Bouncer.boot 0) [])
                    eq_refl eq_refl) eq_refl).
  - exact (proj1 (M3 (fun _ => false) 1%nat (World 50000 (Main.boot 0) [])
                    eq_refl eq_refl) eq_refl).
  - exact (proj2 (M3 (fun _ => false) 1%nat (World 10000 (Main.boot 0) [])
                    eq_refl eq_refl) eq_refl).
  - eexists. eexists. split; [reflexivity |]. split; [reflexivity |].
    exact (proj1 (proj2 (proj2 (B2 (fun _ => false) 1%nat
                    (World 50000 (Bouncer.boot 0) []) _ _ eq_refl))) eq_refl).
  - eexists. eexists. split; [reflexivity |]. split; [reflexivity |].
    exact (proj2 (proj2 (proj2 (M2 (fun _ => false) 1%nat
                    (World 10000 (Main.boot 0) []) _ _ eq_refl))) eq_refl).
Defined.

(** C10 (amended): a poll that first sees the button pressed while the
    clock reads exactly 0 records 0, which is the "no press" value; the next
    poll that sees it pressed therefore records its own clock reading, and
    the hold is timed from that poll: a later poll more than 3000 ms after
    it ends the process.  The press start travels from poll to poll
    untouched, which the hypotheses on [w1] and [w2] say. *)
Theorem sentinel_delays_hold :
  (forall button (w0 w1 w2 : world Bouncer.globals),
      button (clock w0) = true ->
      button (clock w1) = true ->
      button (clock w2) = true ->
      ticks_of (clock w0) = 0 ->
      Bouncer.button_press_start (vars w0) = 0 ->
      Bouncer.button_press_start (vars w1)
      = Bouncer.button_press_start
          (vars (snd (Bouncer.termination_check button w0))) ->
      ticks_of (clock w1) <> 0 ->
      Bouncer.button_press_start (vars w2)
      = Bouncer.button_press_start
          (vars (snd (Bouncer.termination_check button w1))) ->
      3000 < ticks_diff (ticks_of (clock w2)) (ticks_of (clock w1)) ->
      Bouncer.button_press_start
        (vars (snd (Bouncer.termination_check button w0))) = 0 /\
      Bouncer.button_press_start
        (vars (snd (Bouncer.termination_check button w1))) = ticks_of (clock w1) /\
      forall fuel,
        Bouncer.check_status button fuel w2
        = (Exited, World (clock w2) (vars w2) (out w2 ++ termination_trace))) /\
  (forall button (w0 w1 w2 : world Main.globals),
      button (clock w0) = true ->
      button (clock w1) = true ->
      button (clock w2) = true ->
      ticks_of (clock w0) = 0 ->
      Main.button_hold_start (vars w0) = 0 ->
      Main.button_hold_start (vars w1)
      = Main.button_hold_start
          (vars (snd (Main.termination_check button w0))) ->
      ticks_of (clock w1) <> 0 ->
      Main.button_hold_start (vars w2)
      = Main.button_hold_start
          (vars (snd (Main.termination_check button w1))) ->
      3000 < ticks_diff (ticks_of (clock w2)) (ticks_of (clock w1)) ->
      Main.button_hold_start
        (vars (snd (Main.termination_check button w0))) = 0 /\
      Main.button_hold_start
        (vars (snd (Main.termination_check button w1))) = ticks_of (clock w1) /\
      Main.termination_check button w2
      = (Exited, World (clock w2) (vars w2) (out w2 ++ termination_trace))).
Proof.
  split; intros button w0 w1 w2 B0 B1 B2 Z0 S0 C1 N1 C2 D.
  - rewrite (Bouncer_poll_first button w0 B0 S0) in *. cbn [snd vars] in *.
    unfold Bouncer.set_button_press_start in C1 at 1.
    cbn [Bouncer.button_press_start] in C1. rewrite Z0 in C1.
    rewrite (Bouncer_poll_first button w1 B1 C1) in *. cbn [snd vars] in *.
    unfold Bouncer.set_button_press_start in C2 at 1.
    cbn [Bouncer.button_press_start] in C2.
    split; [now rewrite Z0 |]. split; [reflexivity |].
    intros fuel. apply Bouncer_hold_terminates; rewrite ?C2; assumption.
  - rewrite (Main_poll_first button w0 B0 S0) in *. cbn [snd vars] in *.
    unfold Main.set_button_hold_start in C1 at 1.
    cbn [Main.button_hold_start] in C1. rewrite Z0 in C1.
    rewrite (Main_poll_first button w1 B1 C1) in *. cbn [snd vars] in *.
    unfold Main.set_button_hold_start in C2 at 1.
    cbn [Main.button_hold_start] in C2.
    split; [now rewrite Z0 |]. split; [reflexivity |].
    apply Main_poll_exits; rewrite ?C2; assumption.
Qed.

(** C10 on polls at 0 ms, 50 ms and 3051 ms of a button held throughout:
    the third one ends the process. *)
Lemma sentinel_delays_hold_witness :
  Bouncer.check_status (fun _ => true) 0
    (World 3051 (Bouncer.Globals false 0 0 0 50) [])
  = (Exited, World 3051 (Bouncer.Globals false 0 0 0 50) termination_trace).
Proof.
  exact (proj2 (proj2 (proj1 sentinel_delays_hold (fun _ => true)
                         (World 0 (Bouncer.boot 0) [])
                         (World 50 (Bouncer.boot 0) [])
                         (World 3051 (Bouncer.Globals false 0 0 0 50) [])
                         eq_refl eq_refl eq_refl eq_refl eq_refl eq_refl
                         ltac:(discriminate) eq_refl eq_refl)) 0%nat).
Defined.

(** C10 as stated fails: held from clock reading 0 and polled every 50 ms,
    the button ends the process at the poll of 3100 ms, the first one more
    than 3000 ms after the poll of 50 ms that recorded the press. *)
Lemma sentinel_counterexample :
  ~ sentinel_blocks_termination /\
  fst (Bouncer_cycles (fun _ => true) 0 (repeat 50%nat 62)
         (World 0 (Bouncer.boot 0) [])) = Val tt /\
  fst (Bouncer_cycles (fun _ => true) 0 (repeat 50%nat 63)
         (World 0 (Bouncer.boot 0) [])) = Exited.
Proof.
  split; [| split; vm_compute; reflexivity].
  intros H. apply (H 0%nat (repeat 50%nat 63)). vm_compute. reflexivity.
Qed.

(** C6 at the failing input: with the button held from clock reading 0 and
    polled at 0 ms and at 3001 ms, neither program ends the process at
    3001 ms: the second poll finds 0 on record, takes it for no press and
    records 3001.  The same hold seen first at clock reading 1 ends the
    process at the poll 3001 ms later. *)
Theorem hold_from_clock_zero :
  Bouncer_cycles (fun _ => true) 0 [3001%nat; 0%nat] (World 0 (Bouncer.boot 0) [])
  = (Val tt, World 3001 (Bouncer.Globals false 0 0 0 3001)
               [Sleep 3001; Sleep 0]) /\
  fst (Bouncer_cycles (fun _ => true) 0 [3001%nat; 0%nat]
         (World 1 (Bouncer.boot 1) [])) = Exited /\
  Main_cycles (fun _ => true) 0 [3001%nat; 0%nat] (World 0 (Main.boot 0) [])
  = (Val tt, World 3001 (Main.Globals false 0 0 0 3001 0)
               [Sleep 3001; Sleep 0]) /\
  fst (Main_cycles (fun _ => true) 0 [3001%nat; 0%nat]
         (World 1 (Main.boot 1) [])) = Exited.
Proof.
  repeat split; vm_compute; reflexivity.
Qed.

(* ===================================================================== *)
(** ** The work time across pauses (C4) *)
(* ===================================================================== *)

Lemma timeline_le (t t' : Z) (edges : list Z) : timeline t edges t' -> t <= t'.
Proof.
  revert t. induction edges as [| e es IH]; intros t H; cbn in H; [exact H |].
  destruct H as [H1 H2]. apply IH in H2. lia.
Qed.

Lemma timeline_app (t u t' : Z) (es1 es2 : list Z) :
  timeline t es1 u -> timeline u es2 t' -> timeline t (es1 ++ es2) t'.
Proof.
  revert t. induction es1 as [| e es IH]; intros t H1 H2; cbn in *.
  - destruct es2 as [| e2 es2]; cbn in *; [lia |].
    destruct H2 as [H2 H3]. split; [lia | exact H3].
  - destruct H1 as [H1 H1']. split; [exact H1 | now apply IH].
Qed.



(** *** real_wall_bouncer.py *)






(** *** main.py *)











(* ===================================================================== *)
(** ** Sleeping through button edges *)
(* ===================================================================== *)

Section SleepFacts.

Context {G : Type}.
Variable button : Z -> bool.
Variable irq : Z -> G -> G.

(** Edges that the handler ignores leave the variables alone. *)
Lemma iter_tick_stable (n : nat) (w : world G) :
  (forall t, clock w < t <= clock w + Z.of_nat n -> rising button t = true ->
             irq (ticks_of t) (vars w) = vars w) ->
  vars (Nat.iter n (tick button irq) w) = vars w.
Proof.
  induction n as [| n IH]; intros Q; [reflexivity |].
  rewrite Nat.iter_succ. unfold tick at 1. cbn [vars].
  rewrite iter_tick_clock.
  assert (V : vars (Nat.iter n (tick button irq) w) = vars w)
    by (apply IH; intros t Ht; apply Q; lia).
  rewrite V. destruct (rising button (clock w + Z.of_nat n + 1)) eqn:R;
    [| reflexivity].
  apply Q; [lia | exact R].
Qed.

Lemma iter_tick_world (n : nat) (w : world G) :
  Nat.iter n (tick button irq) w
  = World (clock w + Z.of_nat n) (vars (Nat.iter n (tick button irq) w)) (out w).
Proof.
  pose proof (iter_tick_clock button irq n w) as C.
  pose proof (iter_tick_out button irq n w) as O.
  destruct (Nat.iter n (tick button irq) w) as [c g o].
  cbn [clock out vars] in *. now subst.
Qed.

Lemma sleep_stable (ms : nat) (w : world G) :
  (forall t, clock w < t <= clock w + Z.of_nat ms -> rising button t = true ->
             irq (ticks_of t) (vars w) = vars w) ->
  sleep button irq ms w
  = (Val tt, World (clock w + Z.of_nat ms) (vars w) (out w ++ [Sleep ms])).
Proof.
  intros Q. unfold sleep. rewrite iter_tick_world. cbn [clock out].
  rewrite iter_tick_stable by exact Q. reflexivity.
Qed.

(** Time passing over one edge that the handler acts on: whatever edges
    follow, if the handler ignores them, the variables are those the
    handler left at that edge. *)
Lemma iter_tick_one_edge (n : nat) (w : world G) (e : Z) :
  clock w < e <= clock w + Z.of_nat n ->
  (forall t, clock w < t < e -> rising button t = false) ->
  rising button e = true ->
  (forall t, e < t <= clock w + Z.of_nat n -> rising button t = true ->
             irq (ticks_of t) (irq (ticks_of e) (vars w))
             = irq (ticks_of e) (vars w)) ->
  Nat.iter n (tick button irq) w
  = World (clock w + Z.of_nat n) (irq (ticks_of e) (vars w)) (out w).
Proof.
  intros He Q R S.
  set (a := Z.to_nat (e - clock w - 1)).
  set (b := Z.to_nat (clock w + Z.of_nat n - e)).
  assert (N : n = (b + (1 + a))%nat) by lia.
  rewrite iter_tick_world. f_equal.
  rewrite N. rewrite Nat.iter_add. rewrite Nat.iter_add.
  assert (E1 : Nat.iter a (tick button irq) w = World (e - 1) (vars w) (out w)).
  { rewrite iter_tick_world. f_equal; [lia |].
    apply iter_tick_quiet. intros t Ht. apply Q. lia. }
  rewrite E1.
  change (Nat.iter 1 (tick button irq) (World (e - 1) (vars w) (out w)))
    with (tick button irq (World (e - 1) (vars w) (out w))).
  unfold tick at 2. cbn [clock vars out].
  replace (e - 1 + 1) with e by lia. rewrite R.
  apply iter_tick_stable. cbn [clock vars]. intros t Ht. apply S. lia.
Qed.

Lemma sleep_one_edge (ms : nat) (w : world G) (e : Z) :
  clock w < e <= clock w + Z.of_nat ms ->
  (forall t, clock w < t < e -> rising button t = false) ->
  rising button e = true ->
  (forall t, e < t <= clock w + Z.of_nat ms -> rising button t = true ->
             irq (ticks_of t) (irq (ticks_of e) (vars w))
             = irq (ticks_of e) (vars w)) ->
  sleep button irq ms w
  = (Val tt, World (clock w + Z.of_nat ms) (irq (ticks_of e) (vars w))
               (out w ++ [Sleep ms])).
Proof.
  intros He Q R S. unfold sleep.
  rewrite (iter_tick_one_edge ms _ e); cbn [clock vars out]; auto.
Qed.

End SleepFacts.

(* ===================================================================== *)
(** ** Leaving the pause loop *)
(* ===================================================================== *)

(** Contact bounce: an edge up to 300 ms after an accepted one is thrown
    away by the handler. *)
Lemma Bouncer_bounce_rejected (e t : Z) (g : Bouncer.globals) :
  300 < ticks_diff (ticks_of e) (Bouncer.last_button_time g) ->
  0 <= t - e <= 300 ->
  Bouncer.toggle_pause_irq (ticks_of t) (Bouncer.toggle_pause_irq (ticks_of e) g)
  = Bouncer.toggle_pause_irq (ticks_of e) g.
Proof.
  intros A B. apply Bouncer_toggle_rejected.
  rewrite (proj2 (Bouncer_toggle_accepted (ticks_of e) g A)).
  rewrite ticks_diff_of; unfold TICKS_HALF; lia.
Qed.

Lemma Main_bounce_rejected (e t : Z) (g : Main.globals) :
  300 < ticks_diff (ticks_of e) (Main.last_button_time g) ->
  0 <= t - e <= 300 ->
  Main.toggle_pause (ticks_of t) (Main.toggle_pause (ticks_of e) g)
  = Main.toggle_pause (ticks_of e) g.
Proof.
  intros A B. apply Main_toggle_rejected.
  rewrite (proj2 (Main_toggle_accepted (ticks_of e) g A)).
  rewrite ticks_diff_of; unfold TICKS_HALF; lia.
Qed.

Section Resume.

Variable button : Z -> bool.

(** The breathing loop of [main.py] with the resuming edge in its pass
    number [n + 1]: it ends with that pass. *)
Lemma Main_breathing_resume (e : Z) (n : nat) :
  forall (fuel : nat) (duty direction : Z) (w : world Main.globals),
    Main.paused (vars w) = true ->
    300 < ticks_diff (ticks_of e) (Main.last_button_time (vars w)) ->
    rising button e = true ->
    (forall t, clock w < t < e -> rising button t = false) ->
    clock w + 10 * Z.of_nat n < e <= clock w + 10 * (Z.of_nat n + 1) ->
    (n + 1 < fuel)%nat ->
    exists ds,
      List.length ds = S n /\
      Main.breathing button fuel duty direction w
      = (Val tt,
         World (clock w + 10 * (Z.of_nat n + 1))
               (Main.toggle_pause (ticks_of e) (vars w))
               (out w ++ flat_map (fun d => [Green d; Sleep 10]) ds)).
Proof.
  induction n as [| n IH]; intros fuel duty direction w P A R Q He Hf.
  - destruct fuel as [| [| fuel]]; [lia | lia |].
    cbn [Main.breathing]. unfold bind at 1. unfold gets at 1. rewrite P.
    cbv zeta.
    set (duty2 := if duty + 2000 * direction >=? 65535 then 65535
                  else if duty + 2000 * direction <=? 0 then 0
                       else duty + 2000 * direction).
    unfold bind at 1. unfold emit at 1. unfold bind at 1.
    rewrite (sleep_one_edge button Main.toggle_pause 10 _ e);
      cbn [clock vars out]; try lia; try assumption.
    + unfold bind at 1. unfold gets at 1. cbn [vars].
      rewrite (proj1 (Main_toggle_accepted (ticks_of e) (vars w) A)), P.
      cbn [negb]. exists [duty2]. split; [reflexivity |].
      unfold ret. cbn [flat_map]. rewrite <- app_assoc. cbn [app].
      f_equal; f_equal; lia.
    + intros t Ht _. apply Main_bounce_rejected; [exact A | lia].
  - destruct fuel as [| fuel]; [lia |].
    cbn [Main.breathing]. unfold bind at 1. unfold gets at 1. rewrite P.
    cbv zeta.
    set (duty2 := if duty + 2000 * direction >=? 65535 then 65535
                  else if duty + 2000 * direction <=? 0 then 0
                       else duty + 2000 * direction).
    set (dir2 := if duty + 2000 * direction >=? 65535 then -1
                 else if duty + 2000 * direction <=? 0 then 1 else direction).
    unfold bind at 1. unfold emit at 1. unfold bind at 1.
    rewrite (sleep_stable button Main.toggle_pause 10);
      cbn [clock vars out].
    + destruct (IH fuel duty2 dir2
                  (World (clock w + Z.of_nat 10) (vars w)
                         ((out w ++ [Green duty2]) ++ [Sleep 10])))
        as (ds & L & E); cbn [clock vars out]; try assumption; try lia.
      * intros t Ht. apply Q. lia.
      * exists (duty2 :: ds). split; [cbn; now rewrite L |].
        cbn [clock vars out] in E. rewrite E. cbn [flat_map].
        f_equal. f_equal; [lia |].
        repeat rewrite <- app_assoc. reflexivity.
    + intros t Ht Rt. rewrite Q in Rt by lia. discriminate Rt.
Qed.

(** The pause block with the resuming edge ahead: it returns in the 10 ms
    step the edge falls in. *)
Lemma Main_pause_block_resume (fuel : nat) (w : world Main.globals) (e : Z) :
  Main.paused (vars w) = true ->
  300 < ticks_diff (ticks_of e) (Main.last_button_time (vars w)) ->
  rising button e = true ->
  (forall t, clock w < t < e -> rising button t = false) ->
  clock w < e <= clock w + 10 * (Z.of_nat fuel - 1) ->
  exists w' ds,
    Main.pause_handling button fuel w = (Val tt, w') /\
    e <= clock w' < e + 10 /\
    vars w' = Main.toggle_pause (ticks_of e) (vars w) /\
    Main.paused (vars w') = false /\
    out w' = out w ++ pause_entry
                   ++ flat_map (fun d => [Green d; Sleep 10]) ds
                   ++ [Console ">>> RESUMING"; Green 0].
Proof.
  intros P A R Q He.
  set (n := Z.to_nat ((e - clock w - 1) / 10)).
  assert (Hn : clock w + 10 * Z.of_nat n < e <= clock w + 10 * (Z.of_nat n + 1)).
  { unfold n. rewrite Z2Nat.id by (apply Z.div_pos; lia).
    pose proof (Z.div_mod (e - clock w - 1) 10 ltac:(lia)) as D.
    pose proof (Z.mod_pos_bound (e - clock w - 1) 10 ltac:(lia)) as M. lia. }
  assert (Hf : (n + 1 < fuel)%nat).
  { assert (Z.of_nat n < Z.of_nat fuel - 1); [| lia].
    unfold n. rewrite Z2Nat.id by (apply Z.div_pos; lia).
    apply Z.div_lt_upper_bound; lia. }
  unfold Main.pause_handling.
  unfold bind at 1. unfold gets at 1. rewrite P.
  cbn [bind print dmd_stop set_leds emit clock vars out].
  unfold bind.
  match goal with
  | |- context [Main.breathing button fuel 0 1 ?w1] =>
      destruct (Main_breathing_resume e n fuel 0 1 w1) as (ds & L & E);
        cbn [clock vars out]; try assumption
  end.
  rewrite E. cbn [print emit clock vars out].
  eexists. exists ds. split; [reflexivity |]. cbn [clock vars out].
  split; [lia |]. split; [reflexivity |].
  split; [now rewrite (proj1 (Main_toggle_accepted (ticks_of e) (vars w) A)), P |].
  unfold pause_entry. repeat rewrite <- app_assoc. reflexivity.
Qed.

(** In [main.py] the pause block is left within 10 ms of the button edge
    that resumes: the edge is seen at the end of the 10 ms sleep it falls
    in, the loop ends there, and the green LED is switched off.  Until then
    the block has written nothing but green duties and 10 ms sleeps. *)
Theorem Main_resume_within_a_tick (fuel : nat) (w : world Main.globals) (e : Z) :
  Main.paused (vars w) = true ->
  300 < ticks_diff (ticks_of e) (Main.last_button_time (vars w)) ->
  rising button e = true ->
  (forall t, clock w < t < e -> rising button t = false) ->
  clock w < e <= clock w + 10 * (Z.of_nat fuel - 1) ->
  exists c' ds,
    e <= c' < e + 10 /\
    Main.paused (Main.toggle_pause (ticks_of e) (vars w)) = false /\
    Main.pause_handling button fuel w
    = (Val tt,
       World c' (Main.toggle_pause (ticks_of e) (vars w))
             (out w ++ pause_entry
                    ++ flat_map breathing_step ds
                    ++ [Console ">>> RESUMING"; Green 0])).
Proof.
  intros P A R Q He.
  destruct (Main_pause_block_resume fuel w e P A R Q He)
    as ([c g o] & ds & E & C & V & P2 & O).
  cbn [clock vars out] in C, V, P2, O. subst g o.
  exists c, ds. repeat split; [lia | lia | exact P2 | exact E].
Qed.

End Resume.

(** [Main_resume_within_a_tick] on a pause block entered at 985 ms with the
    button pressed at 1000 ms: the block returns at 1005 ms. *)
Lemma Main_resume_within_a_tick_witness :
  exists c' ds,
    1000 <= c' < 1000 + 10 /\
    Main.paused (Main.toggle_pause (ticks_of 1000) (Main.Globals true 0 0 500 0 0)) = false /\
    Main.pause_handling (fun t => 1000 <=? t) 5 (World 985 (Main.Globals true 0 0 500 0 0) [])
    = (Val tt,
       World c' (Main.toggle_pause (ticks_of 1000) (Main.Globals true 0 0 500 0 0))
             ([] ++ pause_entry
                 ++ flat_map breathing_step ds
                 ++ [Console ">>> RESUMING"; Green 0])).
Proof.
  apply (Main_resume_within_a_tick (fun t => 1000 <=? t) 5
           (World 985 (Main.Globals true 0 0 500 0 0) []) 1000).
  - reflexivity.
  - reflexivity.
  - reflexivity.
  - cbn [clock]. intros t Ht. unfold rising.
    apply andb_false_intro2. apply Z.leb_gt. lia.
  - cbn [clock]. lia.
Defined.

Section ResumeBouncer.

Variable button : Z -> bool.

(** A [for] loop of the animation entered while RUNNING breaks at once. *)
Lemma Bouncer_fade_running (duties : list Z) (w : world Bouncer.globals) :
  Bouncer.paused (vars w) = false ->
  Bouncer.fade button duties w = (Val tt, w).
Proof.
  intros P. destruct duties as [| d ds]; [reflexivity |].
  cbn [Bouncer.fade]. unfold bind at 1. unfold gets at 1. rewrite P.
  reflexivity.
Qed.

(** A [for] loop that no edge interrupts writes all its duties. *)
Lemma Bouncer_fade_quiet (duties : list Z) :
  forall w : world Bouncer.globals,
    Bouncer.paused (vars w) = true ->
    (forall t, clock w < t <= clock w + 10 * Z.of_nat (List.length duties) ->
               rising button t = false) ->
    Bouncer.fade button duties w
    = (Val tt,
       World (clock w + 10 * Z.of_nat (List.length duties)) (vars w)
             (out w ++ flat_map (fun d => [Green d; Sleep 10]) duties)).
Proof.
  induction duties as [| d ds IH]; intros w P Q.
  - cbn. unfold ret. destruct w as [c g o]. cbn [clock vars out].
    rewrite app_nil_r. f_equal. f_equal. lia.
  - cbn [Bouncer.fade]. unfold bind at 1. unfold gets at 1. rewrite P.
    cbn [negb]. unfold bind at 1. unfold emit at 1. unfold bind at 1.
    rewrite (sleep_stable button Bouncer.toggle_pause_irq 10);
      cbn [clock vars out].
    + rewrite IH; cbn [clock vars out]; try assumption.
      * cbn [flat_map List.length]. f_equal. f_equal; [lia |].
        repeat rewrite <- app_assoc. reflexivity.
      * intros t Ht. apply Q. cbn [List.length]. lia.
    + intros t Ht Rt. rewrite Q in Rt by (cbn [List.length]; lia).
      discriminate Rt.
Qed.

(** A [for] loop with the resuming edge in its step number [n + 1] breaks
    after that step. *)
Lemma Bouncer_fade_resume (e : Z) (duties : list Z) :
  forall (n : nat) (w : world Bouncer.globals),
    Bouncer.paused (vars w) = true ->
    300 < ticks_diff (ticks_of e) (Bouncer.last_button_time (vars w)) ->
    rising button e = true ->
    (forall t, clock w < t < e -> rising button t = false) ->
    clock w + 10 * Z.of_nat n < e <= clock w + 10 * (Z.of_nat n + 1) ->
    (n < List.length duties)%nat ->
    Bouncer.fade button duties w
    = (Val tt,
       World (clock w + 10 * (Z.of_nat n + 1))
             (Bouncer.toggle_pause_irq (ticks_of e) (vars w))
             (out w ++ flat_map (fun d => [Green d; Sleep 10])
                                (firstn (S n) duties))).
Proof.
  induction duties as [| d ds IH]; intros n w P A R Q He Hn;
    [cbn in Hn; lia |].
  cbn [Bouncer.fade]. unfold bind at 1. unfold gets at 1. rewrite P.
  cbn [negb]. unfold bind at 1. unfold emit at 1. unfold bind at 1.
  destruct n as [| n].
  - rewrite (sleep_one_edge button Bouncer.toggle_pause_irq 10 _ e);
      cbn [clock vars out]; try lia; try assumption.
    + rewrite Bouncer_fade_running
        by (cbn [vars];
            now rewrite (proj1 (Bouncer_toggle_accepted (ticks_of e) (vars w) A)), P).
      cbn [firstn flat_map]. rewrite app_nil_r, <- app_assoc. cbn [app].
      f_equal; f_equal; lia.
    + intros t Ht _. apply Bouncer_bounce_rejected; [exact A | lia].
  - rewrite (sleep_stable button Bouncer.toggle_pause_irq 10);
      cbn [clock vars out].
    + rewrite (IH n); cbn [clock vars out]; try assumption; try lia.
      * cbn [firstn flat_map]. f_equal. f_equal; [lia |].
        repeat rewrite <- app_assoc. reflexivity.
      * intros t Ht. apply Q. lia.
      * cbn [List.length] in Hn. lia.
    + intros t Ht Rt. rewrite Q in Rt by lia. discriminate Rt.
Qed.

End ResumeBouncer.

(** The 10 ms step an instant falls in. *)
Lemma step_of_instant (c e period : Z) :
  0 < period -> c < e ->
  exists n : nat,
    c + period * Z.of_nat n < e <= c + period * (Z.of_nat n + 1).
Proof.
  intros Hp He. exists (Z.to_nat ((e - c - 1) / period)).
  rewrite Z2Nat.id by (apply Z.div_pos; lia).
  pose proof (Z.div_mod (e - c - 1) period ltac:(lia)) as D.
  pose proof (Z.mod_pos_bound (e - c - 1) period Hp) as M. nia.
Qed.

Section ResumeBouncerLoop.

Variable button : Z -> bool.

(** The breathing loop of [real_wall_bouncer.py] with the resuming edge in
    its pass number [q + 1] (a pass is a fade in and a fade out, 660 ms):
    it ends with the 10 ms step the edge falls in. *)
Lemma Bouncer_breathing_resume (e : Z) (q : nat) :
  forall (fuel : nat) (w : world Bouncer.globals),
    Bouncer.paused (vars w) = true ->
    300 < ticks_diff (ticks_of e) (Bouncer.last_button_time (vars w)) ->
    rising button e = true ->
    (forall t, clock w < t < e -> rising button t = false) ->
    clock w + 660 * Z.of_nat q < e <= clock w + 660 * (Z.of_nat q + 1) ->
    (q + 1 < fuel)%nat ->
    exists c' ds,
      e <= c' < e + 10 /\
      Bouncer.breathing button fuel w
      = (Val tt,
         World c' (Bouncer.toggle_pause_irq (ticks_of e) (vars w))
               (out w ++ flat_map (fun d => [Green d; Sleep 10]) ds)).
Proof.
  induction q as [| q IH]; intros fuel w P A R Q He Hf;
    (destruct fuel as [| fuel]; [lia |]);
    cbn [Bouncer.breathing];
    set (up := py_range 0 Bouncer.DUTY_MAX Bouncer.FADE_STEP);
    set (down := py_range Bouncer.DUTY_MAX 0 (- Bouncer.FADE_STEP));
    assert (Lu : List.length up = 33%nat) by reflexivity;
    assert (Ld : List.length down = 33%nat) by reflexivity;
    unfold bind at 1; unfold gets at 1; rewrite P.
  - destruct fuel as [| fuel]; [lia |].
    assert (P' : Bouncer.paused (Bouncer.toggle_pause_irq (ticks_of e) (vars w))
                 = false)
      by now rewrite (proj1 (Bouncer_toggle_accepted (ticks_of e) (vars w) A)), P.
    destruct (Z.le_gt_cases e (clock w + 330)) as [C | C].
    + destruct (step_of_instant (clock w) e 10 ltac:(lia) ltac:(lia)) as (n & Hn).
      rewrite (bind_val _ _ _ _ _
                 (Bouncer_fade_resume button e up n w P A R Q Hn ltac:(lia))).
      rewrite (bind_val _ _ _ _ _ (Bouncer_fade_running button down (World _ _ _) P')).
      cbn [Bouncer.breathing]. unfold bind at 1. unfold gets at 1.
      cbn [vars]. rewrite P'.
      exists (clock w + 10 * (Z.of_nat n + 1)), (firstn (S n) up).
      split; [lia | reflexivity].
    + rewrite (bind_val _ _ _ _ _ (Bouncer_fade_quiet button up w P
                 ltac:(intros t Ht; apply Q; lia))).
      rewrite Lu.
      destruct (step_of_instant (clock w + 10 * Z.of_nat 33) e 10
                  ltac:(lia) ltac:(lia)) as (n & Hn).
      cbv beta.
      match goal with
      | |- context [bind (Bouncer.fade button down) _ ?w1] =>
          rewrite (bind_val _ _ _ _ _
                     (Bouncer_fade_resume button e down n w1 P A R
                        ltac:(cbn [clock]; intros t Ht; apply Q; lia)
                        Hn ltac:(lia)))
      end.
      cbn [Bouncer.breathing clock vars out]. unfold bind at 1. unfold gets at 1.
      cbn [vars]. rewrite P'.
      exists (clock w + 10 * Z.of_nat 33 + 10 * (Z.of_nat n + 1)),
             (up ++ firstn (S n) down).
      split; [lia |]. unfold ret. rewrite flat_map_app, app_assoc. reflexivity.
  - rewrite (bind_val _ _ _ _ _ (Bouncer_fade_quiet button up w P
               ltac:(intros t Ht; apply Q; lia))).
    cbv beta.
    match goal with
    | |- context [bind (Bouncer.fade button down) _ ?w1] =>
        rewrite (bind_val _ _ _ _ _ (Bouncer_fade_quiet button down w1 P
                   ltac:(cbn [clock]; intros t Ht; apply Q; lia)))
    end.
    rewrite Lu, Ld. cbn [clock vars out].
    destruct (IH fuel
                (World (clock w + 10 * Z.of_nat 33 + 10 * Z.of_nat 33) (vars w)
                   ((out w ++ flat_map (fun d => [Green d; Sleep 10]) up)
                    ++ flat_map (fun d => [Green d; Sleep 10]) down)))
      as (c' & ds & Hc & E); cbn [clock vars out]; try assumption; try lia.
    + intros t Ht. apply Q. lia.
    + exists c', (up ++ down ++ ds). split; [exact Hc |].
      rewrite E. rewrite !flat_map_app, !app_assoc. reflexivity.
Qed.

(** The pause block with the resuming edge ahead: it returns in the 10 ms
    step the edge falls in. *)
Lemma Bouncer_pause_block_resume (fuel : nat) (w : world Bouncer.globals) (e : Z) :
  Bouncer.paused (vars w) = true ->
  300 < ticks_diff (ticks_of e) (Bouncer.last_button_time (vars w)) ->
  rising button e = true ->
  (forall t, clock w < t < e -> rising button t = false) ->
  clock w < e <= clock w + 660 * (Z.of_nat fuel - 1) ->
  exists w' ds,
    Bouncer.pause_handling button fuel w = (Val tt, w') /\
    e <= clock w' < e + 10 /\
    vars w' = Bouncer.toggle_pause_irq (ticks_of e) (vars w) /\
    Bouncer.paused (vars w') = false /\
    out w' = out w ++ pause_entry
                   ++ flat_map (fun d => [Green d; Sleep 10]) ds
                   ++ [Console ">>> RESUMING"; Green 65535].
Proof.
  intros P A R Q He.
  destruct (step_of_instant (clock w) e 660 ltac:(lia) ltac:(lia)) as (q & Hq).
  assert (Hf : (q + 1 < fuel)%nat) by nia.
  unfold Bouncer.pause_handling.
  unfold bind at 1. unfold gets at 1. rewrite P.
  cbn [bind print dmd_stop set_leds emit clock vars out].
  unfold bind.
  match goal with
  | |- context [Bouncer.breathing button fuel ?w1] =>
      destruct (Bouncer_breathing_resume e q fuel w1) as (c' & ds & Hc & E);
        cbn [clock vars out]; try assumption
  end.
  rewrite E. cbn [print emit clock vars out].
  eexists. exists ds. split; [reflexivity |]. cbn [clock vars out].
  split; [lia |]. split; [reflexivity |].
  split; [now rewrite (proj1 (Bouncer_toggle_accepted (ticks_of e) (vars w) A)), P |].
  unfold pause_entry. repeat rewrite <- app_assoc. reflexivity.
Qed.

(** In [real_wall_bouncer.py] too the pause block is left within 10 ms of
    the button edge that resumes, wherever in the fade the edge falls, and
    the green LED is then set to full.  Until then the block has written
    nothing but green duties and 10 ms sleeps. *)
Theorem Bouncer_resume_within_a_tick (fuel : nat) (w : world Bouncer.globals) (e : Z) :
  Bouncer.paused (vars w) = true ->
  300 < ticks_diff (ticks_of e) (Bouncer.last_button_time (vars w)) ->
  rising button e = true ->
  (forall t, clock w < t < e -> rising button t = false) ->
  clock w < e <= clock w + 660 * (Z.of_nat fuel - 1) ->
  exists c' ds,
    e <= c' < e + 10 /\
    Bouncer.paused (Bouncer.toggle_pause_irq (ticks_of e) (vars w)) = false /\
    Bouncer.pause_handling button fuel w
    = (Val tt,
       World c' (Bouncer.toggle_pause_irq (ticks_of e) (vars w))
             (out w ++ pause_entry
                    ++ flat_map breathing_step ds
                    ++ [Console ">>> RESUMING"; Green 65535])).
Proof.
  intros P A R Q He.
  destruct (Bouncer_pause_block_resume fuel w e P A R Q He)
    as ([c g o] & ds & E & C & V & P2 & O).
  cbn [clock vars out] in C, V, P2, O. subst g o.
  exists c, ds. repeat split; [lia | lia | exact P2 | exact E].
Qed.

End ResumeBouncerLoop.

(** [Bouncer_resume_within_a_tick] on a pause block entered at 600 ms with
    the button pressed at 1000 ms, in the fade out of the first pass: the
    block returns at 1000 ms. *)
Lemma Bouncer_resume_within_a_tick_witness :
  exists c' ds,
    1000 <= c' < 1000 + 10 /\
    Bouncer.paused (Bouncer.toggle_pause_irq (ticks_of 1000) (Bouncer.Globals true 400 0 0 0)) = false /\
    Bouncer.pause_handling (fun t => 1000 <=? t) 3 (World 600 (Bouncer.Globals true 400 0 0 0) [])
    = (Val tt,
       World c' (Bouncer.toggle_pause_irq (ticks_of 1000) (Bouncer.Globals true 400 0 0 0))
             ([] ++ pause_entry
                 ++ flat_map breathing_step ds
                 ++ [Console ">>> RESUMING"; Green 65535])).
Proof.
  apply (Bouncer_resume_within_a_tick (fun t => 1000 <=? t) 3
           (World 600 (Bouncer.Globals true 400 0 0 0) []) 1000).
  - reflexivity.
  - reflexivity.
  - reflexivity.
  - cbn [clock]. intros t Ht. unfold rising.
    apply andb_false_intro2. apply Z.leb_gt. lia.
  - cbn [clock]. lia.
Defined.

(* ===================================================================== *)
(** ** What the status functions write *)
(* ===================================================================== *)

Section EmitsFacts.

Context {G : Type}.
Variable button : Z -> bool.
Variable irq : Z -> G -> G.
Variable P : event -> bool.

Lemma emits_silent {A} (m : M G A) :
  (forall w, out (snd (m w)) = out w) -> emits P m.
Proof.
  intros H w. exists []. rewrite H, app_nil_r. split; reflexivity.
Qed.

Lemma emits_ret {A} (a : A) : emits P (@ret G A a).
Proof. now apply emits_silent. Qed.

Lemma emits_exit {A} : emits P (@sys_exit G A).
Proof. now apply emits_silent. Qed.

Lemma emits_starve {A} : emits P (@starve G A).
Proof. now apply emits_silent. Qed.

Lemma emits_gets {A} (f : G -> A) : emits P (gets f).
Proof. now apply emits_silent. Qed.

Lemma emits_modify (f : G -> G) : emits P (modify f).
Proof. now apply emits_silent. Qed.

Lemma emits_ticks_ms : emits P (@ticks_ms G).
Proof. now apply emits_silent. Qed.

Lemma emits_button_value : emits P (button_value (G := G) button).
Proof. now apply emits_silent. Qed.

Lemma emits_emit (e : event) : P e = true -> emits P (@emit G e).
Proof. intros H w. exists [e]. split; [reflexivity | cbn; now rewrite H]. Qed.

Lemma emits_sleep (ms : nat) : P (Sleep ms) = true -> emits P (sleep button irq ms).
Proof.
  intros H w. destruct (sleep_spec button irq ms w) as [g' E]. rewrite E.
  exists [Sleep ms]. split; [reflexivity | cbn; now rewrite H].
Qed.

Lemma emits_bind {A B} (m : M G A) (f : A -> M G B) :
  emits P m -> (forall a, emits P (f a)) -> emits P (bind m f).
Proof.
  intros Hm Hf w. unfold bind.
  destruct (Hm w) as (tr1 & E1 & F1).
  destruct (m w) as [[a | | ] w1]; cbn [snd] in *.
  - destruct (Hf a w1) as (tr2 & E2 & F2). exists (tr1 ++ tr2).
    rewrite E2, E1, app_assoc, forallb_app, F1, F2. split; reflexivity.
  - exists tr1. split; assumption.
  - exists tr1. split; assumption.
Qed.

End EmitsFacts.

Create HintDb emits.
#[local] Hint Resolve emits_ret emits_exit emits_starve emits_gets
  emits_modify emits_ticks_ms emits_button_value : emits.

(** Walks a program for [emits], one [bind] at a time. *)
Ltac emit_walk :=
  repeat first
    [ solve [auto with emits]
    | apply emits_emit; reflexivity
    | apply emits_sleep; reflexivity
    | apply emits_bind; [| intros ? ]
    | match goal with
      | |- emits _ (if ?c then _ else _) => destruct c
      | |- emits _ (match ?b with NORMAL => _ | DEGRADED => _ | CRITICAL => _ end) =>
          destruct b
      end
    | unfold print, dmd_stop, dmd_disable, set_leds ].

Section PinValues.

Variable button : Z -> bool.

Lemma Bouncer_fade_emits (duties : list Z) :
  forallb (fun d => (0 <=? d) && (d <=? 65535)) duties = true ->
  emits valid_pin (Bouncer.fade button duties).
Proof.
  induction duties as [| d ds IH]; intros F; cbn [Bouncer.fade].
  - emit_walk.
  - cbn [forallb] in F. apply andb_prop in F. destruct F as [Fd F].
    apply emits_bind; [emit_walk |]. intros p. destruct (negb p); [emit_walk |].
    apply emits_bind; [apply emits_emit; exact Fd |]. intros _.
    apply emits_bind; [emit_walk |]. intros _. now apply IH.
Qed.

Lemma Bouncer_breathing_emits (fuel : nat) :
  emits valid_pin (Bouncer.breathing button fuel).
Proof.
  induction fuel as [| fuel IH]; cbn [Bouncer.breathing]; [emit_walk |].
  apply emits_bind; [emit_walk |]. intros p. destruct p; [| emit_walk].
  apply emits_bind; [apply Bouncer_fade_emits; reflexivity |]. intros _.
  apply emits_bind; [apply Bouncer_fade_emits; reflexivity |]. intros _.
  exact IH.
Qed.

Lemma Bouncer_blink_emits (fuel : nat) (end_time : Z) :
  emits valid_pin (Bouncer.blink button fuel end_time).
Proof.
  induction fuel as [| fuel IH]; cbn [Bouncer.blink]; [emit_walk |].
  apply emits_bind; [emit_walk |]. intros t. destruct (t <? end_time); [| emit_walk].
  do 4 (apply emits_bind; [emit_walk |]; intros _). exact IH.
Qed.

(** The clamps of the ramp of [main.py] keep every duty it writes inside
    the 16 bits, whatever duty and direction the loop is entered with. *)
Lemma Main_breathing_emits (fuel : nat) (duty direction : Z) :
  emits valid_pin (Main.breathing button fuel duty direction).
Proof.
  revert duty direction.
  induction fuel as [| fuel IH]; intros duty direction; cbn [Main.breathing];
    [emit_walk |].
  apply emits_bind; [emit_walk |]. intros p. destruct p; [| emit_walk].
  cbv zeta. apply emits_bind.
  - apply emits_emit. cbn [valid_pin].
    destruct (Z.geb_spec (duty + 2000 * direction) 65535); [reflexivity |].
    destruct (Z.leb_spec (duty + 2000 * direction) 0); [reflexivity |].
    apply andb_true_intro. split; [apply Z.leb_le | apply Z.leb_le]; lia.
  - intros _. apply emits_bind; [emit_walk |]. intros _. apply IH.
Qed.

Lemma Main_blink_emits (fuel : nat) (end_time : Z) :
  emits valid_pin (Main.blink button fuel end_time).
Proof.
  induction fuel as [| fuel IH]; cbn [Main.blink]; [emit_walk |].
  apply emits_bind; [emit_walk |]. intros t. destruct (t <? end_time); [| emit_walk].
  do 4 (apply emits_bind; [emit_walk |]; intros _). exact IH.
Qed.

(** Whatever the button does and however long the loops run, the status
    functions of both programs write only 0 or 1 to the red and blue pins
    and only duties between 0 and 65535 to the green PWM. *)
Theorem pin_values_valid (fuel : nat) :
  emits valid_pin (Bouncer.check_status button fuel) /\
  emits valid_pin (Main.check_battery_and_get_speed button fuel).
Proof.
  split.
  - unfold Bouncer.check_status, Bouncer.termination_check,
      Bouncer.pause_handling, Bouncer.battery_logic, Bouncer.shutdown.
    pose proof (Bouncer_breathing_emits fuel) as H1.
    pose proof (fun t => Bouncer_blink_emits fuel t) as H2.
    emit_walk.
  - unfold Main.check_battery_and_get_speed, Main.termination_check,
      Main.pause_handling, Main.battery_logic, Main.shutdown.
    pose proof (Main_breathing_emits fuel 0 1) as H1.
    pose proof (fun t => Main_blink_emits fuel t) as H2.
    emit_walk.
Qed.

End PinValues.

(* ===================================================================== *)
(** ** The breathing cycle *)
(* ===================================================================== *)

Section BreathingCycle.

Variable button : Z -> bool.

(** While nothing resumes, [k] passes of the loop of
    [real_wall_bouncer.py] write [k] times the 66 duties of the cycle and
    take 660 ms each; the loop has not returned. *)
Lemma Bouncer_breathing_passes (k : nat) :
  forall w : world Bouncer.globals,
    Bouncer.paused (vars w) = true ->
    (forall t, clock w < t <= clock w + 660 * Z.of_nat k ->
               rising button t = false) ->
    Bouncer.breathing button k w
    = (Starved,
       World (clock w + 660 * Z.of_nat k) (vars w)
             (out w ++ flat_map breathing_step
                                (concat (repeat breathing_cycle k)))).
Proof.
  induction k as [| k IH]; intros w P Q.
  - cbn. unfold starve. destruct w as [c g o]. cbn [clock vars out].
    rewrite app_nil_r. f_equal. f_equal. lia.
  - cbn [Bouncer.breathing].
    set (up := py_range 0 Bouncer.DUTY_MAX Bouncer.FADE_STEP).
    set (down := py_range Bouncer.DUTY_MAX 0 (- Bouncer.FADE_STEP)).
    assert (Lu : List.length up = 33%nat) by reflexivity.
    assert (Ld : List.length down = 33%nat) by reflexivity.
    unfold bind at 1. unfold gets at 1. rewrite P.
    rewrite (bind_val _ _ _ _ _ (Bouncer_fade_quiet button up w P
               ltac:(intros t Ht; apply Q; lia))).
    cbv beta.
    match goal with
    | |- context [bind (Bouncer.fade button down) _ ?w1] =>
        rewrite (bind_val _ _ _ _ _ (Bouncer_fade_quiet button down w1 P
                   ltac:(cbn [clock]; intros t Ht; apply Q; lia)))
    end.
    rewrite Lu, Ld. cbn [clock vars out].
    rewrite IH; cbn [clock vars out]; try assumption.
    + f_equal. f_equal; [lia |].
      cbn [repeat concat]. change breathing_cycle with (up ++ down).
      unfold breathing_step. rewrite !flat_map_app, !app_assoc. reflexivity.
    + intros t Ht. apply Q. lia.
Qed.

(** One pass of the loop of [main.py] that nothing interrupts. *)
Lemma Main_breathing_pass (fuel : nat) (s : Z * Z) (w : world Main.globals) :
  Main.paused (vars w) = true ->
  (forall t, clock w < t <= clock w + 10 -> rising button t = false) ->
  Main.breathing button (S fuel) (fst s) (snd s) w
  = Main.breathing button fuel (fst (Main_ramp s)) (snd (Main_ramp s))
      (World (clock w + 10) (vars w)
             (out w ++ breathing_step (fst (Main_ramp s)))).
Proof.
  intros P Q. cbn [Main.breathing]. unfold bind at 1. unfold gets at 1.
  rewrite P. cbv zeta. unfold bind at 1. unfold emit at 1. unfold bind at 1.
  rewrite (sleep_stable button Main.toggle_pause 10); cbn [clock vars out].
  - unfold Main_ramp, breathing_step. cbn [fst snd].
    rewrite <- app_assoc. reflexivity.
  - intros t Ht Rt. rewrite Q in Rt by lia. discriminate Rt.
Qed.

Lemma Main_breathing_passes (n : nat) :
  forall (m : nat) (s : Z * Z) (w : world Main.globals),
    Main.paused (vars w) = true ->
    (forall t, clock w < t <= clock w + 10 * Z.of_nat n ->
               rising button t = false) ->
    Main.breathing button (n + m) (fst s) (snd s) w
    = Main.breathing button m (fst (Main_ramp_state n s)) (snd (Main_ramp_state n s))
        (World (clock w + 10 * Z.of_nat n) (vars w)
               (out w ++ flat_map breathing_step (Main_ramp_duties n s))).
Proof.
  induction n as [| n IH]; intros m s w P Q.
  - cbn. destruct w as [c g o]. cbn [clock vars out].
    rewrite app_nil_r, Z.add_0_r. reflexivity.
  - cbn [Nat.add]. rewrite Main_breathing_pass by (try assumption; intros t Ht; apply Q; lia).
    rewrite IH; cbn [clock vars out]; try assumption.
    + cbn [Main_ramp_state Main_ramp_duties flat_map]. f_equal.
      f_equal; [lia |]. now rewrite app_assoc.
    + intros t Ht. apply Q. lia.
Qed.

(** The breathing of both programs has a cycle of 66 steps of 10 ms.
    While nothing resumes, after [k] cycles the loop of
    [real_wall_bouncer.py] has written [k] times the duties 0, 2000, ...,
    64000, 65535, 63535, ..., 1535, the loop of [main.py] the same duties
    but starting from 2000 and ending on 0, and neither has returned. *)
Theorem breathing_cycles (k : nat) :
  (forall w : world Bouncer.globals,
      Bouncer.paused (vars w) = true ->
      (forall t, clock w < t <= clock w + 660 * Z.of_nat k ->
                 rising button t = false) ->
      Bouncer.breathing button k w
      = (Starved,
         World (clock w + 660 * Z.of_nat k) (vars w)
               (out w ++ flat_map breathing_step
                                  (concat (repeat breathing_cycle k))))) /\
  (forall w : world Main.globals,
      Main.paused (vars w) = true ->
      (forall t, clock w < t <= clock w + 660 * Z.of_nat k ->
                 rising button t = false) ->
      Main.breathing button (66 * k) 0 1 w
      = (Starved,
         World (clock w + 660 * Z.of_nat k) (vars w)
               (out w ++ flat_map breathing_step
                                  (concat (repeat (tl breathing_cycle ++ [0]) k))))).
Proof.
  split; [apply Bouncer_breathing_passes |].
  induction k as [| k IH]; intros w P Q.
  - cbn. unfold starve. destruct w as [c g o]. cbn [clock vars out].
    rewrite app_nil_r. f_equal. f_equal. lia.
  - replace (66 * S k)%nat with (66 + 66 * k)%nat by lia.
    pose proof (Main_breathing_passes 66 (66 * k) (0, 1) w P
                  ltac:(intros t Ht; apply Q; lia)) as E.
    change (Main_ramp_state 66 (0, 1)) with (0, 1) in E.
    change (Main_ramp_duties 66 (0, 1)) with (tl breathing_cycle ++ [0]) in E.
    cbn [fst snd] in E. rewrite E.
    rewrite IH; cbn [clock vars out]; try assumption.
    + f_equal. f_equal; [lia |].
      cbn [repeat concat]. rewrite !flat_map_app, !app_assoc. reflexivity.
    + intros t Ht. apply Q. lia.
Qed.

End BreathingCycle.

(** [breathing_cycles] on two cycles with the button never pressed. *)
Lemma breathing_cycles_witness :
  fst (Bouncer.breathing (fun _ => false) 2
         (World 0 (Bouncer.Globals true 0 0 0 0) [])) = Starved /\
  clock (snd (Main.breathing (fun _ => false) (66 * 2) 0 1
                (World 0 (Main.Globals true 0 0 0 0 0) []))) = 1320.
Proof.
  split.
  - rewrite (proj1 (breathing_cycles (fun _ => false) 2)
               (World 0 (Bouncer.Globals true 0 0 0 0) []) eq_refl
               (fun t _ => eq_refl)).
    reflexivity.
  - rewrite (proj2 (breathing_cycles (fun _ => false) 2)
               (World 0 (Main.Globals true 0 0 0 0 0) []) eq_refl
               (fun t _ => eq_refl)).
    reflexivity.
Defined.

(* ===================================================================== *)
(** ** Holds and taps *)
(* ===================================================================== *)

Section Taps.

Variable button : Z -> bool.

Lemma Bouncer_polls_hold (polls : list Z) :
  forall (t t' : Z) (start : option Z) (g : Bouncer.globals),
    timeline t polls t' ->
    t' - t < TICKS_HALF ->
    (forall c, In c polls -> ticks_of c <> 0) ->
    match start with
    | None => Bouncer.button_press_start g = 0
    | Some s => Bouncer.button_press_start g = ticks_of s /\
                ticks_of s <> 0 /\ s <= t /\ t' - s < TICKS_HALF
    end ->
    fst (Bouncer_polls button polls g) = Exited <-> long_hold button start polls.
Proof.
  induction polls as [| c cs IH]; intros t t' start g T W0 N H.
  - cbn. split; [discriminate | contradiction].
  - cbn in T. destruct T as [T1 T2]. pose proof (timeline_le _ _ _ T2) as T3.
    assert (W1 : t' - c < TICKS_HALF) by lia.
    assert (Nc : ticks_of c <> 0) by (apply N; now left).
    assert (N' : forall x, In x cs -> ticks_of x <> 0)
      by (intros x Hx; apply N; now right).
    cbn [Bouncer_polls long_hold]. destruct (button c) eqn:B.
    + destruct start as [s |].
      * destruct H as (E & Ns & Hs & W).
        assert (D : ticks_diff (ticks_of c) (Bouncer.button_press_start g) = c - s).
        { rewrite E. apply ticks_diff_of. unfold TICKS_HALF in *. lia. }
        destruct (Z.le_gt_cases (c - s) 3000) as [L | L].
        -- rewrite (Bouncer_poll_waiting button (World c g []) B)
             by (cbn [vars clock]; rewrite ?D, ?E; assumption).
           cbn [vars].
           rewrite (IH c t' (Some s) g T2 W1 N' ltac:(repeat split; (assumption || lia))).
           split; [now right | intros [H | H]; [lia | exact H]].
        -- rewrite (Bouncer_poll_exits button (World c g []) B)
             by (cbn [vars clock]; rewrite ?D, ?E; assumption || lia).
           cbn [fst]. split; [now left | reflexivity].
      * rewrite (Bouncer_poll_first button (World c g []) B H). cbn [vars clock].
        apply (IH c t' (Some c)); [exact T2 | exact W1 | exact N' |].
        repeat split; (assumption || lia).
    + rewrite (Bouncer_poll_released button (World c g []) B). cbn [vars clock].
      apply (IH c t' None); [exact T2 | exact W1 | exact N' | reflexivity].
Qed.

Lemma Main_polls_hold (polls : list Z) :
  forall (t t' : Z) (start : option Z) (g : Main.globals),
    timeline t polls t' ->
    t' - t < TICKS_HALF ->
    (forall c, In c polls -> ticks_of c <> 0) ->
    match start with
    | None => Main.button_hold_start g = 0
    | Some s => Main.button_hold_start g = ticks_of s /\
                ticks_of s <> 0 /\ s <= t /\ t' - s < TICKS_HALF
    end ->
    fst (Main_polls button polls g) = Exited <-> long_hold button start polls.
Proof.
  induction polls as [| c cs IH]; intros t t' start g T W0 N H.
  - cbn. split; [discriminate | contradiction].
  - cbn in T. destruct T as [T1 T2]. pose proof (timeline_le _ _ _ T2) as T3.
    assert (W1 : t' - c < TICKS_HALF) by lia.
    assert (Nc : ticks_of c <> 0) by (apply N; now left).
    assert (N' : forall x, In x cs -> ticks_of x <> 0)
      by (intros x Hx; apply N; now right).
    cbn [Main_polls long_hold]. destruct (button c) eqn:B.
    + destruct start as [s |].
      * destruct H as (E & Ns & Hs & W).
        assert (D : ticks_diff (ticks_of c) (Main.button_hold_start g) = c - s).
        { rewrite E. apply ticks_diff_of. unfold TICKS_HALF in *. lia. }
        destruct (Z.le_gt_cases (c - s) 3000) as [L | L].
        -- rewrite (Main_poll_waiting button (World c g []) B)
             by (cbn [vars clock]; rewrite ?D, ?E; assumption).
           cbn [vars].
           rewrite (IH c t' (Some s) g T2 W1 N' ltac:(repeat split; (assumption || lia))).
           split; [now right | intros [H | H]; [lia | exact H]].
        -- rewrite (Main_poll_exits button (World c g []) B)
             by (cbn [vars clock]; rewrite ?D, ?E; assumption || lia).
           cbn [fst]. split; [now left | reflexivity].
      * rewrite (Main_poll_first button (World c g []) B H). cbn [vars clock].
        apply (IH c t' (Some c)); [exact T2 | exact W1 | exact N' |].
        repeat split; (assumption || lia).
    + rewrite (Main_poll_released button (World c g []) B). cbn [vars clock].
      apply (IH c t' None); [exact T2 | exact W1 | exact N' | reflexivity].
Qed.

(** The hold check across any sequence of polls, presses and releases
    mixed: starting with no press on record, the process is ended exactly
    when some poll reads the button pressed more than 3000 ms after the
    first poll of its unbroken run of pressed polls.  Taps never add up: a
    poll that reads the button released starts the count afresh.  No poll
    may fall on clock reading 0, and all must lie within half a clock
    period. *)
Theorem hold_detection (polls : list Z) (t t' : Z) :
  timeline t polls t' ->
  t' - t < TICKS_HALF ->
  (forall c, In c polls -> ticks_of c <> 0) ->
  (forall g, Bouncer.button_press_start g = 0 ->
             (fst (Bouncer_polls button polls g) = Exited
              <-> long_hold button None polls)) /\
  (forall g, Main.button_hold_start g = 0 ->
             (fst (Main_polls button polls g) = Exited
              <-> long_hold button None polls)).
Proof.
  intros T W N. split; intros g E.
  - exact (Bouncer_polls_hold polls t t' None g T W N E).
  - exact (Main_polls_hold polls t t' None g T W N E).
Qed.

End Taps.

Lemma hold_detection_witness :
  (fst (Bouncer_polls two_taps [100; 2000; 2550; 2700; 5000] (Bouncer.boot 0)) = Exited
   <-> long_hold two_taps None [100; 2000; 2550; 2700; 5000]) /\
  (fst (Main_polls two_taps [100; 2000; 2550; 2700; 5000] (Main.boot 0)) = Exited
   <-> long_hold two_taps None [100; 2000; 2550; 2700; 5000]).
Proof.
  assert (T : timeline 100 [100; 2000; 2550; 2700; 5000] 5000)
    by (cbn; lia).
  assert (W : 5000 - 100 < TICKS_HALF) by (unfold TICKS_HALF; lia).
  assert (N : forall c, In c [100; 2000; 2550; 2700; 5000] -> ticks_of c <> 0).
  { intros c H. cbn in H.
    repeat (destruct H as [<- | H]; [vm_compute; discriminate |]).
    contradiction. }
  pose proof (hold_detection two_taps [100; 2000; 2550; 2700; 5000] 100 5000 T W N)
    as [B M0].
  split; [exact (B (Bouncer.boot 0) eq_refl) | exact (M0 (Main.boot 0) eq_refl)].
Defined.

(* ===================================================================== *)
(** ** A press record that outlives a pause *)
(* ===================================================================== *)

Lemma Bouncer_toggle_resumes (e : Z) (g : Bouncer.globals) :
  300 < ticks_diff e (Bouncer.last_button_time g) ->
  Bouncer.paused g = true ->
  Bouncer.toggle_pause_irq e g
  = Bouncer.Globals false (Bouncer.work_accumulated_time g) e e
                    (Bouncer.button_press_start g).
Proof.
  intros A P. unfold Bouncer.toggle_pause_irq.
  destruct (Z.gtb_spec (ticks_diff e (Bouncer.last_button_time g)) 300);
    [| lia].
  rewrite P. reflexivity.
Qed.

Section StalePress.

Variable button : Z -> bool.

(** While the button stays down there is no rising edge. *)
Lemma held_not_rising (a b : Z) :
  (forall t, a <= t <= b -> button t = true) ->
  forall t, a < t <= b -> rising button t = false.
Proof.
  intros H t Ht. unfold rising. rewrite (H (t - 1)) by lia. reflexivity.
Qed.

(** In [real_wall_bouncer.py] the press start recorded by the hold check
    survives the pause block, which polls nothing: a cycle that finds the
    program PAUSED with the pausing press still down records that press,
    and when the program is resumed more than 3000 ms later by a press
    that is still down at the next cycle, that cycle takes the two presses
    for one long hold and ends the process right after resuming. *)
Theorem Bouncer_resume_press_terminates
  (fuel gap gap' : nat) (rest : list nat) (w : world Bouncer.globals) (e : Z) :
  Bouncer.paused (vars w) = true ->
  button (clock w) = true ->
  Bouncer.button_press_start (vars w) = 0 ->
  ticks_of (clock w) <> 0 ->
  300 < ticks_diff (ticks_of e) (Bouncer.last_button_time (vars w)) ->
  rising button e = true ->
  (forall t, clock w < t < e -> rising button t = false) ->
  clock w + 3000 < e <= clock w + 660 * (Z.of_nat fuel - 1) ->
  (forall t, e <= t <= e + 10 + Z.of_nat gap -> button t = true) ->
  e + 10 + Z.of_nat gap - clock w < TICKS_HALF ->
  Bouncer.work_accumulated_time (vars w) <= 54990 ->
  exists w' ds,
    Bouncer_cycles button fuel (gap :: gap' :: rest) w = (Exited, w') /\
    Bouncer.paused (vars w') = false /\
    e + Z.of_nat gap <= clock w' < e + 10 + Z.of_nat gap /\
    out w' = out w ++ pause_entry
                   ++ flat_map breathing_step ds
                   ++ [Console ">>> RESUMING"; Green 65535; Sleep gap]
                   ++ termination_trace.
Proof.
  intros P B S N A R Q He Hd W K.
  set (w1 := World (clock w)
               (Bouncer.set_button_press_start (ticks_of (clock w)) (vars w))
               (out w)).
  destruct (Bouncer_pause_block_resume button fuel w1 e P A R Q
              ltac:(cbn [w1 clock]; lia))
    as (w2 & ds & E & C & V & P2 & O).
  cbn [w1 clock vars out] in V, O.
  rewrite Bouncer_toggle_resumes in V by assumption.
  cbn [Bouncer.set_button_press_start Bouncer.button_press_start
       Bouncer.work_accumulated_time] in V.
  assert (D : ticks_diff (ticks_of (clock w2)) (ticks_of e) = clock w2 - e)
    by (apply ticks_diff_of; unfold TICKS_HALF in *; lia).
  assert (E1 : exists d, Bouncer.check_status button fuel w = (Val d, w2)).
  { unfold Bouncer.check_status.
    rewrite (bind_val _ _ _ _ _ (Bouncer_poll_first button w B S)).
    fold w1. rewrite (bind_val _ _ _ _ _ E).
    rewrite Bouncer_battery_logic_eq.
    destruct (band_of_cases (Bouncer.total_work_ms (ticks_of (clock w2)) (vars w2)))
      as [[_ ->] | [[_ ->] | [L _]]]; [eauto | eauto |].
    exfalso. revert L. rewrite V. unfold Bouncer.total_work_ms.
    cbn [Bouncer.work_accumulated_time Bouncer.session_start_time].
    rewrite D. lia. }
  destruct E1 as (d & E1).
  cbn [Bouncer_cycles].
  rewrite (bind_val _ _ _ _ _ E1).
  rewrite (bind_val _ _ _ _ _
             (sleep_stable button Bouncer.toggle_pause_irq gap w2
                ltac:(intros t Ht Rt;
                      rewrite (held_not_rising e (e + 10 + Z.of_nat gap) Hd t)
                        in Rt by lia; discriminate Rt))).
  set (w3 := World (clock w2 + Z.of_nat gap) (vars w2) (out w2 ++ [Sleep gap])).
  assert (X : Bouncer.termination_check button w3
              = (Exited, World (clock w3) (vars w3) (out w3 ++ termination_trace))).
  { apply Bouncer_poll_exits; cbn [w3 clock vars].
    - apply Hd. lia.
    - rewrite V. exact N.
    - rewrite V. cbn [Bouncer.button_press_start].
      rewrite ticks_diff_of by (unfold TICKS_HALF in *; lia). lia. }
  unfold Bouncer.check_status.
  rewrite (bind_exited _ _ _ _ (bind_exited _ _ _ _ X)).
  eexists. exists ds. split; [reflexivity |].
  cbn [w3 clock vars out]. split; [exact P2 |]. split; [lia |].
  rewrite O. unfold breathing_step.
  repeat rewrite <- app_assoc. reflexivity.
Qed.

End StalePress.

(** [Bouncer_resume_press_terminates] on a pause entered by a press at
    1000 ms that the poll at 1050 ms still sees, resumed by a press at
    5000 ms: the poll 50 ms after the resume ends the process. *)
Lemma Bouncer_resume_press_terminates_witness :
  exists w' ds,
    Bouncer_cycles press_twice 8 [50%nat; 50%nat]
      (World 1050 (Bouncer.Globals true 1000 0 1000 0) []) = (Exited, w') /\
    Bouncer.paused (vars w') = false /\
    5000 + Z.of_nat 50 <= clock w' < 5000 + 10 + Z.of_nat 50 /\
    out w' = [] ++ pause_entry
                ++ flat_map breathing_step ds
                ++ [Console ">>> RESUMING"; Green 65535; Sleep 50]
                ++ termination_trace.
Proof.
  apply (Bouncer_resume_press_terminates press_twice 8 50 50 []
           (World 1050 (Bouncer.Globals true 1000 0 1000 0) []) 5000).
  - reflexivity.
  - reflexivity.
  - reflexivity.
  - vm_compute. discriminate.
  - reflexivity.
  - reflexivity.
  - cbn [clock]. intros t Ht. unfold rising, press_twice.
    repeat match goal with
           | |- context [?a <=? ?b] => destruct (Z.leb_spec a b)
           | |- context [?a <? ?b] => destruct (Z.ltb_spec a b)
           end; cbn; try reflexivity; lia.
  - cbn [clock]. lia.
  - intros t Ht. unfold press_twice.
    destruct (Z.leb_spec 5000 t); [apply orb_true_r | lia].
  - cbn [clock]. unfold TICKS_HALF. lia.
  - cbn. lia.
Defined.

Lemma Main_toggle_resumes (e : Z) (g : Main.globals) :
  300 < ticks_diff e (Main.last_button_time g) ->
  Main.paused g = true ->
  exists total,
    Main.toggle_pause e g
    = Main.Globals false e total (Main.pause_start_timestamp g)
                   (Main.button_hold_start g) (Main.start_time g).
Proof.
  intros A P. unfold Main.toggle_pause.
  destruct (Z.gtb_spec (ticks_diff e (Main.last_button_time g)) 300);
    [| lia].
  rewrite P. cbn [negb].
  destruct (negb (Main.pause_start_timestamp g =? 0)); eexists; reflexivity.
Qed.

Section FreshPress.

Variable button : Z -> bool.

(** A hold check that reads the button pressed, with no press on record or
    one at most 3000 ms old, returns and leaves everything but the record
    alone. *)
Lemma Main_poll_returns (w : world Main.globals) :
  button (clock w) = true ->
  Main.button_hold_start (vars w) = 0 \/
  ticks_diff (ticks_of (clock w)) (Main.button_hold_start (vars w)) <= 3000 ->
  exists h,
    Main.termination_check button w
    = (Val tt, World (clock w) (Main.set_button_hold_start h (vars w)) (out w)).
Proof.
  intros B H.
  destruct (Z.eq_dec (Main.button_hold_start (vars w)) 0) as [Z0 | NZ].
  - eexists. apply Main_poll_first; assumption.
  - destruct H as [H | H]; [contradiction |].
    exists (Main.button_hold_start (vars w)).
    rewrite (Main_poll_waiting button w B NZ H).
    destruct w as [c [p l tp ps hs st] o]. reflexivity.
Qed.

(** In [main.py] the pause block comes before the hold check, so the press
    that resumes is the first one the hold check sees: with no press on
    record when the pause block is entered, the cycle that resumes and the
    cycle after it both return, however long the pause was, although the
    button is down at both hold checks. *)
Theorem Main_resume_press_continues
  (fuel gap gap' : nat) (w : world Main.globals) (e : Z) :
  Main.paused (vars w) = true ->
  Main.button_hold_start (vars w) = 0 ->
  300 < ticks_diff (ticks_of e) (Main.last_button_time (vars w)) ->
  rising button e = true ->
  (forall t, clock w < t < e -> rising button t = false) ->
  clock w < e <= clock w + 10 * (Z.of_nat fuel - 1) ->
  (forall t, e <= t <= e + 10 + Z.of_nat gap -> button t = true) ->
  Z.of_nat gap <= 3000 ->
  (forall t, e <= t <= e + 10 + Z.of_nat gap ->
             band_of (Main.elapsed (ticks_of t)
                        (Main.toggle_pause (ticks_of e) (vars w))) <> CRITICAL) ->
  exists w',
    Main_cycles button fuel [gap; gap'] w = (Val tt, w') /\
    e + Z.of_nat gap + Z.of_nat gap' <= clock w'
    < e + 10 + Z.of_nat gap + Z.of_nat gap'.
Proof.
  intros P S A R Q He Hd Hg K.
  destruct (Main_pause_block_resume button fuel w e P A R Q He)
    as (w2 & ds & E & C & V & P2 & O).
  destruct (Main_toggle_resumes (ticks_of e) (vars w) A P) as (total & T).
  assert (S2 : Main.button_hold_start (vars w2) = 0)
    by (rewrite V, T; exact S).
  assert (B2 : button (clock w2) = true) by (apply Hd; lia).
  set (w3 := World (clock w2)
               (Main.set_button_hold_start (ticks_of (clock w2)) (vars w2))
               (out w2)).
  assert (E1 : exists d, Main.check_battery_and_get_speed button fuel w
                         = (Val d, w3)).
  { unfold Main.check_battery_and_get_speed.
    rewrite (bind_val _ _ _ _ _ E).
    rewrite (bind_val _ _ _ _ _ (Main_poll_first button w2 B2 S2)). fold w3.
    rewrite Main_battery_logic_eq.
    assert (N : band_of (Main.elapsed (ticks_of (clock w3)) (vars w3)) <> CRITICAL).
    { change (Main.elapsed (ticks_of (clock w3)) (vars w3))
        with (Main.elapsed (ticks_of (clock w2)) (vars w2)).
      rewrite V. apply K. lia. }
    destruct (band_of _); [eauto | eauto | now destruct N]. }
  destruct E1 as (d & E1).
  cbn [Main_cycles].
  rewrite (bind_val _ _ _ _ _ E1).
  rewrite (bind_val _ _ _ _ _
             (sleep_stable button Main.toggle_pause gap w3
                ltac:(cbn [w3 clock]; intros t Ht Rt;
                      rewrite (held_not_rising button e (e + 10 + Z.of_nat gap) Hd t)
                        in Rt by lia; discriminate Rt))).
  set (w4 := World (clock w3 + Z.of_nat gap) (vars w3) (out w3 ++ [Sleep gap])).
  assert (P4 : Main.paused (vars w4) = false) by exact P2.
  destruct (Main_poll_returns w4) as (h & X).
  { apply Hd. cbn [w4 w3 clock]. lia. }
  { right. cbn [w4 w3 clock vars Main.set_button_hold_start Main.button_hold_start].
    rewrite ticks_diff_of by (unfold TICKS_HALF; lia). lia. }
  assert (E2 : exists d2, Main.check_battery_and_get_speed button fuel w4
                          = (Val d2, World (clock w4)
                                       (Main.set_button_hold_start h (vars w4))
                                       (out w4))).
  { unfold Main.check_battery_and_get_speed, Main.pause_handling.
    unfold bind at 1. unfold bind at 1. unfold gets at 1. rewrite P4.
    unfold ret at 1. rewrite (bind_val _ _ _ _ _ X).
    rewrite Main_battery_logic_eq.
    assert (N : band_of (Main.elapsed (ticks_of (clock w4))
                           (Main.set_button_hold_start h (vars w4))) <> CRITICAL).
    { change (Main.elapsed (ticks_of (clock w4))
                (Main.set_button_hold_start h (vars w4)))
        with (Main.elapsed (ticks_of (clock w2 + Z.of_nat gap)) (vars w2)).
      rewrite V. apply K. lia. }
    cbn [clock vars] in *.
    destruct (band_of _); [eauto | eauto | now destruct N]. }
  destruct E2 as (d2 & E2).
  rewrite (bind_val _ _ _ _ _ E2).
  destruct (sleep_spec button Main.toggle_pause gap'
              (World (clock w4) (Main.set_button_hold_start h (vars w4)) (out w4)))
    as (g5 & E3).
  rewrite (bind_val _ _ _ _ _ E3).
  unfold ret. eexists. split; [reflexivity |].
  cbn [clock w4 w3]. lia.
Qed.

End FreshPress.

(** [Main_resume_press_continues] on the same presses: a pause entered at
    1050 ms, resumed by a press at 5000 ms that is held on. *)
Lemma Main_resume_press_continues_witness :
  exists w',
    Main_cycles press_twice 400 [50%nat; 50%nat]
      (World 1050 (Main.Globals true 1000 0 1000 0 0) []) = (Val tt, w') /\
    5000 + Z.of_nat 50 + Z.of_nat 50 <= clock w'
    < 5000 + 10 + Z.of_nat 50 + Z.of_nat 50.
Proof.
  apply (Main_resume_press_continues press_twice 400 50 50
           (World 1050 (Main.Globals true 1000 0 1000 0 0) []) 5000).
  - reflexivity.
  - reflexivity.
  - reflexivity.
  - reflexivity.
  - cbn [clock]. intros t Ht. unfold rising, press_twice.
    repeat match goal with
           | |- context [?a <=? ?b] => destruct (Z.leb_spec a b)
           | |- context [?a <? ?b] => destruct (Z.ltb_spec a b)
           end; cbn; try reflexivity; lia.
  - cbn [clock]. lia.
  - intros t Ht. unfold press_twice.
    destruct (Z.leb_spec 5000 t); [apply orb_true_r | lia].
  - lia.
  - intros t Ht. cbn [vars].
    change (Main.toggle_pause (ticks_of 5000) (Main.Globals true 1000 0 1000 0 0))
      with (Main.Globals false 5000 4000 1000 0 0).
    unfold Main.elapsed. cbn [Main.start_time Main.total_paused_time].
    pose proof (ticks_diff_of t 0 ltac:(unfold TICKS_HALF; lia)) as D.
    change (ticks_of 0) with 0 in D. rewrite D.
    destruct (band_of_cases (t - 0 - 4000)) as [[_ ->] | [[_ ->] | [L _]]];
      [discriminate | discriminate | lia].
Defined.

(* ===================================================================== *)
(** ** The main blocks *)
(* ===================================================================== *)

Section RunFacts.

Context {G : Type}.

Lemma next_val {A B} (m : Run G A) (f : A -> Run G B) s a s1 :
  m s = (Val a, s1) -> next m f s = f a s1.
Proof. intros E. unfold next. rewrite E. reflexivity. Qed.

Lemma next_exited {A B} (m : Run G A) (f : A -> Run G B) s s1 :
  m s = (Exited, s1) -> next m f s = (Exited, s1).
Proof. intros E. unfold next. rewrite E. reflexivity. Qed.

Lemma next_inv {A B} (m : Run G A) (f : A -> Run G B) s b s2 :
  next m f s = (Val b, s2) ->
  exists a s1, m s = (Val a, s1) /\ f a s1 = (Val b, s2).
Proof.
  unfold next. destruct (m s) as [[a | | ] s1]; intros E; try discriminate E.
  exists a, s1. split; [reflexivity | exact E].
Qed.

(** What a computation of the machine does when called from a rig. *)
Lemma core_eq {A} (m : M G A) (s : rig G) r w :
  m (World (now s) (mem s) []) = (r, w) ->
  core m s = (r, Rig (clock w) (vars w) (log s ++ map Core (out w))).
Proof. intros E. unfold core. rewrite E. reflexivity. Qed.

Variable P : action -> Prop.

Lemma runs_done {A} (R : A -> Prop) (a : A) : R a -> runs P R (@done G A a).
Proof.
  intros H s. exists []. cbn. rewrite app_nil_r.
  repeat split; [constructor |]. now intros a' [= <-].
Qed.

Lemma runs_stall {A} (R : A -> Prop) : runs P R (@stall G A).
Proof.
  intros s. exists []. cbn. rewrite app_nil_r.
  repeat split; [constructor | discriminate].
Qed.

Lemma runs_act (R : unit -> Prop) (a : action) :
  P a -> R tt -> runs P R (@act G a).
Proof.
  intros H H' s. exists [a]. cbn.
  repeat split; [now constructor |]. now intros [] _.
Qed.

Lemma runs_sense {reading} (distance : Z -> option reading) :
  runs P (fun _ => True) (@sense G reading distance).
Proof.
  intros s. exists []. cbn. rewrite app_nil_r.
  repeat split. constructor.
Qed.

Lemma runs_core {A} (R : A -> Prop) (m : M G A) :
  (forall e, P (Core e)) ->
  (forall w a w', m w = (Val a, w') -> R a) ->
  runs P R (core m).
Proof.
  intros HP HR s. exists (map Core (out (snd (m (World (now s) (mem s) []))))).
  cbn. repeat split.
  - apply Forall_forall. intros a Ha. apply in_map_iff in Ha.
    destruct Ha as (e & <- & _). apply HP.
  - intros a E. apply (HR (World (now s) (mem s) []) a
                          (snd (m (World (now s) (mem s) [])))).
    destruct (m (World (now s) (mem s) [])) as [r w]. cbn in *. now subst.
Qed.

Lemma runs_next {A B} (R1 : A -> Prop) (R2 : B -> Prop)
    (m : Run G A) (f : A -> Run G B) :
  runs P R1 m -> (forall a, R1 a -> runs P R2 (f a)) -> runs P R2 (next m f).
Proof.
  intros Hm Hf s. destruct (Hm s) as (tr1 & E1 & F1 & V1). unfold next.
  destruct (m s) as [[a | | ] s1]; cbn [fst snd] in *.
  - destruct (Hf a (V1 a eq_refl) s1) as (tr2 & E2 & F2 & V2).
    exists (tr1 ++ tr2). rewrite E2, E1, app_assoc.
    repeat split; [apply Forall_app; now split | exact V2].
  - exists tr1. repeat split; [exact E1 | exact F1 | discriminate].
  - exists tr1. repeat split; [exact E1 | exact F1 | discriminate].
Qed.

End RunFacts.

(** The battery logic hands out two speeds only. *)
Lemma decision_speed (b : band) :
  fst (decision_of b) = 0.5%Q \/ fst (decision_of b) = 0.25%Q.
Proof. destruct b; cbn; auto. Qed.

(** One step through a run, by its shape. *)
Ltac run_step :=
  lazymatch goal with
  | |- runs _ _ (next _ _) =>
      eapply runs_next with (R1 := fun _ => True); [| intros ? _]
  | |- runs _ _ (core _) => apply runs_core; [intros ?; exact I | intros; exact I]
  | |- runs _ _ (act _) => apply runs_act; [assumption | exact I]
  | |- runs _ _ (done _) => apply runs_done; exact I
  | |- runs _ _ stall => apply runs_stall
  | |- runs _ _ (sense _) => apply runs_sense
  | |- runs _ _ (match ?d with _ => _ end) => destruct d
  end.

Ltac run_walk := repeat run_step.

Section DriveSpeeds.

Variable reading : Type.
Variable distance : Z -> option reading.
Variable within : Q -> Q -> reading -> bool.
Variable fixed2 : reading -> string.
Variable button : Z -> bool.

Lemma Bouncer_status_speed (fuel : nat) :
  runs battery_speed
       (fun sb : Q * bool => fst sb = 0.5%Q \/ fst sb = 0.25%Q)
       (BouncerBlock.check_status button fuel).
Proof.
  apply runs_core; [intros e; exact I |].
  intros w d w' E. destruct (Bouncer_returns button fuel w w' d E) as [_ ->].
  apply decision_speed.
Qed.

Lemma Main_status_speed (fuel : nat) :
  runs battery_speed
       (fun sb : Q * bool => fst sb = 0.5%Q \/ fst sb = 0.25%Q)
       (MainBlock.check_battery_and_get_speed button fuel).
Proof.
  apply runs_core; [intros e; exact I |].
  intros w d w' E. destruct (Main_returns button fuel w w' d E) as [_ ->].
  apply decision_speed.
Qed.

Lemma Bouncer_forward_leg_speed (fuel : nat) :
  runs battery_speed (fun _ => True)
       (BouncerBlock.forward_leg reading distance within button fuel).
Proof.
  induction fuel as [| fuel IH]; [apply runs_stall |].
  cbn [BouncerBlock.forward_leg].
  eapply runs_next; [apply Bouncer_status_speed | intros sb Hs].
  change (battery_speed (Forward LeftMotor (Scaled (fst sb) 0.9))) in Hs.
  assert (Hr : battery_speed (Forward RightMotor (Speed (fst sb)))) by exact Hs.
  unfold BouncerBlock.leds, BouncerBlock.sleep_ms.
  repeat first [run_step | exact IH].
Qed.

Lemma Bouncer_backward_leg_speed (fuel : nat) :
  runs battery_speed (fun _ => True)
       (BouncerBlock.backward_leg reading distance within button fuel).
Proof.
  induction fuel as [| fuel IH]; [apply runs_stall |].
  cbn [BouncerBlock.backward_leg].
  eapply runs_next; [apply Bouncer_status_speed | intros sb Hs].
  change (battery_speed (Backward LeftMotor (Scaled (fst sb) 0.9))) in Hs.
  assert (Hr : battery_speed (Backward RightMotor (Speed (fst sb)))) by exact Hs.
  unfold BouncerBlock.leds, BouncerBlock.sleep_ms.
  repeat first [run_step | exact IH].
Qed.

Lemma Bouncer_stop_and_wait_speed :
  runs battery_speed (fun _ => True) (BouncerBlock.stop_and_wait button).
Proof.
  unfold BouncerBlock.stop_and_wait, Dmd.stop, BouncerBlock.leds,
    BouncerBlock.sleep_ms.
  run_walk.
Qed.

Lemma Bouncer_movement_loop_speed (fuel : nat) :
  runs battery_speed (fun _ => True)
       (BouncerBlock.movement_loop reading distance within button fuel).
Proof.
  induction fuel as [| fuel IH]; [apply runs_stall |].
  cbn [BouncerBlock.movement_loop]. unfold BouncerBlock.say.
  repeat first
    [ run_step
    | lazymatch goal with
      | |- runs _ _ (BouncerBlock.forward_leg _ _ _ _ _) =>
          apply Bouncer_forward_leg_speed
      | |- runs _ _ (BouncerBlock.backward_leg _ _ _ _ _) =>
          apply Bouncer_backward_leg_speed
      | |- runs _ _ (BouncerBlock.stop_and_wait _) =>
          apply Bouncer_stop_and_wait_speed
      | |- runs _ _ (BouncerBlock.movement_loop _ _ _ _ _) => exact IH
      end ].
Qed.

Lemma Bouncer_blinks_speed (n : nat) :
  runs battery_speed (fun _ => True) (BouncerBlock.blinks button n).
Proof.
  induction n as [| n IH]; [apply runs_done; exact I |].
  cbn [BouncerBlock.blinks]. unfold BouncerBlock.leds, BouncerBlock.sleep_ms.
  repeat first [run_step | exact IH].
Qed.

Lemma Main_blinks_speed (n : nat) :
  runs battery_speed (fun _ => True) (MainBlock.blinks button n).
Proof.
  induction n as [| n IH]; [apply runs_done; exact I |].
  cbn [MainBlock.blinks]. unfold MainBlock.leds, MainBlock.sleep_ms.
  repeat first [run_step | exact IH].
Qed.

Lemma Main_leg_speed (reverse : bool) (show : bool -> Run Main.globals unit)
    (lo hi : Q) (fuel : nat) :
  (forall b, runs battery_speed (fun _ => True) (show b)) ->
  runs battery_speed (fun _ => True)
       (MainBlock.leg reading distance within fixed2 button reverse show lo hi fuel).
Proof.
  intros Hshow. induction fuel as [| fuel IH]; [apply runs_stall |].
  cbn [MainBlock.leg].
  eapply runs_next; [apply Main_status_speed | intros sb Hs].
  assert (H1 : battery_speed (Forward LeftMotor (Scaled (fst sb) 0.9))) by exact Hs.
  assert (H2 : battery_speed (Forward RightMotor (Scaled (fst sb) 0.95))) by exact Hs.
  assert (H3 : battery_speed (Backward LeftMotor (Scaled (fst sb) 0.9))) by exact Hs.
  assert (H4 : battery_speed (Backward RightMotor (Scaled (fst sb) 0.95))) by exact Hs.
  unfold MainBlock.say, MainBlock.sleep_ms.
  eapply runs_next with (R1 := fun _ => True); [apply Hshow | intros _ _].
  repeat first [run_step | exact IH].
Qed.

Lemma Main_turn_speed (turn_start : Z) (fuel : nat) :
  runs battery_speed (fun _ => True) (MainBlock.turn button turn_start fuel).
Proof.
  induction fuel as [| fuel IH]; [apply runs_stall |].
  cbn [MainBlock.turn].
  eapply runs_next with (R1 := fun _ => True); [run_step | intros t _].
  destruct (ticks_diff t turn_start <? 500); [| apply runs_done; exact I].
  eapply runs_next; [apply Main_status_speed | intros sb Hs].
  assert (H1 : battery_speed (Backward LeftMotor (Speed (fst sb)))) by exact Hs.
  assert (H2 : battery_speed (Forward RightMotor (Speed (fst sb)))) by exact Hs.
  unfold MainBlock.leds, MainBlock.sleep_ms.
  repeat first [run_step | exact IH].
Qed.

Lemma Main_movement_loop_speed (fuel : nat) :
  runs battery_speed (fun _ => True)
       (MainBlock.movement_loop reading distance within fixed2 button fuel).
Proof.
  induction fuel as [| fuel IH]; [apply runs_stall |].
  cbn [MainBlock.movement_loop].
  unfold MainBlock.say, MainBlock.move_1, MainBlock.move_2, MainBlock.move_3,
    MainBlock.move_4, MainBlock.turning, Dmd.stop, MainBlock.leds,
    MainBlock.sleep_ms.
  repeat first
    [ run_step
    | lazymatch goal with
      | |- runs _ _ (MainBlock.turn _ _ _) => apply Main_turn_speed
      | |- runs _ _ (MainBlock.leg _ _ _ _ _ _ _ _ _ _) =>
          apply Main_leg_speed; intros []; run_walk
      | |- runs _ _ (MainBlock.movement_loop _ _ _ _ _ _) => exact IH
      end ].
Qed.

Lemma Bouncer_main_try_speed (fuel : nat) :
  runs battery_speed (fun _ => True)
       (BouncerBlock.main_try reading distance within button fuel).
Proof.
  unfold BouncerBlock.main_try, BouncerBlock.system_check, BouncerBlock.say.
  repeat first
    [ run_step
    | lazymatch goal with
      | |- runs _ _ (BouncerBlock.movement_loop _ _ _ _ _) =>
          apply Bouncer_movement_loop_speed
      | |- runs _ _ (BouncerBlock.blinks _ _) => apply Bouncer_blinks_speed
      end ].
Qed.

Lemma Main_main_try_speed (fuel : nat) :
  runs battery_speed (fun _ => True)
       (MainBlock.main_try reading distance within fixed2 button fuel).
Proof.
  unfold MainBlock.main_try, MainBlock.system_check, MainBlock.say.
  repeat first
    [ run_step
    | lazymatch goal with
      | |- runs _ _ (MainBlock.movement_loop _ _ _ _ _ _) =>
          apply Main_movement_loop_speed
      | |- runs _ _ (MainBlock.blinks _ _) => apply Main_blinks_speed
      end ].
Qed.

End DriveSpeeds.

(* ===================================================================== *)
(** ** A movement loop left alone *)
(* ===================================================================== *)

(** No rising edge while the button is up. *)
Lemma released_not_rising (button : Z -> bool) (t : Z) :
  button t = false -> rising button t = false.
Proof. intros H. unfold rising. rewrite H. apply andb_false_r. Qed.

Section Idle.

Variable reading : Type.
Variable distance : Z -> option reading.
Variable within : Q -> Q -> reading -> bool.
Variable fixed2 : reading -> string.
Variable button : Z -> bool.

(** The status function called RUNNING, with the button up and the battery
    not CRITICAL: it returns at once and logs nothing. *)
Lemma Bouncer_status_idle (fuel : nat) (s : rig Bouncer.globals) :
  Bouncer.paused (mem s) = false ->
  button (now s) = false ->
  band_of (Bouncer.total_work_ms (ticks_of (now s)) (mem s)) <> CRITICAL ->
  BouncerBlock.check_status button fuel s
  = (Val (decision_of (band_of (Bouncer.total_work_ms (ticks_of (now s)) (mem s)))),
     Rig (now s) (Bouncer.set_button_press_start 0 (mem s)) (log s)).
Proof.
  intros P B N. unfold BouncerBlock.check_status.
  rewrite (core_eq _ s _ _
             (Bouncer_running_cycle_returns button fuel
                (World (now s) (mem s) []) P B N)).
  cbn [clock vars out map]. rewrite app_nil_r. reflexivity.
Qed.

Lemma Main_status_idle (fuel : nat) (s : rig Main.globals) :
  Main.paused (mem s) = false ->
  button (now s) = false ->
  band_of (Main.elapsed (ticks_of (now s)) (mem s)) <> CRITICAL ->
  MainBlock.check_battery_and_get_speed button fuel s
  = (Val (decision_of (band_of (Main.elapsed (ticks_of (now s)) (mem s)))),
     Rig (now s) (Main.set_button_hold_start 0 (mem s)) (log s)).
Proof.
  intros P B N. unfold MainBlock.check_battery_and_get_speed.
  rewrite (core_eq _ s _ _
             (Main_running_cycle_returns button fuel
                (World (now s) (mem s) []) P B N)).
  cbn [clock vars out map]. rewrite app_nil_r. reflexivity.
Qed.

(** A sleep during which the button stays up. *)
Lemma Bouncer_sleep_idle (ms : nat) (s : rig Bouncer.globals) :
  (forall t, now s < t <= now s + Z.of_nat ms -> button t = false) ->
  BouncerBlock.sleep_ms button ms s
  = (Val tt, Rig (now s + Z.of_nat ms) (mem s) (log s ++ [Core (Sleep ms)])).
Proof.
  intros Q. unfold BouncerBlock.sleep_ms.
  rewrite (core_eq _ s _ _
             (sleep_stable button Bouncer.toggle_pause_irq ms
                (World (now s) (mem s) [])
                ltac:(cbn [clock]; intros t Ht Rt;
                      rewrite (released_not_rising button t (Q t Ht)) in Rt;
                      discriminate Rt))).
  reflexivity.
Qed.

Lemma Main_sleep_idle (ms : nat) (s : rig Main.globals) :
  (forall t, now s < t <= now s + Z.of_nat ms -> button t = false) ->
  MainBlock.sleep_ms button ms s
  = (Val tt, Rig (now s + Z.of_nat ms) (mem s) (log s ++ [Core (Sleep ms)])).
Proof.
  intros Q. unfold MainBlock.sleep_ms.
  rewrite (core_eq _ s _ _
             (sleep_stable button Main.toggle_pause ms
                (World (now s) (mem s) [])
                ltac:(cbn [clock]; intros t Ht Rt;
                      rewrite (released_not_rising button t (Q t Ht)) in Rt;
                      discriminate Rt))).
  reflexivity.
Qed.

(** The hold record plays no part in what a leg logs. *)
Lemma Bouncer_forward_passes_press_start (v : Z) (g : Bouncer.globals) (n : nat) :
  forall c,
    Bouncer_forward_passes (Bouncer.set_button_press_start v g) c n
    = Bouncer_forward_passes g c n.
Proof.
  induction n as [| n IH]; intros c; cbn [Bouncer_forward_passes];
    [reflexivity |].
  rewrite IH. reflexivity.
Qed.

(** A forward leg of [real_wall_bouncer.py] left alone (RUNNING, button
    up, battery not CRITICAL) reads the sensor every 50 ms and ends at the
    first reading that is present and within 0.15..0.35, not before: an
    absent reading keeps it going like one outside the window.  Each pass
    sets the LEDs and drives both motors by the decision of the band at
    that instant. *)
Theorem Bouncer_forward_leg_ends (n : nat) :
  forall (fuel : nat) (s : rig Bouncer.globals),
    Bouncer.paused (mem s) = false ->
    (forall t, now s <= t <= now s + 50 * Z.of_nat n -> button t = false) ->
    (forall t, now s <= t <= now s + 50 * Z.of_nat n ->
               band_of (Bouncer.total_work_ms (ticks_of t) (mem s)) <> CRITICAL) ->
    (forall i, (i < n)%nat ->
               in_window within 0.15 0.35 (distance (now s + 50 * Z.of_nat i))
               = false) ->
    in_window within 0.15 0.35 (distance (now s + 50 * Z.of_nat n)) = true ->
    (n < fuel)%nat ->
    BouncerBlock.forward_leg reading distance within button fuel s
    = (Val tt,
       Rig (now s + 50 * Z.of_nat n)
           (Bouncer.set_button_press_start 0 (mem s))
           (log s ++ Bouncer_forward_passes (mem s) (now s) n)).
Proof.
  induction n as [| n IH]; intros fuel s P B K Out In Hf;
    (destruct fuel as [| fuel]; [lia |]);
    cbn [BouncerBlock.forward_leg];
    rewrite (next_val _ _ _ _ _
               (Bouncer_status_idle (S fuel) s P
                  (B (now s) ltac:(lia)) (K (now s) ltac:(lia))));
    set (sb := decision_of _);
    unfold next at 1;
    replace ((if snd sb then BouncerBlock.leds 0 0 1
              else BouncerBlock.leds 0 65535 0)
               (Rig (now s) (Bouncer.set_button_press_start 0 (mem s)) (log s)))
      with (@Val unit tt,
            Rig (now s) (Bouncer.set_button_press_start 0 (mem s))
                (log s ++ (if snd sb then leds_log 0 0 1 else leds_log 0 65535 0)))
      by (destruct (snd sb); reflexivity);
    unfold next at 1, act at 1; cbn [now mem log];
    unfold next at 1, act at 1; cbn [now mem log];
    unfold next at 1, sense at 1; cbn [now mem log].
  - replace (now s + 50 * Z.of_nat 0) with (now s) in In by lia.
    unfold in_window in In. rewrite In. unfold done.
    f_equal. f_equal; [lia |].
    cbn [Bouncer_forward_passes]. unfold Bouncer_forward_pass. fold sb.
    rewrite app_nil_r, <- !app_assoc. reflexivity.
  - pose proof (Out 0%nat ltac:(lia)) as O0.
    replace (now s + 50 * Z.of_nat 0) with (now s) in O0 by lia.
    unfold in_window in O0. rewrite O0.
    match goal with
    | |- next _ _ ?s1 = _ =>
        rewrite (next_val _ _ _ _ _
                   (Bouncer_sleep_idle 50 s1
                      ltac:(cbn [now]; intros t Ht; apply B; lia)))
    end.
    cbn [now mem log]. change (Z.of_nat 50) with 50.
    rewrite IH; cbn [now mem log]; try assumption; try lia.
    + rewrite Bouncer_forward_passes_press_start.
      f_equal. f_equal; [lia |].
      cbn [Bouncer_forward_passes]. unfold Bouncer_forward_pass. fold sb.
      rewrite <- !app_assoc. reflexivity.
    + intros t Ht. apply B. lia.
    + intros t Ht. apply (K t). lia.
    + intros i Hi. specialize (Out (S i) ltac:(lia)).
      replace (now s + 50 + 50 * Z.of_nat i)
        with (now s + 50 * Z.of_nat (S i)) by lia.
      exact Out.
    + replace (now s + 50 + 50 * Z.of_nat n)
        with (now s + 50 * Z.of_nat (S n)) by lia.
      exact In.
Qed.

Lemma Main_passes_hold_start (v : Z) (reverse : bool)
    (shown : bool -> list action) (g : Main.globals) (n : nat) :
  forall c,
    Main_passes distance fixed2 reverse shown (Main.set_button_hold_start v g) c n
    = Main_passes distance fixed2 reverse shown g c n.
Proof.
  induction n as [| n IH]; intros c; cbn [Main_passes]; [reflexivity |].
  rewrite IH. reflexivity.
Qed.

Section MainLeg.

Variable reverse : bool.
Variable show : bool -> Run Main.globals unit.
Variable shown : bool -> list action.
Variables lo hi : Q.

Hypothesis show_logs :
  forall b s, show b s = (Val tt, Rig (now s) (mem s) (log s ++ shown b)).

(** One pass of a movement loop of [main.py], left alone. *)
Lemma Main_leg_pass (fuel : nat) (s : rig Main.globals) :
  Main.paused (mem s) = false ->
  button (now s) = false ->
  band_of (Main.elapsed (ticks_of (now s)) (mem s)) <> CRITICAL ->
  MainBlock.leg reading distance within fixed2 button reverse show lo hi (S fuel) s
  = let s1 :=
      Rig (now s) (Main.set_button_hold_start 0 (mem s))
          (log s ++ Main_pass fixed2 reverse shown
                      (decision_of (band_of (Main.elapsed (ticks_of (now s)) (mem s))))
                      (distance (now s))) in
    if in_window within lo hi (distance (now s)) then (Val tt, s1)
    else next (MainBlock.sleep_ms button 50)
           (fun _ => MainBlock.leg reading distance within fixed2 button
                       reverse show lo hi fuel) s1.
Proof.
  intros P B N. cbn [MainBlock.leg].
  rewrite (next_val _ _ _ _ _ (Main_status_idle (S fuel) s P B N)).
  set (sb := decision_of _).
  rewrite (next_val _ _ _ _ _ (show_logs (snd sb) _)). cbn [now mem log].
  unfold Main_pass, in_window. cbv zeta.
  destruct reverse;
    unfold next at 1; unfold next at 1; unfold act at 1 2; cbn [now mem log];
    unfold next at 1, sense at 1; cbn [now mem log];
    (destruct (distance (now s)) as [r |];
     [ unfold next at 1, MainBlock.say at 1, core at 1, print, emit;
       cbn [fst snd clock vars out now mem log map app];
       rewrite <- !app_assoc; cbn [app];
       destruct (within lo hi r); reflexivity
     | rewrite app_nil_r, <- !app_assoc; cbn [app]; reflexivity ]).
Qed.

(** The same for the movement loops of [main.py], whatever the direction,
    the window and the LED call of the loop, as long as that call returns
    and only logs ([show_logs]): left alone, the loop reads the sensor
    every 50 ms, prints each reading it gets, and ends at the first one
    within its window. *)
Theorem Main_leg_ends (n : nat) :
  forall (fuel : nat) (s : rig Main.globals),
    Main.paused (mem s) = false ->
    (forall t, now s <= t <= now s + 50 * Z.of_nat n -> button t = false) ->
    (forall t, now s <= t <= now s + 50 * Z.of_nat n ->
               band_of (Main.elapsed (ticks_of t) (mem s)) <> CRITICAL) ->
    (forall i, (i < n)%nat ->
               in_window within lo hi (distance (now s + 50 * Z.of_nat i)) = false) ->
    in_window within lo hi (distance (now s + 50 * Z.of_nat n)) = true ->
    (n < fuel)%nat ->
    MainBlock.leg reading distance within fixed2 button reverse show lo hi fuel s
    = (Val tt,
       Rig (now s + 50 * Z.of_nat n)
           (Main.set_button_hold_start 0 (mem s))
           (log s ++ Main_passes distance fixed2 reverse shown (mem s) (now s) n)).
Proof.
  induction n as [| n IH]; intros fuel s P B K Out In Hf;
    (destruct fuel as [| fuel]; [lia |]);
    rewrite (Main_leg_pass fuel s P (B (now s) ltac:(lia)) (K (now s) ltac:(lia)));
    cbv zeta.
  - replace (now s + 50 * Z.of_nat 0) with (now s) in In by lia.
    rewrite In. cbn [Main_passes]. rewrite app_nil_r.
    f_equal. f_equal. lia.
  - pose proof (Out 0%nat ltac:(lia)) as O0.
    replace (now s + 50 * Z.of_nat 0) with (now s) in O0 by lia.
    rewrite O0.
    match goal with
    | |- next _ _ ?s1 = _ =>
        rewrite (next_val _ _ _ _ _
                   (Main_sleep_idle 50 s1
                      ltac:(cbn [now]; intros t Ht; apply B; lia)))
    end.
    cbn [now mem log]. change (Z.of_nat 50) with 50.
    rewrite IH; cbn [now mem log]; try assumption; try lia.
    + rewrite Main_passes_hold_start.
      f_equal. f_equal; [lia |].
      cbn [Main_passes]. rewrite <- !app_assoc. reflexivity.
    + intros t Ht. apply B. lia.
    + intros t Ht. apply (K t). lia.
    + intros i Hi. specialize (Out (S i) ltac:(lia)).
      replace (now s + 50 + 50 * Z.of_nat i)
        with (now s + 50 * Z.of_nat (S i)) by lia.
      exact Out.
    + replace (now s + 50 + 50 * Z.of_nat n)
        with (now s + 50 * Z.of_nat (S n)) by lia.
      exact In.
Qed.

End MainLeg.

Lemma core_ticks_ms {G : Type} (s : rig G) :
  core ticks_ms s = (Val (ticks_of (now s)), s).
Proof.
  unfold core, ticks_ms. cbn. rewrite app_nil_r. now destruct s.
Qed.

Lemma Main_turn_passes_hold_start (v : Z) (g : Main.globals) (n : nat) :
  forall c,
    Main_turn_passes (Main.set_button_hold_start v g) c n
    = Main_turn_passes g c n.
Proof.
  induction n as [| n IH]; intros c; cbn [Main_turn_passes]; [reflexivity |].
  cbv zeta. rewrite IH. reflexivity.
Qed.

(** The turn loop of [main.py] with [n] passes of 50 ms left of its
    500 ms. *)
Lemma Main_turn_idle (c0 : Z) (n : nat) :
  forall (fuel : nat) (s : rig Main.globals),
    Main.paused (mem s) = false ->
    c0 <= now s ->
    now s + 50 * Z.of_nat n = c0 + 500 ->
    (forall t, now s <= t <= c0 + 500 -> button t = false) ->
    (forall t, now s <= t <= c0 + 500 ->
               band_of (Main.elapsed (ticks_of t) (mem s)) <> CRITICAL) ->
    (n < fuel)%nat ->
    MainBlock.turn button (ticks_of c0) fuel s
    = (Val tt,
       Rig (c0 + 500)
           (match n with
            | O => mem s
            | S _ => Main.set_button_hold_start 0 (mem s)
            end)
           (log s ++ Main_turn_passes (mem s) (now s) n)).
Proof.
  induction n as [| n IH]; intros fuel s P C0 T B K Hf;
    (destruct fuel as [| fuel]; [lia |]);
    cbn [MainBlock.turn];
    rewrite (next_val _ _ _ _ _ (core_ticks_ms s));
    rewrite ticks_diff_of by (unfold TICKS_HALF; lia).
  - destruct (Z.ltb_spec (now s - c0) 500); [lia |].
    unfold done. cbn [Main_turn_passes]. rewrite app_nil_r.
    destruct s as [c g l]. cbn [now mem log] in *. f_equal. f_equal. lia.
  - destruct (Z.ltb_spec (now s - c0) 500); [| lia].
    rewrite (next_val _ _ _ _ _
               (Main_status_idle (S fuel) s P
                  (B (now s) ltac:(lia)) (K (now s) ltac:(lia)))).
    set (sb := decision_of _).
    unfold next at 1, act at 1; cbn [now mem log].
    unfold next at 1, act at 1; cbn [now mem log].
    unfold next at 1, MainBlock.leds at 1, core at 1, set_leds, bind, emit;
      cbn [fst snd clock vars out now mem log map app].
    match goal with
    | |- next _ _ ?s1 = _ =>
        rewrite (next_val _ _ _ _ _
                   (Main_sleep_idle 50 s1
                      ltac:(cbn [now]; intros t Ht; apply B; lia)))
    end.
    cbn [now mem log]. change (Z.of_nat 50) with 50.
    rewrite IH; cbn [now mem log]; try assumption; try lia.
    + rewrite Main_turn_passes_hold_start.
      f_equal. f_equal; [now destruct n |].
      cbn [Main_turn_passes]. cbv zeta. fold sb. unfold leds_log.
      rewrite <- !app_assoc. reflexivity.
    + intros t Ht. apply B. lia.
    + intros t Ht. apply (K t). lia.
Qed.

(** The turn of [main.py] left alone makes exactly ten passes: the loop
    is bounded by the clock, 500 ms from its start, and each pass checks
    the status, spins the motors against each other and sleeps 50 ms. *)
Theorem Main_turn_ten_passes (fuel : nat) (s : rig Main.globals) :
  Main.paused (mem s) = false ->
  (forall t, now s <= t <= now s + 500 -> button t = false) ->
  (forall t, now s <= t <= now s + 500 ->
             band_of (Main.elapsed (ticks_of t) (mem s)) <> CRITICAL) ->
  (10 < fuel)%nat ->
  MainBlock.turning button fuel s
  = (Val tt,
     Rig (now s + 500) (Main.set_button_hold_start 0 (mem s))
         (log s ++ Main_turn_passes (mem s) (now s) 10)).
Proof.
  intros P B K Hf. unfold MainBlock.turning.
  rewrite (next_val _ _ _ _ _ (core_ticks_ms s)).
  exact (Main_turn_idle (now s) 10 fuel s P ltac:(lia) ltac:(lia) B K Hf).
Qed.

End Idle.

(** The work time of a program booted at 0 ms, read in its first second. *)
Lemma Bouncer_boot_band (t : Z) :
  0 <= t <= 1000 ->
  band_of (Bouncer.total_work_ms (ticks_of t) (Bouncer.boot 0)) <> CRITICAL.
Proof.
  intros Ht. unfold Bouncer.total_work_ms, Bouncer.boot.
  cbn [Bouncer.work_accumulated_time Bouncer.session_start_time].
  rewrite ticks_diff_of by (unfold TICKS_HALF; lia).
  destruct (band_of_cases (0 + (t - 0))) as [[_ ->] | [[_ ->] | [L _]]];
    [discriminate | discriminate | lia].
Qed.

Lemma Main_boot_band (t : Z) :
  0 <= t <= 1000 ->
  band_of (Main.elapsed (ticks_of t) (Main.boot 0)) <> CRITICAL.
Proof.
  intros Ht. unfold Main.elapsed, Main.boot.
  cbn [Main.start_time Main.total_paused_time].
  rewrite ticks_diff_of by (unfold TICKS_HALF; lia).
  destruct (band_of_cases (t - 0 - 0)) as [[_ ->] | [[_ ->] | [L _]]];
    [discriminate | discriminate | lia].
Qed.

(** [Bouncer_forward_leg_ends] on a robot that gets no reading at 0 ms,
    0.5 m at 50 ms and 0.3 m at 100 ms: the leg ends at 100 ms. *)
Lemma Bouncer_forward_leg_ends_witness :
  BouncerBlock.forward_leg Q approach between (fun _ => false) 3
    (Rig 0 (Bouncer.boot 0) [])
  = (Val tt,
     Rig (0 + 50 * Z.of_nat 2)
         (Bouncer.set_button_press_start 0 (Bouncer.boot 0))
         ([] ++ Bouncer_forward_passes (Bouncer.boot 0) 0 2)).
Proof.
  apply (Bouncer_forward_leg_ends Q approach between (fun _ => false) 2 3
           (Rig 0 (Bouncer.boot 0) [])).
  - reflexivity.
  - reflexivity.
  - cbn [now mem]. intros t Ht. apply Bouncer_boot_band. lia.
  - intros [| [| i]] Hi; [reflexivity | reflexivity | lia].
  - reflexivity.
  - lia.
Defined.

(** [Main_leg_ends] on Move 3 of [main.py] and the same readings. *)
Lemma Main_leg_ends_witness :
  MainBlock.move_3 Q approach between (fun _ => "0.xx"%string) (fun _ => false) 3
    (Rig 0 (Main.boot 0) [])
  = (Val tt,
     Rig (0 + 50 * Z.of_nat 2)
         (Main.set_button_hold_start 0 (Main.boot 0))
         ([] ++ Main_passes approach (fun _ => "0.xx"%string) false
                  (fun force_blue =>
                     if force_blue then leds_log 0 0 1 else leds_log 0 65535 0)
                  (Main.boot 0) 0 2)).
Proof.
  apply (Main_leg_ends Q approach between (fun _ => "0.xx"%string)
           (fun _ => false) false
           (fun force_blue =>
              if force_blue then MainBlock.leds 0 0 1 else MainBlock.leds 0 65535 0)
           (fun force_blue =>
              if force_blue then leds_log 0 0 1 else leds_log 0 65535 0)
           0.15 0.35 ltac:(intros [] s0; reflexivity)
           2 3 (Rig 0 (Main.boot 0) [])).
  - reflexivity.
  - reflexivity.
  - cbn [now mem]. intros t Ht. apply Main_boot_band. lia.
  - intros [| [| i]] Hi; [reflexivity | reflexivity | lia].
  - reflexivity.
  - lia.
Defined.

(** [Main_turn_ten_passes] on a turn begun at 0 ms. *)
Lemma Main_turn_ten_passes_witness :
  MainBlock.turning (fun _ => false) 11 (Rig 0 (Main.boot 0) [])
  = (Val tt,
     Rig (0 + 500) (Main.set_button_hold_start 0 (Main.boot 0))
         ([] ++ Main_turn_passes (Main.boot 0) 0 10)).
Proof.
  apply (Main_turn_ten_passes (fun _ => false) 11 (Rig 0 (Main.boot 0) [])).
  - reflexivity.
  - reflexivity.
  - cbn [now mem]. intros t Ht. apply Main_boot_band. lia.
  - lia.
Defined.

(* ===================================================================== *)
(** ** A pause during the turn *)
(* ===================================================================== *)

Section PausedTurn.

Variable button : Z -> bool.

(** The cycle of [main.py] that sits out a pause, with no press on record
    and the resuming press still down when the pause block returns. *)
Lemma Main_resuming_cycle (fuel : nat) (w : world Main.globals) (e : Z) :
  Main.paused (vars w) = true ->
  Main.button_hold_start (vars w) = 0 ->
  300 < ticks_diff (ticks_of e) (Main.last_button_time (vars w)) ->
  rising button e = true ->
  (forall t, clock w < t < e -> rising button t = false) ->
  clock w < e <= clock w + 10 * (Z.of_nat fuel - 1) ->
  (forall t, e <= t < e + 10 -> button t = true) ->
  (forall t, e <= t < e + 10 ->
             band_of (Main.elapsed (ticks_of t)
                        (Main.toggle_pause (ticks_of e) (vars w))) <> CRITICAL) ->
  exists c' ds,
    e <= c' < e + 10 /\
    Main.check_battery_and_get_speed button fuel w
    = (Val (decision_of
              (band_of (Main.elapsed (ticks_of c')
                          (Main.toggle_pause (ticks_of e) (vars w))))),
       World c'
             (Main.set_button_hold_start (ticks_of c')
                (Main.toggle_pause (ticks_of e) (vars w)))
             (out w ++ pause_entry ++ flat_map breathing_step ds
                    ++ [Console ">>> RESUMING"; Green 0])).
Proof.
  intros P S A R Q He Hd K.
  destruct (Main_pause_block_resume button fuel w e P A R Q He)
    as (w2 & ds & E & C & V & P2 & O).
  destruct (Main_toggle_resumes (ticks_of e) (vars w) A P) as (total & T).
  assert (S2 : Main.button_hold_start (vars w2) = 0)
    by (rewrite V, T; exact S).
  assert (B2 : button (clock w2) = true) by (apply Hd; lia).
  exists (clock w2), ds. split; [exact C |].
  unfold Main.check_battery_and_get_speed.
  rewrite (bind_val _ _ _ _ _ E).
  rewrite (bind_val _ _ _ _ _ (Main_poll_first button w2 B2 S2)).
  rewrite Main_battery_logic_eq. cbn [clock vars].
  change (Main.elapsed (ticks_of (clock w2))
            (Main.set_button_hold_start (ticks_of (clock w2)) (vars w2)))
    with (Main.elapsed (ticks_of (clock w2)) (vars w2)).
  rewrite V, O.
  pose proof (K (clock w2) C) as N.
  destruct (band_of (Main.elapsed (ticks_of (clock w2))
                       (Main.toggle_pause (ticks_of e) (vars w))));
    [reflexivity | reflexivity | now destruct N].
Qed.

(** A sleep with no rising edge. *)
Lemma Main_sleep_quiet (ms : nat) (s : rig Main.globals) :
  (forall t, now s < t <= now s + Z.of_nat ms -> rising button t = false) ->
  MainBlock.sleep_ms button ms s
  = (Val tt, Rig (now s + Z.of_nat ms) (mem s) (log s ++ [Core (Sleep ms)])).
Proof.
  intros Q. unfold MainBlock.sleep_ms.
  rewrite (core_eq _ s _ _
             (sleep_stable button Main.toggle_pause ms
                (World (now s) (mem s) [])
                ltac:(cbn [clock]; intros t Ht Rt;
                      rewrite (Q t Ht) in Rt; discriminate Rt))).
  reflexivity.
Qed.

(** In [main.py] the time spent paused counts against the 500 ms of the
    turn: when a pass of the turn loop finds the program PAUSED and the
    resuming press comes 450 ms or more after the start of the turn, the
    loop makes that one pass of 50 ms after resuming and ends, whatever
    part of the turn was still to be made when the pause began. *)
Theorem Main_pause_cuts_turn (fuel : nat) (s : rig Main.globals) (c0 e : Z) :
  Main.paused (mem s) = true ->
  Main.button_hold_start (mem s) = 0 ->
  c0 <= now s < c0 + 500 ->
  300 < ticks_diff (ticks_of e) (Main.last_button_time (mem s)) ->
  rising button e = true ->
  (forall t, now s < t < e -> rising button t = false) ->
  now s < e <= now s + 10 * (Z.of_nat fuel - 1) ->
  c0 + 450 <= e ->
  e + 60 - c0 < TICKS_HALF ->
  (forall t, e <= t <= e + 60 -> button t = true) ->
  (forall t, e <= t < e + 10 ->
             band_of (Main.elapsed (ticks_of t)
                        (Main.toggle_pause (ticks_of e) (mem s))) <> CRITICAL) ->
  exists c' ds speed,
    e <= c' < e + 10 /\
    (speed = 0.5%Q \/ speed = 0.25%Q) /\
    MainBlock.turn button (ticks_of c0) fuel s
    = (Val tt,
       Rig (c' + 50)
           (Main.set_button_hold_start (ticks_of c')
              (Main.toggle_pause (ticks_of e) (mem s)))
           (log s
            ++ map Core (pause_entry ++ flat_map breathing_step ds
                           ++ [Console ">>> RESUMING"; Green 0])
            ++ [Backward LeftMotor (Speed speed);
                Forward RightMotor (Speed speed)]
            ++ leds_log 0 65535 0
            ++ [Core (Sleep 50)])).
Proof.
  intros P H0 C0 A R Q He Late W Hd K.
  destruct fuel as [| [| fuel]]; [lia | lia |].
  destruct (Main_resuming_cycle (S (S fuel)) (World (now s) (mem s) []) e
              P H0 A R Q He ltac:(intros t Ht; apply Hd; lia) K)
    as (c' & ds & C & E).
  cbn [clock vars out] in E.
  exists c', ds. eexists. split; [exact C |].
  split; [apply decision_speed |].
  cbn [MainBlock.turn].
  rewrite (next_val _ _ _ _ _ (core_ticks_ms s)).
  rewrite ticks_diff_of by (unfold TICKS_HALF in *; lia).
  destruct (Z.ltb_spec (now s - c0) 500); [| lia].
  unfold MainBlock.check_battery_and_get_speed at 1.
  rewrite (next_val _ _ _ _ _ (core_eq _ s _ _ E)). cbn [clock vars out].
  unfold next at 1, act at 1; cbn [now mem log].
  unfold next at 1, act at 1; cbn [now mem log].
  unfold next at 1, MainBlock.leds at 1, core at 1, set_leds, bind, emit;
    cbn [fst snd clock vars out now mem log map app].
  match goal with
  | |- next _ _ ?s1 = _ =>
      rewrite (next_val _ _ _ _ _
                 (Main_sleep_quiet 50 s1
                    ltac:(cbn [now]; intros t Ht;
                          apply (held_not_rising button e (e + 60) Hd); lia)))
  end.
  cbn [now mem log]. change (Z.of_nat 50) with 50.
  rewrite (next_val _ _ _ _ _ (core_ticks_ms _)). cbn [now].
  rewrite ticks_diff_of by (unfold TICKS_HALF in *; lia).
  destruct (Z.ltb_spec (c' + 50 - c0) 500); [lia |].
  unfold done. f_equal. f_equal. unfold leds_log.
  rewrite <- !app_assoc. reflexivity.
Qed.

End PausedTurn.

(** [Main_pause_cuts_turn] on a turn begun at 900 ms, paused by a press at
    1000 ms and resumed by a press at 5000 ms: 400 ms of turning were left,
    50 ms are made. *)
Lemma Main_pause_cuts_turn_witness :
  exists c' ds speed,
    5000 <= c' < 5000 + 10 /\
    (speed = 0.5%Q \/ speed = 0.25%Q) /\
    MainBlock.turn press_twice (ticks_of 900) 402
      (Rig 1000 (Main.Globals true 1000 0 1000 0 0) [])
    = (Val tt,
       Rig (c' + 50)
           (Main.set_button_hold_start (ticks_of c')
              (Main.toggle_pause (ticks_of 5000)
                 (Main.Globals true 1000 0 1000 0 0)))
           ([]
            ++ map Core (pause_entry ++ flat_map breathing_step ds
                           ++ [Console ">>> RESUMING"; Green 0])
            ++ [Backward LeftMotor (Speed speed);
                Forward RightMotor (Speed speed)]
            ++ leds_log 0 65535 0
            ++ [Core (Sleep 50)])).
Proof.
  apply (Main_pause_cuts_turn press_twice 402
           (Rig 1000 (Main.Globals true 1000 0 1000 0 0) []) 900 5000).
  - reflexivity.
  - reflexivity.
  - cbn [now]. lia.
  - reflexivity.
  - reflexivity.
  - cbn [now]. intros t Ht. unfold rising, press_twice.
    repeat match goal with
           | |- context [?a <=? ?b] => destruct (Z.leb_spec a b)
           | |- context [?a <? ?b] => destruct (Z.ltb_spec a b)
           end; cbn; try reflexivity; lia.
  - cbn [now]. lia.
  - lia.
  - unfold TICKS_HALF. lia.
  - intros t Ht. unfold press_twice.
    destruct (Z.leb_spec 5000 t); [apply orb_true_r | lia].
  - intros t Ht. cbn [mem].
    change (Main.toggle_pause (ticks_of 5000) (Main.Globals true 1000 0 1000 0 0))
      with (Main.Globals false 5000 4000 1000 0 0).
    unfold Main.elapsed. cbn [Main.start_time Main.total_paused_time].
    pose proof (ticks_diff_of t 0 ltac:(unfold TICKS_HALF; lia)) as D.
    change (ticks_of 0) with 0 in D. rewrite D.
    destruct (band_of_cases (t - 0 - 4000)) as [[_ ->] | [[_ ->] | [L _]]];
      [discriminate | discriminate | lia].
Defined.

(* ===================================================================== *)
(** ** The standby pin *)
(* ===================================================================== *)

Section StandbyFacts.

Context {G : Type}.

Lemma emits_disables {A} (m : M G A) :
  emits leaves_standby m -> disables_on_hold_only m.
Proof.
  intros H w. destruct (H w) as (tr & E & F).
  exists tr, []. rewrite app_nil_r. repeat split; auto.
Qed.

Lemma disables_bind {A B} (m : M G A) (f : A -> M G B) :
  disables_on_hold_only m -> (forall a, disables_on_hold_only (f a)) ->
  disables_on_hold_only (bind m f).
Proof.
  intros Hm Hf w. unfold bind.
  destruct (Hm w) as (pre1 & post1 & E1 & F1 & T1).
  destruct (m w) as [[a | | ] w1]; cbn [fst snd] in *.
  - destruct T1 as [-> | [_ X]]; [| discriminate X].
    destruct (Hf a w1) as (pre2 & post2 & E2 & F2 & T2).
    exists (pre1 ++ pre2), post2. rewrite E2, E1, app_nil_r, forallb_app, F1, F2.
    rewrite <- !app_assoc. repeat split. exact T2.
  - exists pre1, post1. repeat split; try assumption.
    destruct T1 as [-> | [-> _]]; [now left | now right].
  - exists pre1, post1. repeat split; try assumption.
    destruct T1 as [-> | [_ X]]; [now left | discriminate X].
Qed.

Lemma run_disables_core {A} (m : M G A) :
  disables_on_hold_only m -> run_disables_on_hold_only (core m).
Proof.
  intros H s. destruct (H (World (now s) (mem s) [])) as (pre & post & E & F & T).
  cbn [out app] in E.
  exists (map Core pre), (map Core post). unfold core. cbn [fst snd log].
  rewrite E, map_app. repeat split.
  - apply Forall_forall. intros a Ha. apply in_map_iff in Ha.
    destruct Ha as (e & <- & He). cbn.
    rewrite forallb_forall in F. now apply F.
  - destruct T as [-> | [-> X]]; [now left | right]. split; [reflexivity | exact X].
Qed.

Lemma run_disables_quiet {A} (m : Run G A) :
  runs keeps_standby (fun _ => True) m -> run_disables_on_hold_only m.
Proof.
  intros H s. destruct (H s) as (tr & E & F & _).
  exists tr, []. rewrite app_nil_r. repeat split; auto.
Qed.

Lemma run_disables_next {A B} (m : Run G A) (f : A -> Run G B) :
  run_disables_on_hold_only m -> (forall a, run_disables_on_hold_only (f a)) ->
  run_disables_on_hold_only (next m f).
Proof.
  intros Hm Hf s. unfold next.
  destruct (Hm s) as (pre1 & post1 & E1 & F1 & T1).
  destruct (m s) as [[a | | ] s1]; cbn [fst snd] in *.
  - destruct T1 as [-> | [_ X]]; [| discriminate X].
    destruct (Hf a s1) as (pre2 & post2 & E2 & F2 & T2).
    exists (pre1 ++ pre2), post2. rewrite E2, E1, app_nil_r.
    rewrite <- !app_assoc. repeat split; [apply Forall_app; now split | exact T2].
  - exists pre1, post1. repeat split; try assumption.
    destruct T1 as [-> | [-> _]]; [now left | now right].
  - exists pre1, post1. repeat split; try assumption.
    destruct T1 as [-> | [_ X]]; [now left | discriminate X].
Qed.

End StandbyFacts.

Section StandbyStatus.

Variable button : Z -> bool.

Lemma Bouncer_fade_standby (duties : list Z) :
  emits leaves_standby (Bouncer.fade button duties).
Proof.
  induction duties as [| d ds IH]; cbn [Bouncer.fade]; [emit_walk |].
  apply emits_bind; [emit_walk |]. intros p. destruct (negb p); [emit_walk |].
  do 2 (apply emits_bind; [emit_walk |]; intros _). exact IH.
Qed.

Lemma Bouncer_breathing_standby (fuel : nat) :
  emits leaves_standby (Bouncer.breathing button fuel).
Proof.
  induction fuel as [| fuel IH]; cbn [Bouncer.breathing]; [emit_walk |].
  apply emits_bind; [emit_walk |]. intros p. destruct p; [| emit_walk].
  do 2 (apply emits_bind; [apply Bouncer_fade_standby |]; intros _).
  exact IH.
Qed.

Lemma Bouncer_blink_standby (fuel : nat) (end_time : Z) :
  emits leaves_standby (Bouncer.blink button fuel end_time).
Proof.
  induction fuel as [| fuel IH]; cbn [Bouncer.blink]; [emit_walk |].
  apply emits_bind; [emit_walk |]. intros t. destruct (t <? end_time); [| emit_walk].
  do 4 (apply emits_bind; [emit_walk |]; intros _). exact IH.
Qed.

Lemma Main_breathing_standby (fuel : nat) :
  forall duty direction,
    emits leaves_standby (Main.breathing button fuel duty direction).
Proof.
  induction fuel as [| fuel IH]; intros duty direction; cbn [Main.breathing];
    [emit_walk |].
  apply emits_bind; [emit_walk |]. intros p. destruct p; [| emit_walk].
  cbv zeta.
  do 2 (apply emits_bind; [emit_walk |]; intros _). apply IH.
Qed.

Lemma Main_blink_standby (fuel : nat) (end_time : Z) :
  emits leaves_standby (Main.blink button fuel end_time).
Proof.
  induction fuel as [| fuel IH]; cbn [Main.blink]; [emit_walk |].
  apply emits_bind; [emit_walk |]. intros t. destruct (t <? end_time); [| emit_walk].
  do 4 (apply emits_bind; [emit_walk |]; intros _). exact IH.
Qed.

(** The pause block and the battery step, shutdown included, leave the
    standby pin alone. *)
Lemma Bouncer_pause_handling_standby (fuel : nat) :
  emits leaves_standby (Bouncer.pause_handling button fuel).
Proof.
  unfold Bouncer.pause_handling.
  apply emits_bind; [emit_walk |]. intros p. destruct p; [| emit_walk].
  do 3 (apply emits_bind; [emit_walk |]; intros _).
  apply emits_bind; [apply Bouncer_breathing_standby |]. intros _. emit_walk.
Qed.

Lemma Bouncer_battery_logic_standby (fuel : nat) :
  emits leaves_standby (Bouncer.battery_logic button fuel).
Proof.
  unfold Bouncer.battery_logic.
  do 2 (apply emits_bind; [emit_walk |]; intros ?).
  destruct (band_of _); [emit_walk | emit_walk |].
  unfold Bouncer.shutdown.
  do 3 (apply emits_bind; [emit_walk |]; intros _).
  apply emits_bind; [emit_walk |]. intros t.
  apply emits_bind; [apply Bouncer_blink_standby |]. intros _. emit_walk.
Qed.

Lemma Main_pause_handling_standby (fuel : nat) :
  emits leaves_standby (Main.pause_handling button fuel).
Proof.
  unfold Main.pause_handling.
  apply emits_bind; [emit_walk |]. intros p. destruct p; [| emit_walk].
  do 3 (apply emits_bind; [emit_walk |]; intros _).
  apply emits_bind; [apply Main_breathing_standby |]. intros _. emit_walk.
Qed.

Lemma Main_battery_logic_standby (fuel : nat) :
  emits leaves_standby (Main.battery_logic button fuel).
Proof.
  unfold Main.battery_logic.
  do 2 (apply emits_bind; [emit_walk |]; intros ?).
  destruct (band_of _); [emit_walk | emit_walk |].
  unfold Main.shutdown.
  do 3 (apply emits_bind; [emit_walk |]; intros _).
  apply emits_bind; [emit_walk |]. intros t.
  apply emits_bind; [apply Main_blink_standby |]. intros _. emit_walk.
Qed.

(** The hold check writes nothing, or the termination sequence and
    exits. *)
Lemma Bouncer_termination_check_standby :
  disables_on_hold_only (Bouncer.termination_check button).
Proof.
  intros w. destruct (button (clock w)) eqn:B.
  - destruct (Z.eq_dec (Bouncer.button_press_start (vars w)) 0) as [Z0 | NZ].
    + rewrite (Bouncer_poll_first button w B Z0).
      exists [], []. cbn. rewrite app_nil_r. auto.
    + destruct (Z.le_gt_cases
                  (ticks_diff (ticks_of (clock w))
                     (Bouncer.button_press_start (vars w))) 3000) as [L | L].
      * rewrite (Bouncer_poll_waiting button w B NZ L).
        exists [], []. cbn. rewrite app_nil_r. auto.
      * rewrite (Bouncer_poll_exits button w B NZ L).
        exists [], termination_trace. cbn [fst snd out app]. auto.
  - rewrite (Bouncer_poll_released button w B).
    exists [], []. cbn. rewrite app_nil_r. auto.
Qed.

Lemma Main_termination_check_standby :
  disables_on_hold_only (Main.termination_check button).
Proof.
  intros w. destruct (button (clock w)) eqn:B.
  - destruct (Z.eq_dec (Main.button_hold_start (vars w)) 0) as [Z0 | NZ].
    + rewrite (Main_poll_first button w B Z0).
      exists [], []. cbn. rewrite app_nil_r. auto.
    + destruct (Z.le_gt_cases
                  (ticks_diff (ticks_of (clock w))
                     (Main.button_hold_start (vars w))) 3000) as [L | L].
      * rewrite (Main_poll_waiting button w B NZ L).
        exists [], []. cbn. rewrite app_nil_r. auto.
      * rewrite (Main_poll_exits button w B NZ L).
        exists [], termination_trace. cbn [fst snd out app]. auto.
  - rewrite (Main_poll_released button w B).
    exists [], []. cbn. rewrite app_nil_r. auto.
Qed.

Lemma Bouncer_check_status_standby (fuel : nat) :
  disables_on_hold_only (Bouncer.check_status button fuel).
Proof.
  unfold Bouncer.check_status.
  apply disables_bind; [apply Bouncer_termination_check_standby |]. intros _.
  apply disables_bind; intros;
    apply emits_disables;
    [apply Bouncer_pause_handling_standby | apply Bouncer_battery_logic_standby].
Qed.

Lemma Main_check_standby (fuel : nat) :
  disables_on_hold_only (Main.check_battery_and_get_speed button fuel).
Proof.
  unfold Main.check_battery_and_get_speed.
  apply disables_bind;
    [apply emits_disables; apply Main_pause_handling_standby |]. intros _.
  apply disables_bind; [apply Main_termination_check_standby |]. intros _.
  apply emits_disables. apply Main_battery_logic_standby.
Qed.

End StandbyStatus.

(** One step through a run for [run_disables_on_hold_only], by its shape. *)
Ltac guard_step :=
  lazymatch goal with
  | |- run_disables_on_hold_only (next _ _) =>
      apply run_disables_next; [| intros ?]
  | |- run_disables_on_hold_only (core (sleep _ _ _)) =>
      apply run_disables_core; apply emits_disables;
      apply emits_sleep; reflexivity
  | |- run_disables_on_hold_only (core _) =>
      apply run_disables_core; apply emits_disables; emit_walk
  | |- run_disables_on_hold_only (act _) =>
      apply run_disables_quiet; apply runs_act; exact I
  | |- run_disables_on_hold_only (done _) =>
      apply run_disables_quiet; apply runs_done; exact I
  | |- run_disables_on_hold_only stall =>
      apply run_disables_quiet; apply runs_stall
  | |- run_disables_on_hold_only (sense _) =>
      apply run_disables_quiet; apply runs_sense
  | |- run_disables_on_hold_only (match ?d with _ => _ end) => destruct d
  end.

Section StandbyRuns.

Variable reading : Type.
Variable distance : Z -> option reading.
Variable within : Q -> Q -> reading -> bool.
Variable fixed2 : reading -> string.
Variable button : Z -> bool.

Lemma Bouncer_status_guard (fuel : nat) :
  run_disables_on_hold_only (BouncerBlock.check_status button fuel).
Proof. apply run_disables_core. apply Bouncer_check_status_standby. Qed.

Lemma Main_status_guard (fuel : nat) :
  run_disables_on_hold_only (MainBlock.check_battery_and_get_speed button fuel).
Proof. apply run_disables_core. apply Main_check_standby. Qed.

Lemma Bouncer_forward_leg_guard (fuel : nat) :
  run_disables_on_hold_only
    (BouncerBlock.forward_leg reading distance within button fuel).
Proof.
  induction fuel as [| fuel IH]; cbn [BouncerBlock.forward_leg]; [guard_step |].
  apply run_disables_next; [apply Bouncer_status_guard | intros sb].
  unfold BouncerBlock.leds, BouncerBlock.sleep_ms.
  repeat first [guard_step | exact IH].
Qed.

Lemma Bouncer_backward_leg_guard (fuel : nat) :
  run_disables_on_hold_only
    (BouncerBlock.backward_leg reading distance within button fuel).
Proof.
  induction fuel as [| fuel IH]; cbn [BouncerBlock.backward_leg]; [guard_step |].
  apply run_disables_next; [apply Bouncer_status_guard | intros sb].
  unfold BouncerBlock.leds, BouncerBlock.sleep_ms.
  repeat first [guard_step | exact IH].
Qed.

Lemma Bouncer_movement_loop_guard (fuel : nat) :
  run_disables_on_hold_only
    (BouncerBlock.movement_loop reading distance within button fuel).
Proof.
  induction fuel as [| fuel IH]; cbn [BouncerBlock.movement_loop]; [guard_step |].
  unfold BouncerBlock.say, BouncerBlock.stop_and_wait, Dmd.stop,
    BouncerBlock.leds, BouncerBlock.sleep_ms.
  repeat first
    [ guard_step
    | lazymatch goal with
      | |- run_disables_on_hold_only (BouncerBlock.forward_leg _ _ _ _ _) =>
          apply Bouncer_forward_leg_guard
      | |- run_disables_on_hold_only (BouncerBlock.backward_leg _ _ _ _ _) =>
          apply Bouncer_backward_leg_guard
      | |- run_disables_on_hold_only (BouncerBlock.movement_loop _ _ _ _ _) =>
          exact IH
      end ].
Qed.

Lemma Bouncer_blinks_guard (n : nat) :
  run_disables_on_hold_only (BouncerBlock.blinks button n).
Proof.
  induction n as [| n IH]; cbn [BouncerBlock.blinks]; [guard_step |].
  unfold BouncerBlock.leds, BouncerBlock.sleep_ms.
  repeat first [guard_step | exact IH].
Qed.

Lemma Bouncer_main_try_guard (fuel : nat) :
  run_disables_on_hold_only
    (BouncerBlock.main_try reading distance within button fuel).
Proof.
  unfold BouncerBlock.main_try, BouncerBlock.system_check, BouncerBlock.say.
  repeat first
    [ guard_step
    | lazymatch goal with
      | |- run_disables_on_hold_only (BouncerBlock.movement_loop _ _ _ _ _) =>
          apply Bouncer_movement_loop_guard
      | |- run_disables_on_hold_only (BouncerBlock.blinks _ _) =>
          apply Bouncer_blinks_guard
      end ].
Qed.

Lemma Main_leg_guard (reverse : bool) (show : bool -> Run Main.globals unit)
    (lo hi : Q) (fuel : nat) :
  (forall b, run_disables_on_hold_only (show b)) ->
  run_disables_on_hold_only
    (MainBlock.leg reading distance within fixed2 button reverse show lo hi fuel).
Proof.
  intros Hshow. induction fuel as [| fuel IH]; cbn [MainBlock.leg]; [guard_step |].
  apply run_disables_next; [apply Main_status_guard | intros sb].
  apply run_disables_next; [apply Hshow | intros _].
  unfold MainBlock.say, MainBlock.sleep_ms.
  repeat first [guard_step | exact IH].
Qed.

Lemma Main_turn_guard (turn_start : Z) (fuel : nat) :
  run_disables_on_hold_only (MainBlock.turn button turn_start fuel).
Proof.
  induction fuel as [| fuel IH]; cbn [MainBlock.turn]; [guard_step |].
  apply run_disables_next; [guard_step | intros t].
  destruct (ticks_diff t turn_start <? 500); [| guard_step].
  apply run_disables_next; [apply Main_status_guard | intros sb].
  unfold MainBlock.leds, MainBlock.sleep_ms.
  repeat first [guard_step | exact IH].
Qed.

Lemma Main_movement_loop_guard (fuel : nat) :
  run_disables_on_hold_only
    (MainBlock.movement_loop reading distance within fixed2 button fuel).
Proof.
  induction fuel as [| fuel IH]; cbn [MainBlock.movement_loop]; [guard_step |].
  unfold MainBlock.say, MainBlock.move_1, MainBlock.move_2, MainBlock.move_3,
    MainBlock.move_4, MainBlock.turning, Dmd.stop, MainBlock.leds,
    MainBlock.sleep_ms.
  repeat first
    [ guard_step
    | lazymatch goal with
      | |- run_disables_on_hold_only (MainBlock.turn _ _ _) =>
          apply Main_turn_guard
      | |- run_disables_on_hold_only (MainBlock.leg _ _ _ _ _ _ _ _ _ _) =>
          apply Main_leg_guard; intros []; guard_step
      | |- run_disables_on_hold_only (MainBlock.movement_loop _ _ _ _ _ _) =>
          exact IH
      end ].
Qed.

Lemma Main_blinks_guard (n : nat) :
  run_disables_on_hold_only (MainBlock.blinks button n).
Proof.
  induction n as [| n IH]; cbn [MainBlock.blinks]; [guard_step |].
  unfold MainBlock.leds, MainBlock.sleep_ms.
  repeat first [guard_step | exact IH].
Qed.

Lemma Main_main_try_guard (fuel : nat) :
  run_disables_on_hold_only
    (MainBlock.main_try reading distance within fixed2 button fuel).
Proof.
  unfold MainBlock.main_try, MainBlock.system_check, MainBlock.say.
  repeat first
    [ guard_step
    | lazymatch goal with
      | |- run_disables_on_hold_only (MainBlock.movement_loop _ _ _ _ _ _) =>
          apply Main_movement_loop_guard
      | |- run_disables_on_hold_only (MainBlock.blinks _ _) =>
          apply Main_blinks_guard
      end ].
Qed.

End StandbyRuns.

(* ===================================================================== *)
(** ** Once the battery shutdown has begun *)
(* ===================================================================== *)

(** An event other than the message of the battery shutdown. *)
Lemma unmarked_core (tr : list event) :
  forallb (fun e => negb (shutdown_message e)) tr = true ->
  forallb (fun x => negb (shutdown_begins x)) (map Core tr) = true.
Proof.
  induction tr as [| e tr IH]; cbn [forallb map]; [reflexivity |].
  intros H. apply andb_prop in H. destruct H as [He H].
  cbn [shutdown_begins]. rewrite He. cbn. now apply IH.
Qed.

Lemma core_is_core (tr : list event) : forallb is_core (map Core tr) = true.
Proof. induction tr as [| e tr IH]; cbn; [reflexivity | exact IH]. Qed.

Lemma calm_cores (tr : list action) : forallb is_core tr = true -> calm tr.
Proof.
  induction tr as [| a tr IH]; cbn [calm forallb]; [trivial |].
  intros H. apply andb_prop in H. destruct H as [_ H]. split; [now intros _ | now apply IH].
Qed.

Lemma calm_unmarked (tr : list action) :
  forallb (fun x => negb (shutdown_begins x)) tr = true -> calm tr.
Proof.
  induction tr as [| a tr IH]; cbn [calm forallb]; [trivial |].
  intros H. apply andb_prop in H. destruct H as [Ha H]. split; [| now apply IH].
  intros M. rewrite M in Ha. discriminate Ha.
Qed.

Lemma calm_app_unmarked (l1 l2 : list action) :
  forallb (fun x => negb (shutdown_begins x)) l1 = true ->
  calm l2 -> calm (l1 ++ l2).
Proof.
  induction l1 as [| a l1 IH]; cbn [app calm forallb]; [trivial |].
  intros H C. apply andb_prop in H. destruct H as [Ha H]. split; [| now apply IH].
  intros M. rewrite M in Ha. discriminate Ha.
Qed.

Lemma calm_app_cores (l1 l2 : list action) :
  calm l1 -> forallb is_core l2 = true -> calm (l1 ++ l2).
Proof.
  induction l1 as [| a l1 IH]; cbn [app calm]; [intros _; apply calm_cores |].
  intros [Ha C] H. split; [| now apply IH].
  intros M. rewrite forallb_app, (Ha M), H. reflexivity.
Qed.

Lemma calm_prefix (l1 l2 : list action) : calm (l1 ++ l2) -> calm l1.
Proof.
  induction l1 as [| a l1 IH]; cbn [app calm]; [trivial |].
  intros [Ha C]. split; [| now apply IH].
  intros M. specialize (Ha M). rewrite forallb_app in Ha.
  apply andb_prop in Ha. apply Ha.
Qed.

Lemma calm_no_drive (tr : list action) : calm tr -> no_drive_after_critical tr.
Proof.
  intros C pre post E. subst tr. induction pre as [| a pre IH].
  - cbn [app calm] in C. apply (proj1 C). reflexivity.
  - cbn [app calm] in C. apply IH. apply C.
Qed.

Section SettlesFacts.

Context {G : Type}.

Lemma settles_done {A} (a : A) : settles (@done G A a).
Proof.
  intros s. exists []. cbn. rewrite app_nil_r. repeat split.
Qed.

Lemma settles_stall {A} : settles (@stall G A).
Proof.
  intros s. exists []. cbn. rewrite app_nil_r. repeat split.
Qed.

Lemma settles_sense {reading} (distance : Z -> option reading) :
  settles (@sense G reading distance).
Proof.
  intros s. exists []. cbn. rewrite app_nil_r. repeat split.
Qed.

Lemma settles_act (a : action) :
  shutdown_begins a = false -> settles (@act G a).
Proof.
  intros H s. exists [a]. cbn [act fst snd log calm forallb]. rewrite H.
  repeat split; try discriminate.
Qed.

(** A call into the machine that does not print the message. *)
Lemma settles_core_quiet {A} (m : M G A) :
  emits (fun e => negb (shutdown_message e)) m -> settles (core m).
Proof.
  intros H s. destruct (H (World (now s) (mem s) [])) as (tr & E & F).
  cbn [out app] in E. exists (map Core tr). unfold core. cbn [fst snd log].
  rewrite E. pose proof (unmarked_core tr F) as U.
  repeat split; [now apply calm_unmarked | intros _ _; exact U].
Qed.

(** A call into the machine that does not return once it has printed the
    message. *)
Lemma settles_core_final {A} (m : M G A) :
  (forall w a w', m w = (Val a, w') ->
     exists tr, out w' = out w ++ tr /\
                forallb (fun e => negb (shutdown_message e)) tr = true) ->
  grows m ->
  settles (core m).
Proof.
  intros H Gr s. destruct (Gr (World (now s) (mem s) [])) as (tr & E).
  cbn [out app] in E. exists (map Core tr). unfold core. cbn [fst snd log].
  rewrite E. repeat split; [apply calm_cores, core_is_core |].
  intros a V.
  destruct (m (World (now s) (mem s) [])) as [r w'] eqn:R. cbn [fst snd] in *.
  subst r. destruct (H _ _ _ R) as (tr' & E' & F').
  cbn [out app] in E'. rewrite E in E'. subst tr'. now apply unmarked_core.
Qed.

Lemma settles_next {A B} (m : Run G A) (f : A -> Run G B) :
  settles m -> (forall a, settles (f a)) -> settles (next m f).
Proof.
  intros Hm Hf s. unfold next. destruct (Hm s) as (tr1 & E1 & C1 & V1).
  destruct (m s) as [[a | | ] s1]; cbn [fst snd] in *.
  - destruct (Hf a s1) as (tr2 & E2 & C2 & V2).
    pose proof (V1 a eq_refl) as U1.
    exists (tr1 ++ tr2). rewrite E2, E1, app_assoc.
    repeat split; [now apply calm_app_unmarked |].
    intros b Vb. rewrite forallb_app, U1, (V2 b Vb). reflexivity.
  - exists tr1. repeat split; [exact E1 | exact C1 | discriminate].
  - exists tr1. repeat split; [exact E1 | exact C1 | discriminate].
Qed.

End SettlesFacts.

Lemma disables_grows {G A} (m : M G A) : disables_on_hold_only m -> grows m.
Proof.
  intros H w. destruct (H w) as (pre & post & E & _). now exists (pre ++ post).
Qed.

Section ShutdownMessage.

Variable button : Z -> bool.

Lemma Bouncer_fade_unmarked (duties : list Z) :
  emits unmarked (Bouncer.fade button duties).
Proof.
  induction duties as [| d ds IH]; cbn [Bouncer.fade]; [emit_walk |].
  apply emits_bind; [emit_walk |]. intros p. destruct (negb p); [emit_walk |].
  do 2 (apply emits_bind; [emit_walk |]; intros _). exact IH.
Qed.

Lemma Bouncer_breathing_unmarked (fuel : nat) :
  emits unmarked (Bouncer.breathing button fuel).
Proof.
  induction fuel as [| fuel IH]; cbn [Bouncer.breathing]; [emit_walk |].
  apply emits_bind; [emit_walk |]. intros p. destruct p; [| emit_walk].
  do 2 (apply emits_bind; [apply Bouncer_fade_unmarked |]; intros _).
  exact IH.
Qed.

Lemma Main_breathing_unmarked (fuel : nat) :
  forall duty direction,
    emits unmarked (Main.breathing button fuel duty direction).
Proof.
  induction fuel as [| fuel IH]; intros duty direction; cbn [Main.breathing];
    [emit_walk |].
  apply emits_bind; [emit_walk |]. intros p. destruct p; [| emit_walk].
  cbv zeta.
  do 2 (apply emits_bind; [emit_walk |]; intros _). apply IH.
Qed.

Lemma Bouncer_pause_handling_unmarked (fuel : nat) :
  emits unmarked (Bouncer.pause_handling button fuel).
Proof.
  unfold Bouncer.pause_handling.
  apply emits_bind; [emit_walk |]. intros p. destruct p; [| emit_walk].
  do 3 (apply emits_bind; [emit_walk |]; intros _).
  apply emits_bind; [apply Bouncer_breathing_unmarked |]. intros _. emit_walk.
Qed.

Lemma Main_pause_handling_unmarked (fuel : nat) :
  emits unmarked (Main.pause_handling button fuel).
Proof.
  unfold Main.pause_handling.
  apply emits_bind; [emit_walk |]. intros p. destruct p; [| emit_walk].
  do 3 (apply emits_bind; [emit_walk |]; intros _).
  apply emits_bind; [apply Main_breathing_unmarked |]. intros _. emit_walk.
Qed.

Lemma Bouncer_termination_check_unmarked :
  emits unmarked (Bouncer.termination_check button).
Proof. unfold Bouncer.termination_check. emit_walk. Qed.

Lemma Main_termination_check_unmarked :
  emits unmarked (Main.termination_check button).
Proof. unfold Main.termination_check. emit_walk. Qed.

(** A status call that returns has not printed the message of the battery
    shutdown. *)
Lemma Bouncer_returns_unmarked (fuel : nat) (w w' : world Bouncer.globals) d :
  Bouncer.check_status button fuel w = (Val d, w') ->
  exists tr, out w' = out w ++ tr /\ forallb unmarked tr = true.
Proof.
  unfold Bouncer.check_status. intros E.
  apply bind_inv in E. destruct E as ([] & w1 & E1 & E).
  apply bind_inv in E. destruct E as ([] & w2 & E2 & E).
  destruct (Bouncer_termination_check_unmarked w) as (tr1 & O1 & F1).
  destruct (Bouncer_pause_handling_unmarked fuel w1) as (tr2 & O2 & F2).
  rewrite E1 in O1. rewrite E2 in O2. cbn [snd] in O1, O2.
  rewrite Bouncer_battery_logic_eq in E.
  destruct (band_of _).
  - injection E as _ <-. exists (tr1 ++ tr2).
    rewrite O2, O1, app_assoc, forallb_app, F1, F2. split; reflexivity.
  - injection E as _ <-. exists (tr1 ++ tr2).
    rewrite O2, O1, app_assoc, forallb_app, F1, F2. split; reflexivity.
  - exfalso. exact (Bouncer_shutdown_never_returns button fuel w2 d w' E).
Qed.

Lemma Main_returns_unmarked (fuel : nat) (w w' : world Main.globals) d :
  Main.check_battery_and_get_speed button fuel w = (Val d, w') ->
  exists tr, out w' = out w ++ tr /\ forallb unmarked tr = true.
Proof.
  unfold Main.check_battery_and_get_speed. intros E.
  apply bind_inv in E. destruct E as ([] & w1 & E1 & E).
  apply bind_inv in E. destruct E as ([] & w2 & E2 & E).
  destruct (Main_pause_handling_unmarked fuel w) as (tr1 & O1 & F1).
  destruct (Main_termination_check_unmarked w1) as (tr2 & O2 & F2).
  rewrite E1 in O1. rewrite E2 in O2. cbn [snd] in O1, O2.
  rewrite Main_battery_logic_eq in E.
  destruct (band_of _).
  - injection E as _ <-. exists (tr1 ++ tr2).
    rewrite O2, O1, app_assoc, forallb_app, F1, F2. split; reflexivity.
  - injection E as _ <-. exists (tr1 ++ tr2).
    rewrite O2, O1, app_assoc, forallb_app, F1, F2. split; reflexivity.
  - exfalso. exact (Main_shutdown_never_returns button fuel w2 d w' E).
Qed.

Lemma Bouncer_status_settles (fuel : nat) :
  settles (BouncerBlock.check_status button fuel).
Proof.
  apply settles_core_final.
  - intros w a w'. apply Bouncer_returns_unmarked.
  - apply disables_grows. apply Bouncer_check_status_standby.
Qed.

Lemma Main_status_settles (fuel : nat) :
  settles (MainBlock.check_battery_and_get_speed button fuel).
Proof.
  apply settles_core_final.
  - intros w a w'. apply Main_returns_unmarked.
  - apply disables_grows. apply Main_check_standby.
Qed.

End ShutdownMessage.

(** One step through a run for [settles], by its shape. *)
Ltac settle_step :=
  lazymatch goal with
  | |- settles (next _ _) => apply settles_next; [| intros ?]
  | |- settles (core (sleep _ _ _)) =>
      apply settles_core_quiet; apply emits_sleep; reflexivity
  | |- settles (core _) => apply settles_core_quiet; emit_walk
  | |- settles (act _) => apply settles_act; reflexivity
  | |- settles (done _) => apply settles_done
  | |- settles stall => apply settles_stall
  | |- settles (sense _) => apply settles_sense
  | |- settles (match ?d with _ => _ end) => destruct d
  end.

Section SettlesRuns.

Variable reading : Type.
Variable distance : Z -> option reading.
Variable within : Q -> Q -> reading -> bool.
Variable fixed2 : reading -> string.
Variable button : Z -> bool.

Lemma Bouncer_forward_leg_settles (fuel : nat) :
  settles (BouncerBlock.forward_leg reading distance within button fuel).
Proof.
  induction fuel as [| fuel IH]; cbn [BouncerBlock.forward_leg]; [settle_step |].
  apply settles_next; [apply Bouncer_status_settles | intros sb].
  unfold BouncerBlock.leds, BouncerBlock.sleep_ms.
  repeat first [settle_step | exact IH].
Qed.

Lemma Bouncer_backward_leg_settles (fuel : nat) :
  settles (BouncerBlock.backward_leg reading distance within button fuel).
Proof.
  induction fuel as [| fuel IH]; cbn [BouncerBlock.backward_leg]; [settle_step |].
  apply settles_next; [apply Bouncer_status_settles | intros sb].
  unfold BouncerBlock.leds, BouncerBlock.sleep_ms.
  repeat first [settle_step | exact IH].
Qed.

Lemma Bouncer_movement_loop_settles (fuel : nat) :
  settles (BouncerBlock.movement_loop reading distance within button fuel).
Proof.
  induction fuel as [| fuel IH]; cbn [BouncerBlock.movement_loop]; [settle_step |].
  unfold BouncerBlock.say, BouncerBlock.stop_and_wait, Dmd.stop,
    BouncerBlock.leds, BouncerBlock.sleep_ms.
  repeat first
    [ settle_step
    | lazymatch goal with
      | |- settles (BouncerBlock.forward_leg _ _ _ _ _) =>
          apply Bouncer_forward_leg_settles
      | |- settles (BouncerBlock.backward_leg _ _ _ _ _) =>
          apply Bouncer_backward_leg_settles
      | |- settles (BouncerBlock.movement_loop _ _ _ _ _) => exact IH
      end ].
Qed.

Lemma Bouncer_blinks_settles (n : nat) :
  settles (BouncerBlock.blinks button n).
Proof.
  induction n as [| n IH]; cbn [BouncerBlock.blinks]; [settle_step |].
  unfold BouncerBlock.leds, BouncerBlock.sleep_ms.
  repeat first [settle_step | exact IH].
Qed.

Lemma Bouncer_main_try_settles (fuel : nat) :
  settles (BouncerBlock.main_try reading distance within button fuel).
Proof.
  unfold BouncerBlock.main_try, BouncerBlock.system_check, BouncerBlock.say.
  repeat first
    [ settle_step
    | lazymatch goal with
      | |- settles (BouncerBlock.movement_loop _ _ _ _ _) =>
          apply Bouncer_movement_loop_settles
      | |- settles (BouncerBlock.blinks _ _) => apply Bouncer_blinks_settles
      end ].
Qed.

Lemma Main_leg_settles (reverse : bool) (show : bool -> Run Main.globals unit)
    (lo hi : Q) (fuel : nat) :
  (forall b, settles (show b)) ->
  settles (MainBlock.leg reading distance within fixed2 button reverse show lo hi fuel).
Proof.
  intros Hshow. induction fuel as [| fuel IH]; cbn [MainBlock.leg]; [settle_step |].
  apply settles_next; [apply Main_status_settles | intros sb].
  apply settles_next; [apply Hshow | intros _].
  unfold MainBlock.say, MainBlock.sleep_ms.
  repeat first [settle_step | exact IH].
Qed.

Lemma Main_turn_settles (turn_start : Z) (fuel : nat) :
  settles (MainBlock.turn button turn_start fuel).
Proof.
  induction fuel as [| fuel IH]; cbn [MainBlock.turn]; [settle_step |].
  apply settles_next; [settle_step | intros t].
  destruct (ticks_diff t turn_start <? 500); [| settle_step].
  apply settles_next; [apply Main_status_settles | intros sb].
  unfold MainBlock.leds, MainBlock.sleep_ms.
  repeat first [settle_step | exact IH].
Qed.

Lemma Main_movement_loop_settles (fuel : nat) :
  settles (MainBlock.movement_loop reading distance within fixed2 button fuel).
Proof.
  induction fuel as [| fuel IH]; cbn [MainBlock.movement_loop]; [settle_step |].
  unfold MainBlock.say, MainBlock.move_1, MainBlock.move_2, MainBlock.move_3,
    MainBlock.move_4, MainBlock.turning, Dmd.stop, MainBlock.leds,
    MainBlock.sleep_ms.
  repeat first
    [ settle_step
    | lazymatch goal with
      | |- settles (MainBlock.turn _ _ _) => apply Main_turn_settles
      | |- settles (MainBlock.leg _ _ _ _ _ _ _ _ _ _) =>
          apply Main_leg_settles; intros []; settle_step
      | |- settles (MainBlock.movement_loop _ _ _ _ _ _) => exact IH
      end ].
Qed.

Lemma Main_blinks_settles (n : nat) :
  settles (MainBlock.blinks button n).
Proof.
  induction n as [| n IH]; cbn [MainBlock.blinks]; [settle_step |].
  unfold MainBlock.leds, MainBlock.sleep_ms.
  repeat first [settle_step | exact IH].
Qed.

Lemma Main_main_try_settles (fuel : nat) :
  settles (MainBlock.main_try reading distance within fixed2 button fuel).
Proof.
  unfold MainBlock.main_try, MainBlock.system_check, MainBlock.say.
  repeat first
    [ settle_step
    | lazymatch goal with
      | |- settles (MainBlock.movement_loop _ _ _ _ _ _) =>
          apply Main_movement_loop_settles
      | |- settles (MainBlock.blinks _ _) => apply Main_blinks_settles
      end ].
Qed.

End SettlesRuns.

(* ===================================================================== *)
(** ** Ctrl-C *)
(* ===================================================================== *)

(** What happened of the body before the exception is a prefix of what it
    would have logged. *)
Lemma until_ctrl_c_prefix (stop : Z) (tr : list action) :
  forall c entered,
    until_ctrl_c stop c tr = Some entered -> exists rest, tr = entered ++ rest.
Proof.
  induction tr as [| a tr IH]; intros c entered E; [discriminate E |].
  assert (Step : forall c', option_map (cons a) (until_ctrl_c stop c' tr) = Some entered ->
                            exists rest, a :: tr = entered ++ rest).
  { intros c' E'. destruct (until_ctrl_c stop c' tr) as [e' |] eqn:U;
      [| discriminate E'].
    injection E' as <-. destruct (IH c' e' U) as (rest & ->). now exists rest. }
  destruct a as [e | m d | m d]; cbn [until_ctrl_c] in E;
    try (apply (Step c); exact E).
  destruct e; try (apply (Step c); exact E).
  destruct (stop <? c + Z.of_nat ms).
  - injection E as <-. now exists tr.
  - apply (Step (c + Z.of_nat ms)). exact E.
Qed.

(** The exception is raised in a sleep: a tail that does not sleep has
    either happened or not begun. *)
Lemma until_ctrl_c_app (stop : Z) (l1 l2 : list action) :
  forallb no_sleep l2 = true ->
  forall c, until_ctrl_c stop c (l1 ++ l2) = until_ctrl_c stop c l1.
Proof.
  intros H.
  assert (Base : forall c, until_ctrl_c stop c l2 = None).
  { induction l2 as [| a l2 IH]; intros c; [reflexivity |].
    cbn [forallb] in H. apply andb_prop in H. destruct H as [Ha H].
    destruct a as [e | m d | m d]; cbn [until_ctrl_c];
      try (rewrite (IH H); reflexivity).
    destruct e; try (rewrite (IH H); reflexivity). discriminate Ha. }
  induction l1 as [| a l1 IH]; intros c; [apply Base |].
  cbn [app]. destruct a as [e | m d | m d]; cbn [until_ctrl_c];
    try (rewrite IH; reflexivity).
  destruct e; rewrite IH; reflexivity.
Qed.

Lemma Forall_prefix {A} (P : A -> Prop) (l1 l2 : list A) :
  Forall P (l1 ++ l2) -> Forall P l1.
Proof. intros H. apply Forall_app in H. apply H. Qed.

Section CtrlC.

Context {G : Type}.
Variable ctrl_c : option Z.
Variable body : Run G unit.
Variable handler : Run unit unit.

Hypothesis handler_logs :
  forall c l, handler (Rig c tt l) = (Val tt, Rig c tt (l ++ keyboard_interrupt_log)).

(** The [try] statement either lets the body be, or cuts it at the entry
    of a sleep and runs the handler. *)
Lemma try_except_cases (s : rig G) :
  let r := body (Rig (now s) (mem s) []) in
  try_except_KeyboardInterrupt ctrl_c body handler s = (fst r, log s ++ log (snd r)) \/
  exists stop entered,
    ctrl_c = Some stop /\
    until_ctrl_c stop (now s) (log (snd r)) = Some entered /\
    try_except_KeyboardInterrupt ctrl_c body handler s
    = (Val tt, log s ++ entered ++ keyboard_interrupt_log).
Proof.
  unfold try_except_KeyboardInterrupt. cbv zeta.
  destruct ctrl_c as [stop |]; [| now left].
  destruct (until_ctrl_c stop (now s)
              (log (snd (body (Rig (now s) (mem s) []))))) as [entered |] eqn:U;
    [| now left].
  right. exists stop, entered. split; [reflexivity |]. split; [exact U |].
  rewrite handler_logs. cbn [fst snd log]. now rewrite app_assoc.
Qed.

Lemma try_except_paced (s : rig G) :
  runs battery_speed (fun _ => True) body ->
  settles body ->
  exists tr,
    snd (try_except_KeyboardInterrupt ctrl_c body handler s) = log s ++ tr /\
    Forall battery_speed tr /\ calm tr.
Proof.
  intros Hr Hs.
  destruct (Hr (Rig (now s) (mem s) [])) as (tr & E & F & _).
  destruct (Hs (Rig (now s) (mem s) [])) as (tr' & E' & C & _).
  cbn [log app] in E, E'. rewrite E in E'. subst tr'.
  destruct (try_except_cases s) as [X | (stop & entered & _ & U & X)];
    cbv zeta in *; rewrite X; cbn [snd].
  - exists tr. rewrite E. repeat split; assumption.
  - rewrite E in U. destruct (until_ctrl_c_prefix _ _ _ _ U) as (rest & ->).
    exists (entered ++ keyboard_interrupt_log). repeat split.
    + apply Forall_app. split; [exact (Forall_prefix _ _ _ F) |].
      repeat constructor.
    + apply calm_app_cores; [exact (calm_prefix _ _ C) | reflexivity].
Qed.

Lemma try_except_guard (s : rig G) :
  run_disables_on_hold_only body ->
  exists pre post,
    snd (try_except_KeyboardInterrupt ctrl_c body handler s) = log s ++ pre ++ post /\
    Forall keeps_standby pre /\
    (post = [] \/
     (post = map Core termination_trace /\
      fst (try_except_KeyboardInterrupt ctrl_c body handler s) = Exited) \/
     (post = keyboard_interrupt_log /\ ctrl_c <> None /\
      fst (try_except_KeyboardInterrupt ctrl_c body handler s) = Val tt)).
Proof.
  intros Hg.
  destruct (Hg (Rig (now s) (mem s) [])) as (pre & post & E & F & T).
  cbn [log app] in E.
  destruct (try_except_cases s) as [X | (stop & entered & Cc & U & X)];
    cbv zeta in *; rewrite X; cbn [fst snd].
  - exists pre, post. rewrite E. repeat split; [exact F |].
    destruct T as [-> | [-> Ex]]; [now left | right; left; now split].
  - rewrite E in U.
    assert (Sl : forallb no_sleep post = true)
      by (destruct T as [-> | [-> _]]; reflexivity).
    rewrite (until_ctrl_c_app stop pre post Sl) in U.
    destruct (until_ctrl_c_prefix _ _ _ _ U) as (rest & ->).
    exists entered, keyboard_interrupt_log. repeat split.
    + exact (Forall_prefix _ _ _ F).
    + right. right. repeat split. rewrite Cc. discriminate.
Qed.

End CtrlC.

(** A call that only emits, seen from the rig. *)
Lemma core_emit {G : Type} (e : event) (s : rig G) :
  core (emit e) s = (Val tt, Rig (now s) (mem s) (log s ++ [Core e])).
Proof. reflexivity. Qed.

Lemma core_dmd_stop {G : Type} (s : rig G) :
  core dmd_stop s
  = (Val tt, Rig (now s) (mem s) (log s ++ [Core LeftStop; Core RightStop])).
Proof. reflexivity. Qed.

Lemma core_set_leds {G : Type} (r g_pwm b : Z) (s : rig G) :
  core (set_leds r g_pwm b) s
  = (Val tt, Rig (now s) (mem s) (log s ++ leds_log r g_pwm b)).
Proof. reflexivity. Qed.

Lemma keyboard_interrupt_logs (c : Z) (l : list action) :
  BouncerBlock.keyboard_interrupt (Rig c tt l)
  = (Val tt, Rig c tt (l ++ keyboard_interrupt_log)) /\
  MainBlock.keyboard_interrupt (Rig c tt l)
  = (Val tt, Rig c tt (l ++ keyboard_interrupt_log)).
Proof.
  split;
    [unfold BouncerBlock.keyboard_interrupt | unfold MainBlock.keyboard_interrupt];
    unfold Dmd.stop, Dmd.disable, dmd_disable, print;
    rewrite (next_val _ _ _ _ _ (core_dmd_stop _)); cbn [now mem log];
    rewrite (next_val _ _ _ _ _ (core_emit _ _)); cbn [now mem log];
    rewrite (next_val _ _ _ _ _ (core_set_leds _ _ _ _)); cbn [now mem log];
    rewrite core_emit; cbn [now mem log];
    unfold keyboard_interrupt_log, leds_log; cbn [map];
    rewrite <- !app_assoc; reflexivity.
Qed.

(** Building the driver and enabling it. *)
Lemma driver_startup {G : Type} (s : rig G) :
  next Dmd.init (fun _ => Dmd.enable) s
  = (Val tt,
     Rig (now s) (mem s)
         (log s ++ [Core (Standby false); Core (Standby true)])).
Proof.
  unfold Dmd.init, Dmd.enable, Dmd.disable, dmd_disable.
  rewrite (next_val _ _ _ _ _ (core_emit _ _)); cbn [now mem log].
  rewrite core_emit; cbn [now mem log].
  rewrite <- app_assoc. reflexivity.
Qed.

Section Programs.

Variable reading : Type.
Variable distance : Z -> option reading.
Variable within : Q -> Q -> reading -> bool.
Variable fixed2 : reading -> string.
Variable button : Z -> bool.
Variable ctrl_c : option Z.

(** Whatever the button and the sensor do, whenever Ctrl-C comes if it
    does, and from any state: every [forward] and [backward] call the two
    programs make on a motor is made with a speed the battery logic
    returned, 0.5 or 0.25, and once the battery shutdown has begun no such
    call is made any more. *)
Theorem drive_speeds (fuel : nat) :
  (forall s, exists tr,
     snd (BouncerBlock.program reading distance within button ctrl_c fuel s)
     = log s ++ tr /\
     Forall battery_speed tr /\ no_drive_after_critical tr) /\
  (forall s, exists tr,
     snd (MainBlock.program reading distance within fixed2 button ctrl_c fuel s)
     = log s ++ tr /\
     Forall battery_speed tr /\ no_drive_after_critical tr).
Proof.
  split; intros s.
  - unfold BouncerBlock.program. rewrite driver_startup.
    unfold BouncerBlock.main_block.
    destruct (try_except_paced ctrl_c
                (BouncerBlock.main_try reading distance within button fuel)
                BouncerBlock.keyboard_interrupt
                (fun c l => proj1 (keyboard_interrupt_logs c l))
                (Rig (now s) (mem s)
                     (log s ++ [Core (Standby false); Core (Standby true)]))
                (Bouncer_main_try_speed reading distance within button fuel)
                (Bouncer_main_try_settles reading distance within button fuel))
      as (tr & E & F & C).
    exists ([Core (Standby false); Core (Standby true)] ++ tr).
    rewrite E. cbn [log]. rewrite <- app_assoc.
    repeat split.
    + apply Forall_app. split; [repeat constructor | exact F].
    + apply calm_no_drive. apply calm_app_unmarked; [reflexivity | exact C].
  - unfold MainBlock.program. rewrite driver_startup.
    unfold MainBlock.main_block.
    destruct (try_except_paced ctrl_c
                (MainBlock.main_try reading distance within fixed2 button fuel)
                MainBlock.keyboard_interrupt
                (fun c l => proj2 (keyboard_interrupt_logs c l))
                (Rig (now s) (mem s)
                     (log s ++ [Core (Standby false); Core (Standby true)]))
                (Main_main_try_speed reading distance within fixed2 button fuel)
                (Main_main_try_settles reading distance within fixed2 button fuel))
      as (tr & E & F & C).
    exists ([Core (Standby false); Core (Standby true)] ++ tr).
    rewrite E. cbn [log]. rewrite <- app_assoc.
    repeat split.
    + apply Forall_app. split; [repeat constructor | exact F].
    + apply calm_no_drive. apply calm_app_unmarked; [reflexivity | exact C].
Qed.

(** Both programs build the motor driver, which leaves it disabled, and
    enable it.  From then on the standby pin is written in two places
    only, each the last thing the program does: the hold termination of
    the status function, before [sys.exit()], and the
    [except KeyboardInterrupt] clause if Ctrl-C comes.  The pause block
    and the battery shutdown stop the motors and leave the driver
    enabled. *)
Theorem driver_disabled_at_the_end (fuel : nat) :
  (forall s, exists pre post,
     snd (BouncerBlock.program reading distance within button ctrl_c fuel s)
     = log s ++ [Core (Standby false); Core (Standby true)] ++ pre ++ post /\
     Forall keeps_standby pre /\
     (post = [] \/
      (post = map Core termination_trace /\
       fst (BouncerBlock.program reading distance within button ctrl_c fuel s)
       = Exited) \/
      (post = keyboard_interrupt_log /\ ctrl_c <> None /\
       fst (BouncerBlock.program reading distance within button ctrl_c fuel s)
       = Val tt)))
  /\
  (forall s, exists pre post,
     snd (MainBlock.program reading distance within fixed2 button ctrl_c fuel s)
     = log s ++ [Core (Standby false); Core (Standby true)] ++ pre ++ post /\
     Forall keeps_standby pre /\
     (post = [] \/
      (post = map Core termination_trace /\
       fst (MainBlock.program reading distance within fixed2 button ctrl_c fuel s)
       = Exited) \/
      (post = keyboard_interrupt_log /\ ctrl_c <> None /\
       fst (MainBlock.program reading distance within fixed2 button ctrl_c fuel s)
       = Val tt))).
Proof.
  split; intros s.
  - unfold BouncerBlock.program. rewrite driver_startup.
    unfold BouncerBlock.main_block.
    destruct (try_except_guard ctrl_c
                (BouncerBlock.main_try reading distance within button fuel)
                BouncerBlock.keyboard_interrupt
                (fun c l => proj1 (keyboard_interrupt_logs c l))
                (Rig (now s) (mem s)
                     (log s ++ [Core (Standby false); Core (Standby true)]))
                (Bouncer_main_try_guard reading distance within button fuel))
      as (pre & post & E & F & T).
    exists pre, post. rewrite E. cbn [log]. rewrite <- app_assoc.
    repeat split; assumption.
  - unfold MainBlock.program. rewrite driver_startup.
    unfold MainBlock.main_block.
    destruct (try_except_guard ctrl_c
                (MainBlock.main_try reading distance within fixed2 button fuel)
                MainBlock.keyboard_interrupt
                (fun c l => proj2 (keyboard_interrupt_logs c l))
                (Rig (now s) (mem s)
                     (log s ++ [Core (Standby false); Core (Standby true)]))
                (Main_main_try_guard reading distance within fixed2 button fuel))
      as (pre & post & E & F & T).
    exists pre, post. rewrite E. cbn [log]. rewrite <- app_assoc.
    repeat split; assumption.
Qed.

End Programs.
